(** * Zettelkasten note index: a shallow embedding of [zettelkasten_app.py]

    The development follows the source file top down: the Python built-ins
    the program relies on ([Py]), the notes directory ([Fs]), the module
    level helpers ([list_note_files], [get_next_id], [generate_filename],
    [find_backlinks], [extract_tags]) and the methods of [ZettelkastenApp]
    that touch the store ([refresh_list], [new_note], [delete_note],
    [search_notes]), written in a small state-and-exception monad.

    Text is [string]: a character is an [ascii], read as the Unicode code
    point 0..255.  The character classes below are Python 3's for that
    range; text outside it is not covered by the model. *)

From Stdlib Require Import Bool List ZArith NArith Lia Ascii String.
From Stdlib Require Import Sorted Permutation OrderedTypeEx.
From Stdlib Require Import Decimal DecimalString DecimalZ DecimalPos DecimalN.
Import ListNotations.

Local Open Scope string_scope.
Local Open Scope list_scope.

(* ================================================================== *)
(** ** Python built-ins on [str] and [int] *)
(* ================================================================== *)

Module Py.

Definition code (c : ascii) : N := N_of_ascii c.

Definition between (lo hi : N) (c : ascii) : bool :=
  ((lo <=? code c) && (code c <=? hi))%N.

(** [str.isspace] for one character: what [str.strip] and [str.split]
    without argument remove. *)
Definition is_space (c : ascii) : bool :=
  between 9 13 c || between 28 32 c || (code c =? 133)%N || (code c =? 160)%N.

(** The blanks [int()] accepts around a literal: the same set without the
    four separators 28..31. *)
Definition is_int_space (c : ascii) : bool :=
  between 9 13 c || (code c =? 32)%N || (code c =? 133)%N || (code c =? 160)%N.

(** [\w] of the [re] module on a [str] pattern: alphanumeric or ["_"]. *)
Definition is_word (c : ascii) : bool :=
  between 48 57 c || between 65 90 c || (code c =? 95)%N || between 97 122 c
  || (code c =? 170)%N || between 178 179 c || (code c =? 181)%N
  || between 185 186 c || between 188 190 c
  || between 192 214 c || between 216 246 c || between 248 255 c.

(** [str.lower] on one character. *)
Definition lower_char (c : ascii) : ascii :=
  if between 65 90 c || between 192 214 c || between 216 222 c
  then ascii_of_N (code c + 32) else c.

Fixpoint lower (s : string) : string :=
  match s with
  | EmptyString => EmptyString
  | String c r => String (lower_char c) (lower r)
  end.

Fixpoint all_chars (p : ascii -> bool) (s : string) : bool :=
  match s with
  | EmptyString => true
  | String c r => p c && all_chars p r
  end.

(** *** Stripping *)

Fixpoint lstrip_by (sp : ascii -> bool) (s : string) : string :=
  match s with
  | EmptyString => EmptyString
  | String c r => if sp c then lstrip_by sp r else s
  end.

Fixpoint rstrip_by (sp : ascii -> bool) (s : string) : string :=
  match s with
  | EmptyString => EmptyString
  | String c r =>
      match rstrip_by sp r with
      | EmptyString => if sp c then EmptyString else String c EmptyString
      | r' => String c r'
      end
  end.

Definition strip_by (sp : ascii -> bool) (s : string) : string :=
  rstrip_by sp (lstrip_by sp s).

(** [s.strip()] *)
Definition strip (s : string) : string := strip_by is_space s.

(** *** [s.split()]: the maximal runs of non-blank characters. *)
Fixpoint split_ws (s : string) : list string :=
  match s with
  | EmptyString => []
  | String c r =>
      if is_space c then split_ws r
      else match r with
           | EmptyString => [String c EmptyString]
           | String d _ =>
               if is_space d then String c EmptyString :: split_ws r
               else match split_ws r with
                    | w :: ws => String c w :: ws
                    | [] => [String c EmptyString]
                    end
           end
  end.

(** [sep.join(l)] *)
Definition join (sep : string) (l : list string) : string := String.concat sep l.

(** [s[:n]] *)
Fixpoint slice_to (n : nat) (s : string) : string :=
  match n, s with
  | S k, String c r => String c (slice_to k r)
  | _, _ => EmptyString
  end.

(** [s.startswith(p)] *)
Definition startswith (p s : string) : bool := String.prefix p s.

(** [s.endswith(suf)]: some suffix of [s] is [suf]. *)
Fixpoint endswith (suf s : string) : bool :=
  (s =? suf) ||
  match s with
  | EmptyString => false
  | String _ r => endswith suf r
  end.

(** [needle in hay] *)
Fixpoint contains (needle hay : string) : bool :=
  String.prefix needle hay ||
  match hay with
  | EmptyString => false
  | String _ r => contains needle r
  end.

(** [s.split(sep, 1)[0]] for a one-character separator: the text before
    the first separator, or all of [s] when there is none. *)
Fixpoint split_head (sep : ascii) (s : string) : string :=
  match s with
  | EmptyString => EmptyString
  | String c r => if Ascii.eqb c sep then EmptyString else String c (split_head sep r)
  end.

(** *** [s.replace(old, new)]

    Occurrences are found left to right and do not overlap: after a match
    the scan resumes behind it.  [skip] counts the characters of the
    current match that are still to be dropped. *)
Fixpoint replace_from (old new : string) (skip : nat) (s : string) : string :=
  match s with
  | EmptyString => EmptyString
  | String c r =>
      match skip with
      | S k => replace_from old new k r
      | O =>
          if String.prefix old s
          then new ++ replace_from old new (String.length old - 1) r
          else String c (replace_from old new 0 r)
      end
  end.

(** With an empty [old], Python inserts [new] before every character and
    at the end. *)
Fixpoint intersperse (new s : string) : string :=
  match s with
  | EmptyString => new
  | String c r => new ++ String c (intersperse new r)
  end.

Definition replace (old new s : string) : string :=
  match old with
  | EmptyString => intersperse new s
  | _ => replace_from old new 0 s
  end.

(** *** [int(s)] and [str(n)] *)

Definition digit_val (c : ascii) : option N :=
  if between 48 57 c then Some (code c - 48)%N else None.

Fixpoint digits_val (acc : N) (s : string) : option N :=
  match s with
  | EmptyString => Some acc
  | String c r =>
      match digit_val c with
      | Some d => digits_val (10 * acc + d)%N r
      | None => None
      end
  end.

(** One digit at least. *)
Definition unsigned_val (s : string) : option N :=
  match s with
  | EmptyString => None
  | _ => digits_val 0 s
  end.

(** [int(s)]: blanks around, an optional sign, decimal digits; [None] is
    [ValueError].  Digit-grouping underscores cannot reach it here: every
    caller cuts the text at the first ["_"].  CPython's bound of 4300
    digits on the conversions between [int] and [str] is left out; no file
    name is that long. *)
Definition int (s : string) : option Z :=
  match strip_by is_int_space s with
  | String "+" r => option_map Z.of_N (unsigned_val r)
  | String "-" r => option_map (fun n => Z.opp (Z.of_N n)) (unsigned_val r)
  | t => option_map Z.of_N (unsigned_val t)
  end.

(** [str(n)] for an [int]. *)
Definition str (z : Z) : string := NilZero.string_of_int (Z.to_int z).

(** *** Reading text: universal newlines

    [open(path, "r")] without a [newline] argument hands out the text with
    every line end, ["\r\n"] or a lone ["\r"], turned into ["\n"]. *)
Fixpoint universal_newlines (s : string) : string :=
  match s with
  | EmptyString => EmptyString
  | String c r =>
      if Ascii.eqb c "013" then
        match r with
        | String d r' =>
            if Ascii.eqb d "010" then String "010" (universal_newlines r')
            else String "010" (universal_newlines r)
        | EmptyString => String "010" EmptyString
        end
      else String c (universal_newlines r)
  end.

(** *** [re.findall(r"#\w+", s)]

    The longest run of word characters at the head of [s]. *)
Fixpoint word_run (s : string) : string :=
  match s with
  | EmptyString => EmptyString
  | String c r => if is_word c then String c (word_run r) else EmptyString
  end.

(** Matches are found left to right and do not overlap; [\w+] is greedy, so
    a match is ["#"] with the whole run of word characters behind it.
    [skip] counts the characters of the current match still to be passed. *)
Fixpoint findall_tags_from (skip : nat) (s : string) : list string :=
  match s with
  | EmptyString => []
  | String c r =>
      match skip with
      | S k => findall_tags_from k r
      | O =>
          if Ascii.eqb c "#" then
            match word_run r with
            | EmptyString => findall_tags_from 0 r
            | w => String c w :: findall_tags_from (String.length w) r
            end
          else findall_tags_from 0 r
      end
  end.

Definition findall_tags (s : string) : list string := findall_tags_from 0 s.

(** *** [set] of [str] and [sorted]

    A set is kept as a list without repetition; its iteration order is
    immaterial because the only reader sorts it. *)
Definition set_add (x : string) (tags : list string) : list string :=
  if existsb (String.eqb x) tags then tags else tags ++ [x].

(** [tags.update(found)] *)
Definition set_update (tags found : list string) : list string :=
  fold_left (fun acc x => set_add x acc) found tags.

(** [sorted] is a stable sort: an element goes in front of the first one
    that is not below it.  [le] is the order of the keys. *)
Fixpoint insert_sorted {A : Type} (le : A -> A -> bool) (x : A) (l : list A) : list A :=
  match l with
  | [] => [x]
  | y :: r => if le x y then x :: l else y :: insert_sorted le x r
  end.

Definition sorted {A : Type} (le : A -> A -> bool) (l : list A) : list A :=
  fold_right (insert_sorted le) [] l.

End Py.


(* ================================================================== *)
(** ** The notes directory *)
(* ================================================================== *)

Module Fs.

(** A directory entry: [content] is the text as stored.  A file that
    cannot be opened for reading (no
    permission, not a regular file, bytes that are not UTF-8) has
    [readable = false]; one that cannot be opened for writing has
    [writable = false]. *)
Record file : Type := mkFile {
  content : string;
  readable : bool;
  writable : bool
}.

(** The directory [NOTES_DIR], once [ensure_notes_dir] has run: its entries
    in the order [os.listdir] reports them.  The directory is flat; a path
    [os.path.join(NOTES_DIR, name)] is represented by [name]. *)
Definition store : Type := list (string * file).

Definition listdir (s : store) : list string := map fst s.

Definition lookup (name : string) (s : store) : option file :=
  option_map snd (find (fun e => String.eqb (fst e) name) s).

Definition set_content (data : string) (f : file) : file :=
  mkFile data (readable f) (writable f).

Definition update_content (name data : string) (s : store) : store :=
  map (fun e => if String.eqb (fst e) name then (fst e, set_content data (snd e)) else e) s.

(** A name a new entry of the directory can take: not empty, and without a
    path separator or a NUL. *)
Definition legal_char (c : ascii) : bool :=
  negb (Ascii.eqb c "/") && negb (Ascii.eqb c Ascii.zero).

Definition legal_name (name : string) : bool :=
  negb (name =? "") && Py.all_chars legal_char name.

(** [open(path, "r", encoding="utf-8").read()]: the stored text with its
    line ends translated; [None] is the exception. *)
Definition read (name : string) (s : store) : option string :=
  match lookup name s with
  | Some f => if readable f then Some (Py.universal_newlines (content f)) else None
  | None => None
  end.

(** [open(path, "w")] followed by the writes: an existing file is
    overwritten, a missing one is created.  The text is stored as given:
    [os.linesep] is the newline, as on every POSIX system.  The new entry
    is put last;
    [os.listdir] promises no order, and nothing below depends on the
    place. *)
Definition write (name data : string) (s : store) : option store :=
  match lookup name s with
  | Some f => if writable f then Some (update_content name data s) else None
  | None =>
      if legal_name name then Some (s ++ [(name, mkFile data true true)]) else None
  end.

(** [os.remove(path)] *)
Definition remove (name : string) (s : store) : option store :=
  match lookup name s with
  | Some _ => Some (filter (fun e => negb (String.eqb (fst e) name)) s)
  | None => None
  end.

End Fs.

Import Fs.

(* ================================================================== *)
(** ** Note helpers *)
(* ================================================================== *)

(** The test of [list_note_files] on one entry of the directory. *)
Definition is_note_file (f : string) : bool :=
  Py.endswith ".md" f && negb (Py.startswith "." f).

Definition list_note_files (s : store) : list string :=
  filter is_note_file (listdir s).

(** [fname.split("_", 1)[0]] *)
Definition extract_id_from_filename (filename : string) : string :=
  Py.split_head "_" filename.

(** The loop of [get_next_id]: a prefix that [int] refuses is passed over. *)
Fixpoint parsed_ids (files : list string) : list Z :=
  match files with
  | [] => []
  | fname :: rest =>
      match Py.int (extract_id_from_filename fname) with
      | Some note_id => note_id :: parsed_ids rest
      | None => parsed_ids rest
      end
  end.

(** [max(ids)] of a list with head [i]. *)
Definition max_of (i : Z) (ids : list Z) : Z := fold_left Z.max ids i.

(** [max(ids) + 1 if ids else 1] *)
Definition next_id_value (s : store) : Z :=
  match parsed_ids (list_note_files s) with
  | [] => 1
  | i :: ids => max_of i ids + 1
  end.

Definition get_next_id (s : store) : string := Py.str (next_id_value s).

(** ["_".join(title.strip().split())[:30]] *)
Definition slug_of (title : string) : string :=
  Py.slice_to 30 (Py.join "_" (Py.split_ws (Py.strip title))).

Definition generate_filename (note_id title : string) : string :=
  note_id ++ "_" ++ slug_of title ++ ".md".

Definition link_token (note_id : string) : string := "[[" ++ note_id ++ "]]".

(** The loop of [find_backlinks]: a file whose read raises is passed
    over. *)
Fixpoint find_backlinks_in (s : store) (note_id : string) (files : list string) : list string :=
  match files with
  | [] => []
  | fname :: rest =>
      match Fs.read fname s with
      | Some content =>
          if Py.contains (link_token note_id) content
          then fname :: find_backlinks_in s note_id rest
          else find_backlinks_in s note_id rest
      | None => find_backlinks_in s note_id rest
      end
  end.

Definition find_backlinks (s : store) (note_id : string) : list string :=
  find_backlinks_in s note_id (list_note_files s).

(** The loop of [extract_tags], [tags] being the set built so far. *)
Fixpoint collect_tags (s : store) (tags : list string) (files : list string) : list string :=
  match files with
  | [] => tags
  | fname :: rest =>
      match Fs.read fname s with
      | Some content => collect_tags s (Py.set_update tags (Py.findall_tags content)) rest
      | None => collect_tags s tags rest
      end
  end.

Definition extract_tags (s : store) : list string :=
  Py.sorted String.leb (collect_tags s [] (list_note_files s)).

(* ================================================================== *)
(** ** The application: state, exceptions, dialogs *)
(* ================================================================== *)

(** The exceptions the methods meet: [int] refusing a literal, and a file
    operation failing on a name. *)
Inductive exn : Type :=
| ValueError (literal : string)
| OSError (name : string).

Inductive outcome (A : Type) : Type :=
| Ok (a : A)
| Raised (e : exn).

Arguments Ok {A} a.
Arguments Raised {A} e.

(** What [messagebox] was asked to show. *)
Inductive dialog : Type :=
| showinfo (title message : string)
| showwarning (title message : string)
| showerror (title message : string) (cause : exn).

(** The fields and widgets of [ZettelkastenApp] the core methods use. *)
Record ZettelkastenApp : Type := mkApp {
  current_file : option string;
  current_id : option string;
  sidebar : list string;
  tag_list : list string;
  backlinks_box : list string;
  text : string
}.

Record world : Type := mkWorld {
  notes : store;
  ui : ZettelkastenApp;
  dialogs : list dialog
}.

Definition set_notes (s : store) (w : world) : world := mkWorld s (ui w) (dialogs w).
Definition set_ui (a : ZettelkastenApp) (w : world) : world := mkWorld (notes w) a (dialogs w).

Definition set_sidebar (l : list string) (a : ZettelkastenApp) : ZettelkastenApp :=
  mkApp (current_file a) (current_id a) l (tag_list a) (backlinks_box a) (text a).
Definition set_tag_list (l : list string) (a : ZettelkastenApp) : ZettelkastenApp :=
  mkApp (current_file a) (current_id a) (sidebar a) l (backlinks_box a) (text a).
Definition set_backlinks_box (l : list string) (a : ZettelkastenApp) : ZettelkastenApp :=
  mkApp (current_file a) (current_id a) (sidebar a) (tag_list a) l (text a).
Definition set_text (t : string) (a : ZettelkastenApp) : ZettelkastenApp :=
  mkApp (current_file a) (current_id a) (sidebar a) (tag_list a) (backlinks_box a) t.
Definition set_current (f i : option string) (a : ZettelkastenApp) : ZettelkastenApp :=
  mkApp f i (sidebar a) (tag_list a) (backlinks_box a) (text a).

(** A method body: it runs on a world, changes it, and returns or raises.
    What was changed before an exception stays changed. *)
Definition M (A : Type) : Type := world -> outcome A * world.

Definition ret {A : Type} (a : A) : M A := fun w => (Ok a, w).

Definition bind {A B : Type} (m : M A) (k : A -> M B) : M B :=
  fun w =>
    match m w with
    | (Ok a, w') => k a w'
    | (Raised e, w') => (Raised e, w')
    end.

Definition raise {A : Type} (e : exn) : M A := fun w => (Raised e, w).

(** [try: m  except Exception as e: handler(e)] *)
Definition try_except {A : Type} (m : M A) (handler : exn -> M A) : M A :=
  fun w =>
    match m w with
    | (Ok a, w') => (Ok a, w')
    | (Raised e, w') => handler e w'
    end.

Declare Scope method_scope.
Delimit Scope method_scope with method.
Notation "x <- m ;; k" := (bind m (fun x => k))
  (at level 61, m at next level, right associativity) : method_scope.
Notation "m ;; k" := (bind m (fun _ => k))
  (at level 61, right associativity) : method_scope.
Local Open Scope method_scope.

Definition get_notes : M store := fun w => (Ok (notes w), w).
Definition get_ui : M ZettelkastenApp := fun w => (Ok (ui w), w).
Definition modify_ui (f : ZettelkastenApp -> ZettelkastenApp) : M unit := fun w => (Ok tt, set_ui (f (ui w)) w).
Definition show (d : dialog) : M unit :=
  fun w => (Ok tt, mkWorld (notes w) (ui w) (dialogs w ++ [d])).

Definition lift {A : Type} (o : outcome A) : M A := fun w => (o, w).

Definition open_read (name : string) : M string :=
  fun w =>
    match Fs.read name (notes w) with
    | Some data => (Ok data, w)
    | None => (Raised (OSError name), w)
    end.

Definition open_write (name data : string) : M unit :=
  fun w =>
    match Fs.write name data (notes w) with
    | Some s' => (Ok tt, set_notes s' w)
    | None => (Raised (OSError name), w)
    end.

Definition os_remove (name : string) : M unit :=
  fun w =>
    match Fs.remove name (notes w) with
    | Some s' => (Ok tt, set_notes s' w)
    | None => (Raised (OSError name), w)
    end.

(** [for x in l: body(x)] *)
Fixpoint for_each {A : Type} (l : list A) (body : A -> M unit) : M unit :=
  match l with
  | [] => ret tt
  | x :: r => body x ;; for_each r body
  end.

(* ================================================================== *)
(** ** Core methods of [ZettelkastenApp] *)
(* ================================================================== *)

Definition sort_key (x : string) : option Z := Py.int (Py.split_head "_" x).

(** [sorted] evaluates the key of every element before it compares any: the
    first key that raises ends the call. *)
Fixpoint with_keys (files : list string) : outcome (list (Z * string)) :=
  match files with
  | [] => Ok []
  | x :: r =>
      match sort_key x with
      | None => Raised (ValueError (Py.split_head "_" x))
      | Some k =>
          match with_keys r with
          | Ok l => Ok ((k, x) :: l)
          | Raised e => Raised e
          end
      end
  end.

Definition key_le (a b : Z * string) : bool := (fst a <=? fst b)%Z.

(** [sorted(files, key=lambda x: int(x.split("_", 1)[0]))] *)
Definition sorted_by_id (files : list string) : outcome (list string) :=
  match with_keys files with
  | Ok l => Ok (map snd (Py.sorted key_le l))
  | Raised e => Raised e
  end.

Definition sidebar_insert (f : string) : M unit :=
  modify_ui (fun a => set_sidebar (sidebar a ++ [f]) a).

(** A filter closure reads the store it is called on and catches what the
    read raises, so it is a function of the store. *)
Definition filter_fn : Type := store -> string -> bool.

Definition refresh_list (filter_func : option filter_fn) : M unit :=
  modify_ui (set_sidebar []) ;;
  s <- get_notes ;;
  files <- lift (sorted_by_id (list_note_files s)) ;;
  for_each files (fun f =>
    match filter_func with
    | Some keep => if negb (keep s f) then ret tt else sidebar_insert f
    | None => sidebar_insert f
    end).

Definition refresh_tags : M unit :=
  modify_ui (set_tag_list []) ;;
  s <- get_notes ;;
  for_each (extract_tags s) (fun tag =>
    modify_ui (fun a => set_tag_list (tag_list a ++ [tag]) a)).

Definition nl : string := String (ascii_of_nat 10) EmptyString.

Definition note_template (title note_id now : string) : string :=
  "# " ++ title ++ nl ++ nl ++
  "ID: " ++ note_id ++ nl ++
  "Created: " ++ now ++ nl ++ nl ++
  "Links: Use [[note_id]] to reference another note." ++ nl ++
  "Tags: Add with #example" ++ nl.

(** [title] is what the dialog returned ([None] when it was cancelled),
    [now] the text of [datetime.datetime.now().isoformat()]. *)
Definition new_note (title : option string) (now : string) : M unit :=
  match title with
  | None => ret tt
  | Some EmptyString => ret tt
  | Some title =>
      s <- get_notes ;;
      let note_id := get_next_id s in
      let filename := generate_filename note_id title in
      open_write filename (note_template title note_id now) ;;
      refresh_list None ;;
      refresh_tags ;;
      show (showinfo "Note Created" ("Created note: " ++ filename))
  end.

Definition update_backlinks : M unit :=
  a <- get_ui ;;
  match current_id a with
  | None => ret tt
  | Some EmptyString => ret tt
  | Some note_id =>
      modify_ui (set_backlinks_box []) ;;
      s <- get_notes ;;
      for_each (find_backlinks s note_id) (fun f =>
        modify_ui (fun a => set_backlinks_box (backlinks_box a ++ [f]) a))
  end.

Definition load_note_by_name (filename : string) : M unit :=
  content <- open_read filename ;;
  modify_ui (set_text content) ;;
  modify_ui (set_current (Some filename) (Some (extract_id_from_filename filename))) ;;
  update_backlinks.

(** [f"{note_id}"] for the field [current_id]. *)
Definition format_id (note_id : option string) : string :=
  match note_id with
  | Some i => i
  | None => "None"
  end.

Definition deleted_placeholder (note_id : string) : string :=
  "(deleted note " ++ note_id ++ ")".

(** The body of the loop under [# Update backlinks]. *)
Definition cleanup_file (filename note_id fname : string) : M unit :=
  if String.eqb fname filename then ret tt
  else
    content <- open_read fname ;;
    if Py.contains (link_token note_id) content
    then open_write fname (Py.replace (link_token note_id) (deleted_placeholder note_id) content)
    else ret tt.

(** [confirm] is the answer to the yes/no dialog. *)
Definition delete_note (confirm : bool) : M unit :=
  a <- get_ui ;;
  match current_file a with
  | None => show (showwarning "No File" "No note is open.")
  | Some filename =>
      let note_id := format_id (current_id a) in
      if negb confirm then ret tt
      else
        try_except
          (os_remove filename ;;
           s <- get_notes ;;
           for_each (list_note_files s) (cleanup_file filename note_id) ;;
           show (showinfo "Deleted" ("Deleted " ++ filename ++ " and updated backlinks")) ;;
           modify_ui (set_current None None) ;;
           modify_ui (set_text "") ;;
           modify_ui (set_backlinks_box []) ;;
           refresh_list None ;;
           refresh_tags)
          (fun e => show (showerror "Error" "Could not delete note:" e))
  end.

Definition search_filter (keyword : string) : filter_fn :=
  fun s fname =>
    match Fs.read fname s with
    | Some content =>
        Py.contains keyword (Py.lower fname) || Py.contains keyword (Py.lower content)
    | None => false
    end.

(** [search_var] is the text of the search entry. *)
Definition search_notes (search_var : string) : M unit :=
  let keyword := Py.lower (Py.strip search_var) in
  match keyword with
  | EmptyString => refresh_list None
  | _ => refresh_list (Some (search_filter keyword))
  end.

(** *** The other handlers

    [listbox.get(i)]: the line [i] of a list box, and the empty text when
    there is no such line. *)
Definition listbox_get (items : list string) (i : nat) : string := nth i items "".

(** [self.text.get("1.0", tk.END)]: the text of the editor followed by the
    newline a Tk text widget keeps at its end. *)
Definition text_get (a : ZettelkastenApp) : string := text a ++ nl.

Definition save_note : M unit :=
  a <- get_ui ;;
  match current_file a with
  | None => show (showwarning "No File" "No note is open.")
  | Some path =>
      open_write path (text_get a) ;;
      show (showinfo "Saved" ("Saved " ++ path)) ;;
      update_backlinks ;;
      refresh_tags
  end.

(** [selection] is the first index of [curselection()], if any. *)
Definition load_note (selection : option nat) : M unit :=
  try_except
    (a <- get_ui ;;
     match selection with
     | None => ret tt
     | Some i => load_note_by_name (listbox_get (sidebar a) i)
     end)
    (fun e => show (showerror "Error" "" e)).

(** The loop of [open_backlink]: the first line of the sidebar that is
    [filename], counted from [i]. *)
Fixpoint find_index (filename : string) (items : list string) (i : nat) : option nat :=
  match items with
  | [] => None
  | x :: rest => if String.eqb x filename then Some i else find_index filename rest (S i)
  end.

(** The selection of the sidebar is not part of the state: setting it
    changes nothing here. *)
Definition open_backlink (selection : option nat) : M unit :=
  a <- get_ui ;;
  match selection with
  | None => ret tt
  | Some i =>
      let filename := listbox_get (backlinks_box a) i in
      match find_index filename (sidebar a) 0 with
      | Some _ => load_note_by_name filename
      | None => ret tt
      end
  end.

Definition tag_filter (tag : string) : filter_fn :=
  fun s fname =>
    match Fs.read fname s with
    | Some content => Py.contains tag content
    | None => false
    end.

Definition filter_by_tag (selection : option nat) : M unit :=
  a <- get_ui ;;
  match selection with
  | None => ret tt
  | Some i => refresh_list (Some (tag_filter (listbox_get (tag_list a) i)))
  end.

(* ================================================================== *)
(** ** Properties stated by the specification *)
(* ================================================================== *)

(** [needle] occurs in [hay]. *)
Definition occurs_in (needle hay : string) : Prop :=
  exists pre post, hay = (pre ++ needle ++ post)%string.

(** [k] occurs in [c] up to the case of letters. *)
Definition ci_occurs_in (k c : string) : Prop :=
  exists pre m post, c = (pre ++ m ++ post)%string /\ Py.lower m = Py.lower k.

(** An integer that is the prefix of some note file of the store. *)
Definition numeric_prefix (s : store) (i : Z) : Prop :=
  exists f, In f (list_note_files s) /\ sort_key f = Some i.

(** The text behind a tag does not go on with a word character. *)
Definition word_boundary (post : string) : Prop :=
  match post with
  | EmptyString => True
  | String c _ => Py.is_word c = false
  end.

(** [t] is a ["#"] with a maximal non-empty run of word characters of [c]. *)
Definition tag_at (t c : string) : Prop :=
  exists pre w post,
    c = (pre ++ String "#" (w ++ post))%string /\ w <> "" /\
    Py.all_chars Py.is_word w = true /\ word_boundary post /\ t = String "#" w.

(** A title [new_note] can turn into a file: it is not empty and its slug
    has no character a file name cannot have. *)
Definition creatable (title : string) : Prop :=
  title <> "" /\ Py.all_chars Fs.legal_char (slug_of title) = true.

(** The integers [i], [i+1], ... in number [n]. *)
Fixpoint count_from (i : Z) (n : nat) : list Z :=
  match n with
  | O => []
  | S k => i :: count_from (i + 1) k
  end.

(** [new_note] run once per title, with the integer allocated at each run. *)
Fixpoint create_all (titles : list (string * string)) (w : world) : list Z * world :=
  match titles with
  | [] => ([], w)
  | (title, now) :: rest =>
      let i := next_id_value (notes w) in
      let (ids, w') := create_all rest (snd (new_note (Some title) now w)) in
      (i :: ids, w')
  end.

(** The names [create_all] gives the files, from the first integer on. *)
Fixpoint created_names (i : Z) (titles : list (string * string)) : list string :=
  match titles with
  | [] => []
  | (title, _) :: rest => generate_filename (Py.str i) title :: created_names (i + 1) rest
  end.

(** What the loop of [delete_note] leaves of one entry it has passed: the
    text it read, with the token replaced, when the text has the token. *)
Definition cleaned (note_id : string) (e : string * file) : string * file :=
  if is_note_file (fst e)
     && Py.contains (link_token note_id) (Py.universal_newlines (content (snd e)))
  then (fst e, set_content
                 (Py.replace (link_token note_id) (deleted_placeholder note_id)
                             (Py.universal_newlines (content (snd e))))
                 (snd e))
  else e.

(** The loop of [delete_note] stops at an entry it cannot read, or has to
    rewrite and cannot. *)
Definition blocks_cleanup (note_id : string) (e : string * file) : bool :=
  is_note_file (fst e) &&
  (negb (readable (snd e))
   || (Py.contains (link_token note_id) (Py.universal_newlines (content (snd e)))
       && negb (writable (snd e)))).

(** The entries after the loop of [delete_note], and the file it stopped
    at, if any: the entries in front of the first blocking one are cleaned,
    the others are as they were. *)
Fixpoint cleanup_entries (note_id : string) (todo : store) : store * option string :=
  match todo with
  | [] => ([], None)
  | e :: rest =>
      if blocks_cleanup note_id e then (todo, Some (fst e))
      else let (rest', stop) := cleanup_entries note_id rest in
           (cleaned note_id e :: rest', stop)
  end.

(** A decimal digit. *)
Definition is_digit (c : ascii) : bool := Py.between 48 57 c.

(** The order of a listing: the integers of the prefixes ascend. *)
Definition id_le (a b : string) : Prop :=
  exists ka kb, sort_key a = Some ka /\ sort_key b = Some kb /\ (ka <= kb)%Z.

(** The test a filter closure, or none, applies to a listed name. *)
Definition keep_of (filter_func : option filter_fn) (s : store) : string -> bool :=
  match filter_func with
  | Some keep => keep s
  | None => fun _ => true
  end.

(** The test [find_backlinks] applies to one file name. *)
Definition links_to (s : store) (note_id fname : string) : bool :=
  match Fs.read fname s with
  | Some content => Py.contains (link_token note_id) content
  | None => false
  end.

(** A world with the given files, nothing open and nothing shown. *)
Definition idle (s : store) : world := mkWorld s (mkApp None None [] [] [] "") [].

Definition plain (data : string) : file := mkFile data true true.

(** What [delete_note] does behind the loop. *)
Definition after_cleanup (filename : string) : M unit :=
  show (showinfo "Deleted" ("Deleted " ++ filename ++ " and updated backlinks")) ;;
  modify_ui (set_current None None) ;;
  modify_ui (set_text "") ;;
  modify_ui (set_backlinks_box []) ;;
  refresh_list None ;;
  refresh_tags.

Definition delete_failed (e : exn) : M unit :=
  show (showerror "Error" "Could not delete note:" e).

(** A step that leaves the files alone and only adds dialogs. *)
Definition quiet {A : Type} (m : M A) : Prop :=
  forall w, notes (snd (m w)) = notes w
            /\ exists d, dialogs (snd (m w)) = dialogs w ++ d.

(** The backlinks box after [update_backlinks]: refilled for an ID that is
    not empty, left as it is otherwise. *)
Definition backlinks_shown (s : store) (note_id : option string) (old : list string)
  : list string :=
  match note_id with
  | Some (String a r) => find_backlinks s (String a r)
  | _ => old
  end.

(** The text begins with a line feed. *)
Definition starts_with_lf (s : string) : bool :=
  match s with
  | String d _ => Ascii.eqb d "010"
  | EmptyString => false
  end.

(** Case analysis on membership in a list given by its elements. *)
Ltac each_entry H :=
  repeat (destruct H as [H | H]; [try (injection H as <- <-); try subst|]);
  try contradiction.

(* ------------------------------------------------------------------ *)
(** *** The built-ins on sample inputs *)

Example py_strip : Py.strip "  ab c  " = "ab c". Proof. reflexivity. Qed.
Example py_split : Py.split_ws " a  b " = ["a"; "b"]. Proof. reflexivity. Qed.
Example py_replace : Py.replace "aa" "b" "aaa" = "ba". Proof. reflexivity. Qed.
Example py_replace_empty : Py.replace "" "-" "ab" = "-a-b-". Proof. reflexivity. Qed.
Example py_int_pad : Py.int " 12 " = Some 12%Z. Proof. reflexivity. Qed.
Example py_int_zeros : Py.int "007" = Some 7%Z. Proof. reflexivity. Qed.
Example py_int_neg : Py.int "-3" = Some (-3)%Z. Proof. reflexivity. Qed.
Example py_int_sep : Py.int (String (ascii_of_N 28) "3") = None. Proof. reflexivity. Qed.
Example py_int_bad : Py.int "- 3" = None /\ Py.int "" = None /\ Py.int "+" = None /\ Py.int "1 2" = None.
Proof. repeat split; reflexivity. Qed.
Example py_str_ex : Py.str 0 = "0" /\ Py.str 42 = "42" /\ Py.str (-4) = "-4".
Proof. repeat split; reflexivity. Qed.
Example py_lower : Py.lower "ZETTEL_1" = "zettel_1". Proof. reflexivity. Qed.

(* ------------------------------------------------------------------ *)
(** *** Strings *)

Section StringFacts.

Lemma append_nil_r (s : string) : (s ++ "")%string = s.
Proof. induction s; simpl; congruence. Qed.

Lemma append_assoc (a b c : string) : ((a ++ b) ++ c = a ++ b ++ c)%string.
Proof. induction a; simpl; congruence. Qed.

Lemma prefix_occurs (p s : string) :
  String.prefix p s = true <-> exists post, s = (p ++ post)%string.
Proof.
  revert s; induction p as [|a p IH]; intros s.
  - destruct s; simpl; split; intros; eauto.
  - destruct s as [|b s]; cbn [String.prefix].
    + split; [discriminate | intros [post H]; discriminate].
    + destruct (ascii_dec a b) as [->|Hne].
      * split.
        -- intros H. apply IH in H as [post ->]. exists post. reflexivity.
        -- intros [post H]. injection H as H. apply IH. eauto.
      * split; [discriminate | intros [post H]; simpl in H; congruence].
Qed.

Lemma contains_occurs (needle hay : string) :
  Py.contains needle hay = true <-> occurs_in needle hay.
Proof.
  unfold occurs_in. induction hay as [|c hay IH].
  - cbn [Py.contains]. rewrite orb_false_r, prefix_occurs. split.
    + intros [post H]. exists "", post. exact H.
    + intros [pre [post H]]. destruct pre; [eauto | discriminate].
  - cbn [Py.contains]. rewrite orb_true_iff, prefix_occurs, IH. split.
    + intros [[post H] | [pre [post H]]].
      * exists "", post. exact H.
      * exists (String c pre), post. simpl. congruence.
    + intros [pre [post H]]. destruct pre as [|d pre].
      * left. exists post. exact H.
      * right. simpl in H. injection H as _ H. eauto.
Qed.

Lemma contains_false_not_occurs (needle hay : string) :
  Py.contains needle hay = false <-> ~ occurs_in needle hay.
Proof.
  rewrite <- contains_occurs. destruct (Py.contains needle hay); split; congruence.
Qed.

Lemma endswith_suffix (suf s : string) :
  Py.endswith suf s = true <-> exists pre, s = (pre ++ suf)%string.
Proof.
  induction s as [|c s IH].
  - cbn [Py.endswith]. rewrite orb_false_r, String.eqb_eq. split.
    + intros <-. exists "". reflexivity.
    + intros [pre H]. destruct pre; simpl in H; [congruence | discriminate].
  - cbn [Py.endswith]. rewrite orb_true_iff, String.eqb_eq, IH. split.
    + intros [<- | [pre ->]]; [exists "" | exists (String c pre)]; reflexivity.
    + intros [pre H]. destruct pre as [|d pre]; simpl in H.
      * left. exact H.
      * right. injection H as _ H. eauto.
Qed.

Lemma endswith_append (a suf : string) : Py.endswith suf (a ++ suf) = true.
Proof. apply endswith_suffix. eauto. Qed.

Lemma split_head_append (sep : ascii) (a b : string) :
  Py.all_chars (fun c => negb (Ascii.eqb c sep)) a = true ->
  Py.split_head sep (a ++ String sep b) = a.
Proof.
  induction a as [|c a IH]; simpl.
  - now rewrite Ascii.eqb_refl.
  - intros H. apply andb_true_iff in H as [Hc Ha].
    apply negb_true_iff in Hc. rewrite Hc, IH; auto.
Qed.

Lemma all_chars_append (p : ascii -> bool) (a b : string) :
  Py.all_chars p (a ++ b) = Py.all_chars p a && Py.all_chars p b.
Proof. induction a; simpl; [reflexivity | rewrite IHa; apply andb_assoc]. Qed.

Lemma all_chars_impl (p q : ascii -> bool) (s : string) :
  (forall c, p c = true -> q c = true) ->
  Py.all_chars p s = true -> Py.all_chars q s = true.
Proof.
  intros Hpq. induction s; simpl; auto.
  intros H. apply andb_true_iff in H as [H1 H2]. rewrite (Hpq _ H1). auto.
Qed.

Lemma lower_append (a b : string) : Py.lower (a ++ b) = (Py.lower a ++ Py.lower b)%string.
Proof. induction a; simpl; congruence. Qed.

Lemma lower_split (c a b : string) :
  Py.lower c = (a ++ b)%string ->
  exists c1 c2, c = (c1 ++ c2)%string /\ Py.lower c1 = a /\ Py.lower c2 = b.
Proof.
  revert c; induction a as [|x a IH]; intros c H.
  - exists "", c. auto.
  - destruct c as [|y c]; simpl in H; [discriminate|].
    injection H as Hx H. destruct (IH _ H) as (c1 & c2 & -> & <- & <-).
    exists (String y c1), c2. simpl. rewrite Hx. auto.
Qed.

(** Matching the lowered texts is matching up to case. *)
Lemma lower_occurs (k c : string) :
  occurs_in (Py.lower k) (Py.lower c) <-> ci_occurs_in k c.
Proof.
  split.
  - intros [pre [post H]].
    apply lower_split in H as (c1 & c2 & -> & <- & H).
    apply lower_split in H as (m & c3 & -> & Hm & <-).
    exists c1, m, c3. auto.
  - intros (pre & m & post & -> & Hm).
    exists (Py.lower pre), (Py.lower post).
    now rewrite !lower_append, Hm.
Qed.

End StringFacts.

(* ------------------------------------------------------------------ *)
(** *** Line ends *)

Section LineEnds.

Lemma newlines_crlf (r : string) :
  Py.universal_newlines (String "013" (String "010" r))
  = String "010" (Py.universal_newlines r).
Proof. reflexivity. Qed.

Lemma newlines_cr (r : string) :
  starts_with_lf r = false ->
  Py.universal_newlines (String "013" r) = String "010" (Py.universal_newlines r).
Proof.
  intros H. destruct r as [|d r]; [reflexivity|].
  cbn [starts_with_lf] in H. cbn [Py.universal_newlines]. cbn [Ascii.eqb Bool.eqb].
  now rewrite H.
Qed.

Lemma newlines_keep (c : ascii) (r : string) :
  Ascii.eqb c "013" = false ->
  Py.universal_newlines (String c r) = String c (Py.universal_newlines r).
Proof. intros H. cbn [Py.universal_newlines]. now rewrite H. Qed.

(** Induction along the translation of the line ends. *)
Lemma newlines_ind (P : string -> Prop) :
  P "" ->
  (forall r, P r -> P (String "013" (String "010" r))) ->
  (forall r, starts_with_lf r = false -> P r -> P (String "013" r)) ->
  (forall c r, Ascii.eqb c "013" = false -> P r -> P (String c r)) ->
  forall s, P s.
Proof.
  intros H0 Hcrlf Hcr Hk s.
  assert (H : forall n s, String.length s <= n -> P s); [|now apply (H (String.length s))].
  clear s. induction n as [|n IH]; intros s Hl.
  - destruct s; [exact H0 | simpl in Hl; lia].
  - destruct s as [|c r]; [exact H0|]. simpl in Hl.
    destruct (Ascii.eqb c "013") eqn:Ec.
    + apply Ascii.eqb_eq in Ec. subst c.
      destruct (starts_with_lf r) eqn:El.
      * destruct r as [|d r']; [discriminate|]. cbn [starts_with_lf] in El.
        apply Ascii.eqb_eq in El. subst d. apply Hcrlf, IH. simpl in Hl. lia.
      * apply Hcr; [exact El|]. apply IH. lia.
    + apply Hk; [exact Ec|]. apply IH. lia.
Qed.

(** The text read has no carriage return. *)
Lemma newlines_no_cr (s : string) :
  Py.all_chars (fun c => negb (Ascii.eqb c "013")) (Py.universal_newlines s) = true.
Proof.
  apply (newlines_ind (fun s => Py.all_chars (fun c => negb (Ascii.eqb c "013"))
                                             (Py.universal_newlines s) = true)).
  - reflexivity.
  - intros r IH. rewrite newlines_crlf. cbn [Py.all_chars]. now rewrite IH.
  - intros r Hr IH. rewrite (newlines_cr _ Hr). cbn [Py.all_chars]. now rewrite IH.
  - intros c r Hc IH. rewrite (newlines_keep _ _ Hc). cbn [Py.all_chars]. now rewrite Hc, IH.
Qed.

(** A text without carriage return is read as it is stored. *)
Lemma newlines_id (s : string) :
  Py.all_chars (fun c => negb (Ascii.eqb c "013")) s = true ->
  Py.universal_newlines s = s.
Proof.
  induction s as [|c r IH]; [reflexivity|]. cbn [Py.all_chars].
  intros H. apply andb_true_iff in H as [Hc Hr]. apply negb_true_iff in Hc.
  now rewrite (newlines_keep _ _ Hc), IH.
Qed.

Lemma newlines_app_clean (tok post : string) :
  Py.all_chars (fun c => negb (Ascii.eqb c "013")) tok = true ->
  Py.universal_newlines (tok ++ post) = (tok ++ Py.universal_newlines post)%string.
Proof.
  induction tok as [|c r IH]; [reflexivity|]. cbn [Py.all_chars].
  intros H. apply andb_true_iff in H as [Hc Hr]. apply negb_true_iff in Hc.
  change (String c r ++ post)%string with (String c (r ++ post)).
  now rewrite (newlines_keep _ _ Hc), IH.
Qed.

Lemma starts_with_lf_app (r x : string) :
  starts_with_lf r = false -> starts_with_lf x = false -> starts_with_lf (r ++ x) = false.
Proof. destruct r; simpl; auto. Qed.

Lemma newlines_app (pre x : string) :
  starts_with_lf x = false ->
  Py.universal_newlines (pre ++ x)
  = (Py.universal_newlines pre ++ Py.universal_newlines x)%string.
Proof.
  intros Hx. revert pre.
  apply (newlines_ind (fun pre => Py.universal_newlines (pre ++ x)
           = (Py.universal_newlines pre ++ Py.universal_newlines x)%string)).
  - reflexivity.
  - intros r IH.
    change (String "013" (String "010" r) ++ x)%string
      with (String "013" (String "010" (r ++ x))).
    rewrite !newlines_crlf, IH. reflexivity.
  - intros r Hr IH.
    change (String "013" r ++ x)%string with (String "013" (r ++ x)).
    rewrite (newlines_cr _ Hr), (newlines_cr _ (starts_with_lf_app _ _ Hr Hx)), IH.
    reflexivity.
  - intros c r Hc IH.
    change (String c r ++ x)%string with (String c (r ++ x)).
    rewrite !(newlines_keep _ _ Hc), IH. reflexivity.
Qed.

(** A text without line end that occurs in the stored text occurs in the
    text read. *)
Lemma occurs_after_newlines (tok s : string) :
  Py.all_chars (fun c => negb (Ascii.eqb c "013") && negb (Ascii.eqb c "010")) tok = true ->
  occurs_in tok s -> occurs_in tok (Py.universal_newlines s).
Proof.
  intros Htok (pre & post & ->).
  destruct tok as [|c r]; [exists "", (Py.universal_newlines (pre ++ post)); reflexivity|].
  assert (Hcr : Py.all_chars (fun c => negb (Ascii.eqb c "013")) (String c r) = true).
  { eapply all_chars_impl; [|exact Htok]. intros d Hd.
    now apply andb_true_iff in Hd as [Hd _]. }
  exists (Py.universal_newlines pre), (Py.universal_newlines post).
  rewrite newlines_app, newlines_app_clean; auto.
  cbn [Py.all_chars] in Htok. apply andb_true_iff in Htok as [Hc _].
  apply andb_true_iff in Hc as [_ Hc]. now apply negb_true_iff in Hc.
Qed.

End LineEnds.

(* ------------------------------------------------------------------ *)
(** *** [int] and [str] *)

Section IntStr.

Lemma uint_string_digits (d : uint) :
  Py.all_chars is_digit (NilEmpty.string_of_uint d) = true.
Proof. induction d; simpl; auto. Qed.

Lemma digits_val_pos (d : uint) (acc : positive) :
  Py.digits_val (Npos acc) (NilEmpty.string_of_uint d)
  = Some (Npos (Pos.of_uint_acc d acc)).
Proof.
  revert acc; induction d; intros acc; cbn [NilEmpty.string_of_uint Py.digits_val Pos.of_uint_acc];
    try reflexivity;
    match goal with
    | |- context [Py.digit_val ?c] =>
        let v := eval vm_compute in (Py.digit_val c) in
        change (Py.digit_val c) with v; cbv iota
    end;
    rewrite <- IHd; f_equal; lia.
Qed.

Lemma digits_val_uint (d : uint) :
  Py.digits_val 0 (NilEmpty.string_of_uint d) = Some (Pos.of_uint d).
Proof.
  induction d; cbn [NilEmpty.string_of_uint Py.digits_val Pos.of_uint];
    try reflexivity;
    match goal with
    | |- context [Py.digit_val ?c] =>
        let v := eval vm_compute in (Py.digit_val c) in
        change (Py.digit_val c) with v; cbv iota
    end;
    [exact IHd | rewrite <- digits_val_pos; f_equal ..].
Qed.

Lemma lstrip_by_id (sp : ascii -> bool) (s : string) :
  Py.all_chars (fun c => negb (sp c)) s = true -> Py.lstrip_by sp s = s.
Proof.
  destruct s as [|c s]; simpl; auto.
  intros H. apply andb_true_iff in H as [H _].
  apply negb_true_iff in H. now rewrite H.
Qed.

Lemma rstrip_by_id (sp : ascii -> bool) (s : string) :
  Py.all_chars (fun c => negb (sp c)) s = true -> Py.rstrip_by sp s = s.
Proof.
  induction s as [|c s IH]; simpl; auto.
  intros H. apply andb_true_iff in H as [Hc Hs].
  apply negb_true_iff in Hc. rewrite (IH Hs), Hc. now destruct s.
Qed.

Lemma strip_by_id (sp : ascii -> bool) (s : string) :
  Py.all_chars (fun c => negb (sp c)) s = true -> Py.strip_by sp s = s.
Proof.
  intros H. unfold Py.strip_by. rewrite (lstrip_by_id _ _ H). now apply rstrip_by_id.
Qed.

Lemma digit_not_int_space (c : ascii) :
  is_digit c || Ascii.eqb c "-" = true -> negb (Py.is_int_space c) = true.
Proof.
  destruct c as [[] [] [] [] [] [] [] []]; vm_compute; congruence.
Qed.

Lemma int_of_digits (t : string) :
  t <> "" -> Py.all_chars is_digit t = true ->
  Py.int t = option_map Z.of_N (Py.digits_val 0 t).
Proof.
  intros Hne Hd. unfold Py.int. rewrite strip_by_id.
  - destruct t as [|c r]; [congruence|].
    simpl in Hd. apply andb_true_iff in Hd as [Hc _].
    destruct c as [[] [] [] [] [] [] [] []]; try discriminate Hc; reflexivity.
  - eapply all_chars_impl; [|exact Hd].
    intros c Hc. apply digit_not_int_space. now rewrite Hc.
Qed.

Lemma int_of_minus_digits (t : string) :
  t <> "" -> Py.all_chars is_digit t = true ->
  Py.int (String "-" t) = option_map (fun n => Z.opp (Z.of_N n)) (Py.digits_val 0 t).
Proof.
  intros Hne Hd. unfold Py.int. rewrite strip_by_id.
  - destruct t; [congruence | reflexivity].
  - simpl. eapply all_chars_impl; [|exact Hd].
    intros c Hc. apply digit_not_int_space. now rewrite Hc.
Qed.

Lemma uint_string_nonempty (d : uint) : d <> Nil -> NilEmpty.string_of_uint d <> "".
Proof. destruct d; simpl; congruence. Qed.

Lemma zero_string_of_uint (d : uint) :
  d <> Nil -> NilZero.string_of_uint d = NilEmpty.string_of_uint d.
Proof. destruct d; simpl; congruence. Qed.

(** Reading back what [str] wrote gives the integer. *)
Lemma int_str (z : Z) : Py.int (Py.str z) = Some z.
Proof.
  unfold Py.str. destruct z as [|p|p]; [reflexivity | |]; cbn [Z.to_int NilZero.string_of_int];
    pose proof (DecimalPos.Unsigned.to_uint_nonnil p) as Hnil;
    rewrite (zero_string_of_uint _ Hnil).
  - rewrite int_of_digits, digits_val_uint, DecimalPos.Unsigned.of_to;
      auto using uint_string_digits, uint_string_nonempty.
  - rewrite int_of_minus_digits, digits_val_uint, DecimalPos.Unsigned.of_to;
      auto using uint_string_digits, uint_string_nonempty.
Qed.

(** [str] writes digits behind an optional minus sign. *)
Lemma str_chars (z : Z) :
  Py.all_chars (fun c => is_digit c || Ascii.eqb c "-") (Py.str z) = true.
Proof.
  assert (D : forall d, Py.all_chars (fun c => is_digit c || Ascii.eqb c "-")
                          (NilZero.string_of_uint d) = true).
  { intros d. destruct (uint_eq_dec d Nil) as [->|Hn]; [reflexivity|].
    rewrite (zero_string_of_uint _ Hn).
    eapply all_chars_impl; [|apply uint_string_digits].
    intros c Hc. now rewrite Hc. }
  unfold Py.str. destruct (Z.to_int z); cbn [NilZero.string_of_int]; [apply D|].
  simpl. apply D.
Qed.

Lemma str_nonempty (z : Z) : Py.str z <> "".
Proof.
  unfold Py.str. destruct (Z.to_int z) as [d|d]; cbn [NilZero.string_of_int]; [|discriminate].
  destruct d; simpl; discriminate.
Qed.

Lemma str_inj (a b : Z) : Py.str a = Py.str b -> a = b.
Proof.
  intros H. apply (f_equal Py.int) in H. rewrite !int_str in H. congruence.
Qed.

End IntStr.

(* ------------------------------------------------------------------ *)
(** *** [sorted] *)

Section Sorting.

Context {A : Type} (le : A -> A -> bool).

Lemma insert_sorted_perm (x : A) (l : list A) :
  Permutation (Py.insert_sorted le x l) (x :: l).
Proof.
  induction l as [|y l IH]; simpl; auto.
  destruct (le x y); auto.
  rewrite IH. apply perm_swap.
Qed.

Lemma sorted_perm (l : list A) : Permutation (Py.sorted le l) l.
Proof.
  induction l as [|x l IH]; simpl; auto.
  rewrite insert_sorted_perm. auto.
Qed.

Hypothesis le_total : forall a b, le a b = true \/ le b a = true.
Hypothesis le_trans : forall a b c, le a b = true -> le b c = true -> le a c = true.

Lemma insert_sorted_sorted (x : A) (l : list A) :
  StronglySorted (fun a b => le a b = true) l ->
  StronglySorted (fun a b => le a b = true) (Py.insert_sorted le x l).
Proof.
  induction 1 as [|y l Hs IH Hy]; simpl.
  - repeat constructor.
  - destruct (le x y) eqn:Hxy.
    + constructor; [constructor; assumption|].
      constructor; [assumption|].
      eapply Forall_impl; [|exact Hy]. intros b Hb. eauto.
    + constructor; [assumption|].
      assert (Hyx : le y x = true) by (destruct (le_total x y); congruence).
      eapply Permutation_Forall; [symmetry; apply insert_sorted_perm|].
      constructor; assumption.
Qed.

Lemma sorted_strongly (l : list A) :
  StronglySorted (fun a b => le a b = true) (Py.sorted le l).
Proof.
  induction l; simpl; [constructor | now apply insert_sorted_sorted].
Qed.

End Sorting.

Lemma StronglySorted_map {A B : Type} (R : A -> A -> Prop) (Q : B -> B -> Prop)
      (f : A -> B) (P : A -> Prop) (l : list A) :
  (forall a b, P a -> P b -> R a b -> Q (f a) (f b)) ->
  Forall P l -> StronglySorted R l -> StronglySorted Q (map f l).
Proof.
  intros HRQ HP Hs. induction Hs as [|a l Hs IH Ha]; simpl; constructor.
  - apply IH. now inversion HP.
  - inversion HP as [|? ? Pa Pl]; subst.
    apply Forall_map. rewrite Forall_forall in *. eauto.
Qed.

(* ------------------------------------------------------------------ *)
(** *** Listing *)

Section Listing.

Lemma with_keys_ok (files : list string) :
  (forall f, In f files -> sort_key f <> None) ->
  exists l, with_keys files = Ok l /\ map snd l = files /\
            Forall (fun e => sort_key (snd e) = Some (fst e)) l.
Proof.
  induction files as [|x r IH]; intros H; simpl.
  - exists []. auto.
  - destruct (sort_key x) as [k|] eqn:Hk; [|exfalso; apply (H x); simpl; auto].
    destruct IH as (l & -> & Hm & Hf); [intros; apply H; simpl; auto|].
    exists ((k, x) :: l). simpl. rewrite Hm. auto.
Qed.

Lemma with_keys_raise (files : list string) (f : string) :
  In f files -> sort_key f = None ->
  exists lit, with_keys files = Raised (ValueError lit).
Proof.
  induction files as [|x r IH]; intros Hin Hk; simpl in *; [tauto|].
  destruct (sort_key x) eqn:Hx; [|eauto].
  destruct Hin as [->|Hin]; [congruence|].
  destruct (IH Hin Hk) as [lit ->]. eauto.
Qed.

Lemma key_le_total (a b : Z * string) : key_le a b = true \/ key_le b a = true.
Proof. unfold key_le. lia. Qed.

Lemma key_le_trans (a b c : Z * string) :
  key_le a b = true -> key_le b c = true -> key_le a c = true.
Proof. unfold key_le. lia. Qed.

Lemma sorted_by_id_ok (files : list string) :
  (forall f, In f files -> sort_key f <> None) ->
  exists l, sorted_by_id files = Ok l /\ Permutation l files /\ StronglySorted id_le l.
Proof.
  intros H. destruct (with_keys_ok files H) as (kl & Hk & Hm & Hf).
  unfold sorted_by_id. rewrite Hk. eexists; split; [reflexivity|]. split.
  - rewrite <- Hm. apply Permutation_map, sorted_perm.
  - eapply StronglySorted_map
      with (R := fun a b => key_le a b = true)
           (P := fun e => sort_key (snd e) = Some (fst e)).
    + intros a b Pa Pb Hab. exists (fst a), (fst b). unfold key_le in Hab.
      repeat split; auto. lia.
    + eapply Permutation_Forall; [symmetry; apply sorted_perm | exact Hf].
    + apply sorted_strongly; [apply key_le_total | apply key_le_trans].
Qed.

Lemma set_sidebar_same (w : world) :
  set_ui (set_sidebar (sidebar (ui w)) (ui w)) w = w.
Proof. destruct w as [s [] d]. reflexivity. Qed.

Lemma for_each_sidebar (keep : string -> bool) (l : list string) (w : world) :
  for_each l (fun f => if negb (keep f) then ret tt else sidebar_insert f) w
  = (Ok tt, set_ui (set_sidebar (sidebar (ui w) ++ filter keep l) (ui w)) w).
Proof.
  revert w; induction l as [|x l IH]; intros w; simpl.
  - rewrite app_nil_r, set_sidebar_same. reflexivity.
  - unfold bind. destruct (keep x); simpl.
    + rewrite IH. simpl. now rewrite <- app_assoc.
    + apply IH.
Qed.

Lemma refresh_list_run (filter_func : option filter_fn) (w : world) :
  refresh_list filter_func w =
  match sorted_by_id (list_note_files (notes w)) with
  | Ok l => (Ok tt, set_ui (set_sidebar (filter (keep_of filter_func (notes w)) l) (ui w)) w)
  | Raised e => (Raised e, set_ui (set_sidebar [] (ui w)) w)
  end.
Proof.
  unfold refresh_list, bind, modify_ui, get_notes, lift. simpl.
  destruct (sorted_by_id (list_note_files (notes w))) as [l|e]; [|reflexivity].
  destruct filter_func as [keep|].
  - rewrite (for_each_sidebar (keep (notes w))). reflexivity.
  - rewrite (for_each_sidebar (fun _ => true)). reflexivity.
Qed.

End Listing.

(* ------------------------------------------------------------------ *)
(** *** The ID allocator *)

Section Allocator.

Lemma parsed_ids_In (files : list string) (i : Z) :
  In i (parsed_ids files) <-> exists f, In f files /\ sort_key f = Some i.
Proof.
  induction files as [|x r IH]; cbn [parsed_ids].
  - split; [intros [] | intros [f [[] _]]].
  - change (Py.int (extract_id_from_filename x)) with (sort_key x).
    destruct (sort_key x) as [k|] eqn:Hk; split.
    + intros [<- | H]; [exists x; simpl; auto|].
      apply IH in H as [f [Hf Hi]]. exists f. simpl. auto.
    + intros [f [[<- | Hf] Hi]]; [left; congruence | right; apply IH; eauto].
    + intros H. apply IH in H as [f [Hf Hi]]. exists f. simpl. auto.
    + intros [f [[<- | Hf] Hi]]; [congruence | apply IH; eauto].
Qed.

Lemma parsed_ids_app (a b : list string) :
  parsed_ids (a ++ b) = parsed_ids a ++ parsed_ids b.
Proof.
  induction a as [|x a IH]; simpl; auto.
  destruct (Py.int (extract_id_from_filename x)); simpl; congruence.
Qed.

Lemma max_of_spec (ids : list Z) (i : Z) :
  In (max_of i ids) (i :: ids) /\ forall j, In j (i :: ids) -> (j <= max_of i ids)%Z.
Proof.
  unfold max_of. revert i; induction ids as [|k ids IH]; intros i; simpl.
  - split; [auto | intros j [<- | []]; lia].
  - destruct (IH (Z.max i k)) as [Hin Hle]. split.
    + destruct Hin as [Hm | Hin]; [|auto].
      destruct (Z.max_spec i k) as [[_ E] | [_ E]]; [right; left | left]; congruence.
    + intros j [<- | [<- | Hj]].
      * specialize (Hle (Z.max i k) (or_introl eq_refl)). lia.
      * specialize (Hle (Z.max i k) (or_introl eq_refl)). lia.
      * apply Hle. simpl. auto.
Qed.

(** The allocated integer is above every integer prefix of the store. *)
Lemma next_id_above (s : store) (i : Z) :
  numeric_prefix s i -> (i < next_id_value s)%Z.
Proof.
  unfold numeric_prefix. rewrite <- parsed_ids_In. unfold next_id_value.
  destruct (parsed_ids (list_note_files s)) as [|k ids]; [intros []|].
  intros H. apply (proj2 (max_of_spec ids k)) in H. lia.
Qed.

Lemma next_id_cases (s : store) :
  ((forall i, ~ numeric_prefix s i) /\ next_id_value s = 1%Z)
  \/ exists m, numeric_prefix s m /\ (forall i, numeric_prefix s i -> (i <= m)%Z)
               /\ next_id_value s = (m + 1)%Z.
Proof.
  unfold next_id_value.
  destruct (parsed_ids (list_note_files s)) as [|k ids] eqn:E.
  - left. split; [|reflexivity].
    intros i H. apply parsed_ids_In in H. rewrite E in H. exact H.
  - right. exists (max_of k ids). destruct (max_of_spec ids k) as [Hin Hle].
    repeat split.
    + apply parsed_ids_In. now rewrite E.
    + intros i H. apply Hle. apply parsed_ids_In in H. now rewrite E in H.
Qed.

Lemma list_note_files_app (a b : store) :
  list_note_files (a ++ b) = list_note_files a ++ list_note_files b.
Proof. unfold list_note_files, listdir. now rewrite map_app, filter_app. Qed.

(** An entry the allocator passes over: not a note file, or a prefix that
    [int] refuses. *)
Lemma get_next_id_skips (s1 s2 : store) (f : string) (fl : file) :
  is_note_file f = false \/ sort_key f = None ->
  get_next_id (s1 ++ (f, fl) :: s2) = get_next_id (s1 ++ s2).
Proof.
  intros H. unfold get_next_id, next_id_value.
  rewrite !list_note_files_app, !parsed_ids_app.
  replace (parsed_ids (list_note_files ((f, fl) :: s2)))
    with (parsed_ids (list_note_files s2)); [reflexivity|].
  unfold list_note_files, listdir. simpl.
  destruct (is_note_file f) eqn:Hn; [|reflexivity].
  destruct H as [H|H]; [discriminate|].
  simpl. unfold sort_key in H. unfold extract_id_from_filename. now rewrite H.
Qed.

Lemma parsed_ids_without (f : string) (files : list string) :
  sort_key f = None ->
  parsed_ids (filter (fun x => negb (String.eqb x f)) files) = parsed_ids files.
Proof.
  intros Hk. induction files as [|x r IH]; simpl; auto.
  destruct (String.eqb_spec x f) as [->|Hne]; simpl.
  - unfold sort_key in Hk. unfold extract_id_from_filename. now rewrite Hk.
  - now rewrite IH.
Qed.

Lemma list_note_files_without (f : string) (s : store) :
  list_note_files (filter (fun e => negb (String.eqb (fst e) f)) s)
  = filter (fun x => negb (String.eqb x f)) (list_note_files s).
Proof.
  unfold list_note_files, listdir. induction s as [|[x fl] s IH]; simpl; auto.
  destruct (String.eqb x f) eqn:Hx; destruct (is_note_file x) eqn:Hn;
    simpl; rewrite ?Hx, ?Hn; simpl; rewrite IH; reflexivity.
Qed.

End Allocator.

(** C2. [get_next_id] returns the greatest integer prefix of the note files
    plus one, and 1 when no note file has an integer prefix; an entry whose
    prefix is not an integer is passed over without an error; with the
    prefixes 1, 2 and 5 the result is 6. *)
Theorem C2_get_next_id_max_plus_one :
  (forall s : store,
      ((forall i, ~ numeric_prefix s i) /\ get_next_id s = "1")
      \/ exists m, numeric_prefix s m /\ (forall i, numeric_prefix s i -> (i <= m)%Z)
                   /\ get_next_id s = Py.str (m + 1))
  /\ (forall (s1 s2 : store) f fl,
         sort_key f = None ->
         get_next_id (s1 ++ (f, fl) :: s2) = get_next_id (s1 ++ s2))
  /\ (forall fl : file,
         get_next_id [("1_a.md", fl); ("notes.md", fl); ("5_c.md", fl);
                      ("x1_d.md", fl); ("2_b.md", fl)] = "6").
Proof.
  split; [|split].
  - intros s. unfold get_next_id.
    destruct (next_id_cases s) as [[H ->] | (m & H1 & H2 & ->)]; [left | right]; eauto.
  - intros. apply get_next_id_skips. auto.
  - reflexivity.
Qed.

(** C10. When some note file of the directory has a prefix that is not an
    integer, the listing raises [ValueError] from the sort key and leaves
    the sidebar empty, whatever the filter; [get_next_id] on the same store
    answers as if the file were not there. *)
Theorem C10_listing_raises_on_bad_prefix
        (w : world) (filter_func : option filter_fn) (f : string) :
  In f (list_note_files (notes w)) ->
  sort_key f = None ->
  (exists lit,
      refresh_list filter_func w
      = (Raised (ValueError lit), set_ui (set_sidebar [] (ui w)) w))
  /\ get_next_id (notes w)
     = get_next_id (filter (fun e => negb (String.eqb (fst e) f)) (notes w)).
Proof.
  intros Hin Hk. split.
  - rewrite refresh_list_run. unfold sorted_by_id.
    destruct (with_keys_raise _ _ Hin Hk) as [lit ->]. eauto.
  - unfold get_next_id, next_id_value.
    now rewrite list_note_files_without, parsed_ids_without.
Qed.

(** C3. When every note file has an integer prefix, the listing succeeds
    and puts in the sidebar a rearrangement of the note files in which the
    integers of the prefixes ascend. *)
Theorem C3_listing_sorted_by_integer_id (w : world) :
  (forall f, In f (list_note_files (notes w)) -> sort_key f <> None) ->
  exists l,
    refresh_list None w = (Ok tt, set_ui (set_sidebar l (ui w)) w)
    /\ Permutation l (list_note_files (notes w))
    /\ StronglySorted id_le l.
Proof.
  intros H. destruct (sorted_by_id_ok _ H) as (l & Hl & Hp & Hs).
  exists l. rewrite refresh_list_run, Hl. simpl.
  replace (filter (fun _ => true) l) with l; auto.
  clear. induction l; simpl; congruence.
Qed.

(* ------------------------------------------------------------------ *)
(** *** Backlinks *)

Lemma find_backlinks_in_filter (s : store) (note_id : string) (files : list string) :
  find_backlinks_in s note_id files = filter (links_to s note_id) files.
Proof.
  unfold links_to. induction files as [|x r IH]; simpl; auto.
  destruct (Fs.read x s) as [c|]; [|exact IH].
  destruct (Py.contains (link_token note_id) c); now rewrite IH.
Qed.

(** C6. [find_backlinks] returns, in the order of the directory listing,
    the note files that can be read and whose content has the exact text
    of the link token; the note itself is not left out, blanks inside the
    brackets do not match, and a file that cannot be read is passed over. *)
Theorem C6_find_backlinks_exact :
  (forall (s : store) (i f : string),
      In f (find_backlinks s i) <->
      In f (list_note_files s) /\
      exists c, Fs.read f s = Some c /\ occurs_in ("[[" ++ i ++ "]]")%string c)
  /\ (forall (s : store) (i : string),
         find_backlinks s i = filter (links_to s i) (list_note_files s))
  /\ find_backlinks [("3_x.md", mkFile "see [[3]]" true true)] "3" = ["3_x.md"]
  /\ find_backlinks [("4_y.md", mkFile "see [[ 3 ]] [[3 ]] [3]" true true)] "3" = []
  /\ find_backlinks [("1_a.md", mkFile "[[3]]" false true);
                     ("2_b.md", mkFile "[[3]]" true true)] "3" = ["2_b.md"].
Proof.
  split; [|split; [|repeat split]].
  - intros s i f. unfold find_backlinks.
    rewrite find_backlinks_in_filter, filter_In. unfold links_to.
    split; intros [Hin H]; split; auto.
    + destruct (Fs.read f s) as [c|]; [|discriminate].
      exists c. split; auto. now apply contains_occurs.
    + destruct H as (c & -> & H). now apply contains_occurs.
  - intros. apply find_backlinks_in_filter.
Qed.

(* ------------------------------------------------------------------ *)
(** *** Creating notes *)

Section Creating.

Lemma lookup_None (name : string) (s : store) :
  Fs.lookup name s = None <-> ~ In name (listdir s).
Proof.
  unfold Fs.lookup, listdir. induction s as [|[x fl] s IH]; simpl.
  - tauto.
  - destruct (String.eqb_spec x name) as [->|Hne]; simpl.
    + split; [discriminate | tauto].
    + rewrite IH. tauto.
Qed.

Lemma str_char_cases (z : Z) (p : ascii -> bool) :
  (forall c, is_digit c || Ascii.eqb c "-" = true -> p c = true) ->
  Py.all_chars p (Py.str z) = true.
Proof. intros H. eapply all_chars_impl; [exact H | apply str_chars]. Qed.

Lemma generated_is_note_file (z : Z) (title : string) :
  is_note_file (generate_filename (Py.str z) title) = true.
Proof.
  unfold is_note_file, generate_filename. apply andb_true_iff. split.
  - apply endswith_suffix. exists (Py.str z ++ "_" ++ slug_of title)%string.
    now rewrite !append_assoc.
  - pose proof (str_nonempty z) as Hne.
    pose proof (str_chars z) as Hc.
    destruct (Py.str z) as [|c r]; [congruence|].
    simpl in Hc. apply andb_true_iff in Hc as [Hc _].
    unfold Py.startswith. cbn [append String.prefix].
    destruct (ascii_dec "." c) as [<-|]; [discriminate Hc | reflexivity].
Qed.

Lemma generated_id (z : Z) (title : string) :
  extract_id_from_filename (generate_filename (Py.str z) title) = Py.str z.
Proof.
  unfold extract_id_from_filename, generate_filename.
  change ("_" ++ slug_of title ++ ".md")%string
    with (String "_" (slug_of title ++ ".md")).
  apply split_head_append, str_char_cases.
  intros c. destruct c as [[] [] [] [] [] [] [] []]; vm_compute; congruence.
Qed.

Lemma generated_sort_key (z : Z) (title : string) :
  sort_key (generate_filename (Py.str z) title) = Some z.
Proof.
  unfold sort_key. fold (extract_id_from_filename (generate_filename (Py.str z) title)).
  rewrite generated_id. apply int_str.
Qed.

Lemma generated_legal (z : Z) (title : string) :
  Fs.legal_name (generate_filename (Py.str z) title)
  = Py.all_chars Fs.legal_char (slug_of title).
Proof.
  unfold Fs.legal_name, generate_filename.
  replace (negb ((Py.str z ++ "_" ++ slug_of title ++ ".md") =? "")%string) with true.
  - rewrite !all_chars_append. rewrite str_char_cases.
    + simpl. now rewrite andb_true_r.
    + intros c. destruct c as [[] [] [] [] [] [] [] []]; vm_compute; congruence.
  - pose proof (str_nonempty z). destruct (Py.str z); [congruence | reflexivity].
Qed.

(** The name [new_note] builds is the name of no entry of the directory. *)
Lemma generated_fresh (s : store) (title : string) :
  ~ In (generate_filename (get_next_id s) title) (listdir s).
Proof.
  intros Hin. unfold get_next_id in Hin.
  assert (H : numeric_prefix s (next_id_value s)).
  { exists (generate_filename (Py.str (next_id_value s)) title). split.
    - unfold list_note_files. apply filter_In. split; auto.
      apply generated_is_note_file.
    - apply generated_sort_key. }
  apply next_id_above in H. lia.
Qed.

Lemma for_each_tags (l : list string) (w : world) :
  for_each l (fun tag => modify_ui (fun a => set_tag_list (tag_list a ++ [tag]) a)) w
  = (Ok tt, set_ui (set_tag_list (tag_list (ui w) ++ l) (ui w)) w).
Proof.
  revert w; induction l as [|x l IH]; intros w; simpl.
  - rewrite app_nil_r. destruct w as [s [] d]. reflexivity.
  - unfold bind. simpl. rewrite IH. simpl. now rewrite <- app_assoc.
Qed.

Lemma refresh_tags_run (w : world) :
  refresh_tags w = (Ok tt, set_ui (set_tag_list (extract_tags (notes w)) (ui w)) w).
Proof.
  unfold refresh_tags, bind, modify_ui, get_notes. simpl.
  rewrite for_each_tags. reflexivity.
Qed.

Lemma refresh_list_notes (filter_func : option filter_fn) (w : world) :
  notes (snd (refresh_list filter_func w)) = notes w.
Proof.
  rewrite refresh_list_run. now destruct (sorted_by_id _).
Qed.

(** What is left after the file of [new_note] is written changes no file. *)
Lemma after_write_notes (filename : string) (w : world) :
  notes (snd ((refresh_list None ;; refresh_tags ;;
               show (showinfo "Note Created" ("Created note: " ++ filename))) w))
  = notes w.
Proof.
  unfold bind. rewrite refresh_list_run.
  destruct (sorted_by_id _); simpl; [|reflexivity].
  rewrite refresh_tags_run. reflexivity.
Qed.

Lemma new_note_unfold (c : ascii) (r now : string) (w : world) :
  new_note (Some (String c r)) now w =
  (open_write (generate_filename (get_next_id (notes w)) (String c r))
              (note_template (String c r) (get_next_id (notes w)) now) ;;
   refresh_list None ;; refresh_tags ;;
   show (showinfo "Note Created"
           ("Created note: " ++ generate_filename (get_next_id (notes w)) (String c r)))) w.
Proof. reflexivity. Qed.

Lemma new_note_creates (title now : string) (w : world) :
  creatable title ->
  notes (snd (new_note (Some title) now w))
  = notes w ++ [(generate_filename (get_next_id (notes w)) title,
                 mkFile (note_template title (get_next_id (notes w)) now) true true)].
Proof.
  intros [Hne Hlegal]. destruct title as [|c r]; [congruence|].
  rewrite new_note_unfold. unfold bind at 1. unfold open_write, Fs.write.
  rewrite (proj2 (lookup_None _ _) (generated_fresh (notes w) (String c r))).
  unfold get_next_id at 1. rewrite generated_legal, Hlegal.
  rewrite after_write_notes. reflexivity.
Qed.

Lemma new_note_refused (title now : string) (w : world) :
  title <> "" -> Py.all_chars Fs.legal_char (slug_of title) = false ->
  new_note (Some title) now w
  = (Raised (OSError (generate_filename (get_next_id (notes w)) title)), w).
Proof.
  intros Hne Hlegal. destruct title as [|c r]; [congruence|].
  rewrite new_note_unfold. unfold bind at 1. unfold open_write, Fs.write.
  rewrite (proj2 (lookup_None _ _) (generated_fresh (notes w) (String c r))).
  unfold get_next_id at 1. rewrite generated_legal, Hlegal. reflexivity.
Qed.

Lemma next_id_after_create (s : store) (title : string) (fl : file) :
  next_id_value (s ++ [(generate_filename (get_next_id s) title, fl)])
  = (next_id_value s + 1)%Z.
Proof.
  unfold get_next_id.
  pose proof (generated_sort_key (next_id_value s) title) as Hk.
  pose proof (generated_is_note_file (next_id_value s) title) as Hn.
  set (fn := generate_filename (Py.str (next_id_value s)) title) in *.
  unfold next_id_value at 1.
  rewrite list_note_files_app, parsed_ids_app.
  unfold list_note_files at 2. simpl. rewrite Hn. simpl.
  unfold sort_key in Hk. unfold extract_id_from_filename. rewrite Hk.
  unfold next_id_value.
  destruct (parsed_ids (list_note_files s)) as [|k ids]; simpl; [reflexivity|].
  unfold max_of. rewrite fold_left_app. simpl. fold (max_of k ids). lia.
Qed.

Lemma count_from_In (n : nat) (a i : Z) :
  In i (count_from a n) <-> (a <= i < a + Z.of_nat n)%Z.
Proof.
  revert a; induction n as [|n IH]; intros a; cbn [count_from In].
  - lia.
  - rewrite IH. lia.
Qed.

Lemma count_from_NoDup (n : nat) (a : Z) : NoDup (count_from a n).
Proof.
  revert a; induction n as [|n IH]; intros a; simpl; constructor; auto.
  rewrite count_from_In. lia.
Qed.

Lemma create_all_run (titles : list (string * string)) (w : world) :
  Forall (fun tn => creatable (fst tn)) titles ->
  fst (create_all titles w) = count_from (next_id_value (notes w)) (List.length titles)
  /\ listdir (notes (snd (create_all titles w)))
     = listdir (notes w) ++ created_names (next_id_value (notes w)) titles.
Proof.
  revert w; induction titles as [|[title now] rest IH]; intros w H.
  - simpl. now rewrite app_nil_r.
  - inversion H as [|? ? Hc Hrest]; subst. cbn [fst] in Hc.
    cbn [create_all List.length count_from created_names].
    pose proof (new_note_creates title now w Hc) as Hn.
    set (w1 := snd (new_note (Some title) now w)) in *.
    specialize (IH w1 Hrest).
    destruct (create_all rest w1) as [ids w']. cbn [fst snd] in *.
    destruct IH as [Hids Hdir].
    rewrite Hn, next_id_after_create in Hids, Hdir.
    split; [now rewrite Hids|].
    rewrite Hdir. unfold listdir. rewrite map_app, <- app_assoc. reflexivity.
Qed.

End Creating.

(** C1 (as stated, at a store with a negative prefix). The directory holds
    the single note file ["-5_x.md"]; creating one note allocates -4, which
    is not a positive integer, and writes ["-4_t.md"]. *)
Lemma C1_counterexample_negative_prefix :
  creatable "t"
  /\ fst (create_all [("t", "")] (idle [("-5_x.md", plain "")])) = [(-4)%Z]
  /\ listdir (notes (snd (create_all [("t", "")] (idle [("-5_x.md", plain "")]))))
     = ["-5_x.md"; "-4_t.md"].
Proof.
  split; [split; [discriminate | reflexivity]|].
  split; vm_compute; reflexivity.
Qed.

(** C1 (amended). Creating notes for [N] titles that [new_note] can turn
    into files allocates [N] consecutive integers, hence distinct ones,
    starting at the allocator's value for the initial store; the files are
    added under names that carry these integers as prefix; every allocated
    integer is above every integer prefix of a note file already present,
    and is positive when none of those prefixes is negative.  On any store
    the allocator's value differs from the prefix of every note file. *)
Theorem C1_created_ids_distinct_and_fresh
        (titles : list (string * string)) (w : world) :
  Forall (fun tn => creatable (fst tn)) titles ->
  fst (create_all titles w) = count_from (next_id_value (notes w)) (List.length titles)
  /\ NoDup (fst (create_all titles w))
  /\ listdir (notes (snd (create_all titles w)))
     = listdir (notes w) ++ created_names (next_id_value (notes w)) titles
  /\ (forall i title,
         extract_id_from_filename (generate_filename (Py.str i) title) = Py.str i
         /\ sort_key (generate_filename (Py.str i) title) = Some i)
  /\ (forall i k, In i (fst (create_all titles w)) ->
                  numeric_prefix (notes w) k -> (k < i)%Z)
  /\ ((forall k, numeric_prefix (notes w) k -> (0 <= k)%Z) ->
      forall i, In i (fst (create_all titles w)) -> (0 < i)%Z)
  /\ (forall (s : store) f,
         In f (list_note_files s) ->
         sort_key f <> Some (next_id_value s)
         /\ extract_id_from_filename f <> get_next_id s).
Proof.
  intros H. destruct (create_all_run titles w H) as [Hids Hdir].
  rewrite Hids. repeat split; auto using count_from_NoDup, generated_id, generated_sort_key.
  - intros i k Hi Hk. apply count_from_In in Hi. apply next_id_above in Hk. lia.
  - intros Hpos i Hi. apply count_from_In in Hi.
    destruct (next_id_cases (notes w)) as [[_ E] | (m & Hm & _ & E)].
    + lia.
    + specialize (Hpos m Hm). lia.
  - intros Hk. assert (Hn : numeric_prefix s (next_id_value s)) by (exists f; auto).
    apply next_id_above in Hn. lia.
  - intros Hk. assert (Hn : numeric_prefix s (next_id_value s)).
    { exists f. split; auto. unfold sort_key.
      fold (extract_id_from_filename f). rewrite Hk. apply int_str. }
    apply next_id_above in Hn. lia.
Qed.

Lemma C1_witness :
  NoDup (fst (create_all [("alpha", "t1"); ("beta gamma", "t2")]
                         (idle [("1_x.md", plain ""); ("5_y.md", plain "")]))).
Proof.
  apply (C1_created_ids_distinct_and_fresh
           [("alpha", "t1"); ("beta gamma", "t2")]
           (idle [("1_x.md", plain ""); ("5_y.md", plain "")])).
  repeat constructor; simpl; discriminate.
Defined.

(** C7 (as stated, at a title of blanks). The title of three spaces strips
    to the empty text, yet [new_note] on the empty directory writes the
    note file ["1_.md"] and announces it. *)
Lemma C7_counterexample_blank_title :
  Py.strip "   " = ""
  /\ listdir (notes (snd (new_note (Some "   ") "" (idle [])))) = ["1_.md"]
  /\ dialogs (snd (new_note (Some "   ") "" (idle [])))
     = [showinfo "Note Created" "Created note: 1_.md"].
Proof. repeat split; vm_compute; reflexivity. Qed.

(** C7 (amended). With no title (the dialog was cancelled) or the empty
    title, [new_note] returns and changes nothing; no exception is raised.
    Every other title whose slug can be part of a file name, titles of
    blanks included, adds one new file to the directory under a name no
    entry had; a slug with a separator or a NUL makes the write raise,
    and nothing is changed. *)
Theorem C7_new_note_rejects_only_empty_title (w : world) (now : string) :
  new_note None now w = (Ok tt, w)
  /\ new_note (Some "") now w = (Ok tt, w)
  /\ (forall title, creatable title ->
        notes (snd (new_note (Some title) now w))
        = notes w ++ [(generate_filename (get_next_id (notes w)) title,
                       mkFile (note_template title (get_next_id (notes w)) now) true true)]
        /\ ~ In (generate_filename (get_next_id (notes w)) title) (listdir (notes w)))
  /\ (forall title, title <> "" ->
        Py.all_chars Fs.legal_char (slug_of title) = false ->
        new_note (Some title) now w
        = (Raised (OSError (generate_filename (get_next_id (notes w)) title)), w)).
Proof.
  repeat split.
  - now apply new_note_creates.
  - apply generated_fresh.
  - intros title Hne Hl. now apply new_note_refused.
Qed.

(* ------------------------------------------------------------------ *)
(** *** Searching *)

Section Searching.

Lemma filter_strongly_sorted {A : Type} (R : A -> A -> Prop) (p : A -> bool) (l : list A) :
  StronglySorted R l -> StronglySorted R (filter p l).
Proof.
  induction 1 as [|a l Hs IH Ha]; simpl; [constructor|].
  destruct (p a); auto. constructor; auto.
  rewrite Forall_forall in *. intros x Hx. apply filter_In in Hx. apply Ha, Hx.
Qed.

Lemma lower_empty (s : string) : Py.lower s = "" <-> s = "".
Proof. destruct s; simpl; split; congruence. Qed.

Lemma search_notes_blank (search_var : string) (w : world) :
  Py.strip search_var = "" -> search_notes search_var w = refresh_list None w.
Proof. unfold search_notes. intros ->. reflexivity. Qed.

Lemma search_notes_keyword (search_var : string) (w : world) :
  Py.strip search_var <> "" ->
  search_notes search_var w
  = refresh_list (Some (search_filter (Py.lower (Py.strip search_var)))) w.
Proof.
  unfold search_notes. intros H.
  destruct (Py.lower (Py.strip search_var)) eqn:E; [|reflexivity].
  apply (proj1 (lower_empty _)) in E. contradiction.
Qed.

(** The filter of [search_notes]: the file can be read and the keyword
    occurs, up to case, in its name or in its content. *)
Lemma search_filter_spec (k : string) (s : store) (f : string) :
  search_filter (Py.lower k) s f = true <->
  exists c, Fs.read f s = Some c /\ (ci_occurs_in k f \/ ci_occurs_in k c).
Proof.
  unfold search_filter. destruct (Fs.read f s) as [c|].
  - rewrite orb_true_iff, !contains_occurs, !lower_occurs. split.
    + intros H. exists c. auto.
    + intros (c' & [= <-] & H). exact H.
  - split; [discriminate | intros (c & [=] & _)].
Qed.

End Searching.

(** C9 (as stated, at a keyword with a leading blank). The keyword [" a"]
    occurs, in whatever case, neither in the name ["1_x.md"] nor in the
    content ["ba"], yet the search lists the note: the keyword is stripped
    before it is matched. *)
Lemma C9_counterexample_keyword_is_stripped :
  sidebar (ui (snd (search_notes " a" (idle [("1_x.md", plain "ba")])))) = ["1_x.md"]
  /\ ~ ci_occurs_in " a" "1_x.md"
  /\ ~ ci_occurs_in " a" "ba".
Proof.
  split; [reflexivity|].
  split; rewrite <- lower_occurs; apply contains_false_not_occurs; reflexivity.
Qed.

(** C9 (amended). When every note file has an integer prefix the search
    succeeds.  A keyword that strips to the empty text gives the listing of
    all notes.  Otherwise the sidebar holds, by ascending integer prefix,
    exactly the note files that can be read and in whose name or content
    the stripped keyword occurs up to case. *)
Theorem C9_search_stripped_keyword_ignoring_case (w : world) (search_var : string) :
  (forall f, In f (list_note_files (notes w)) -> sort_key f <> None) ->
  exists l,
    search_notes search_var w = (Ok tt, set_ui (set_sidebar l (ui w)) w)
    /\ StronglySorted id_le l
    /\ (Py.strip search_var = "" ->
        search_notes search_var w = refresh_list None w
        /\ Permutation l (list_note_files (notes w)))
    /\ (Py.strip search_var <> "" ->
        forall f, In f l <->
                  In f (list_note_files (notes w)) /\
                  exists c, Fs.read f (notes w) = Some c /\
                            (ci_occurs_in (Py.strip search_var) f
                             \/ ci_occurs_in (Py.strip search_var) c)).
Proof.
  intros H. destruct (sorted_by_id_ok _ H) as (all & Hall & Hp & Hs).
  destruct (string_dec (Py.strip search_var) "") as [E|E].
  - exists all. rewrite (search_notes_blank _ _ E), refresh_list_run, Hall.
    simpl. rewrite filter_true.
    split; [reflexivity|]. split; [assumption|]. split.
    + intros _. split; [reflexivity | assumption].
    + intros NE. contradiction.
  - exists (filter (search_filter (Py.lower (Py.strip search_var)) (notes w)) all).
    rewrite (search_notes_keyword _ _ E), refresh_list_run, Hall. simpl.
    split; [reflexivity|]. split; [now apply filter_strongly_sorted|].
    split; [intros E'; contradiction|]. intros _ f.
    rewrite filter_In, search_filter_spec. split; intros [Hin Hc]; split; auto.
    + eapply Permutation_in; eauto.
    + eapply Permutation_in; [symmetry|]; eauto.
Qed.

(* ------------------------------------------------------------------ *)
(** *** Deleting *)

Section Deleting.

Lemma lookup_app_skip (g : string) (a b : store) :
  ~ In g (listdir a) -> Fs.lookup g (a ++ b) = Fs.lookup g b.
Proof.
  unfold Fs.lookup, listdir. induction a as [|[x fl] a IH]; simpl; auto.
  intros H. destruct (String.eqb_spec x g) as [->|Hne]; [tauto|].
  apply IH. tauto.
Qed.

Lemma lookup_head (g : string) (fl : file) (r : store) :
  Fs.lookup g ((g, fl) :: r) = Some fl.
Proof. unfold Fs.lookup. simpl. now rewrite String.eqb_refl. Qed.

Lemma update_content_skip (g data : string) (s : store) :
  ~ In g (listdir s) -> Fs.update_content g data s = s.
Proof.
  unfold Fs.update_content, listdir. induction s as [|[x fl] s IH]; simpl; auto.
  intros H. destruct (String.eqb_spec x g) as [->|Hne]; [tauto|].
  rewrite IH; tauto.
Qed.

Lemma NoDup_listdir_mid (a : store) (g : string) (fl : file) (r : store) :
  NoDup (listdir (a ++ (g, fl) :: r)) ->
  ~ In g (listdir a) /\ ~ In g (listdir r).
Proof.
  unfold listdir. rewrite map_app. simpl. intros H.
  apply NoDup_remove_2 in H. rewrite in_app_iff in H. tauto.
Qed.

Lemma read_mid (a : store) (g : string) (fl : file) (r : store) :
  ~ In g (listdir a) ->
  Fs.read g (a ++ (g, fl) :: r)
  = if readable fl then Some (Py.universal_newlines (content fl)) else None.
Proof.
  intros H. unfold Fs.read. now rewrite lookup_app_skip, lookup_head.
Qed.

Lemma write_mid (a : store) (g data : string) (fl : file) (r : store) :
  NoDup (listdir (a ++ (g, fl) :: r)) ->
  Fs.write g data (a ++ (g, fl) :: r)
  = if writable fl then Some (a ++ (g, Fs.set_content data fl) :: r) else None.
Proof.
  intros H. destruct (NoDup_listdir_mid _ _ _ _ H) as [Ha Hr].
  unfold Fs.write. rewrite lookup_app_skip, lookup_head by assumption.
  destruct (writable fl); [|reflexivity].
  f_equal. unfold Fs.update_content. rewrite map_app. simpl.
  rewrite String.eqb_refl.
  fold (Fs.update_content g data a). fold (Fs.update_content g data r).
  now rewrite !update_content_skip.
Qed.

Lemma app_cons_assoc {A : Type} (a : list A) (x : A) (r : list A) :
  a ++ x :: r = (a ++ [x]) ++ r.
Proof. now rewrite <- app_assoc. Qed.

Lemma listdir_mid_same (a : store) (g : string) (fl fl' : file) (r : store) :
  listdir (a ++ (g, fl) :: r) = listdir (a ++ (g, fl') :: r).
Proof. unfold listdir. now rewrite !map_app. Qed.

(** The loop of [delete_note], run on the entries [todo] behind the
    entries [done] it has passed. *)
Lemma cleanup_loop (f i : string) (w : world) (todo : store) :
  forall done : store,
    NoDup (listdir (done ++ todo)) ->
    ~ In f (listdir todo) ->
    for_each (list_note_files todo) (cleanup_file f i) (set_notes (done ++ todo) w)
    = (match snd (cleanup_entries i todo) with
       | None => Ok tt
       | Some g => Raised (OSError g)
       end,
       set_notes (done ++ fst (cleanup_entries i todo)) w).
Proof.
  induction todo as [|[g fl] r IH]; intros done Hnd Hf; [reflexivity|].
  assert (Hgf : String.eqb g f = false).
  { apply String.eqb_neq. intros ->. apply Hf. simpl. auto. }
  assert (Hfr : ~ In f (listdir r)) by (simpl in Hf; tauto).
  destruct (NoDup_listdir_mid _ _ _ _ Hnd) as [Hgd Hgr].
  unfold list_note_files, listdir. cbn [map filter fst cleanup_entries].
  fold (listdir r). fold (list_note_files r).
  unfold blocks_cleanup, cleaned. cbn [fst snd].
  destruct (is_note_file g) eqn:Hn; cbn [andb].
  - cbn [for_each]. unfold bind at 1. unfold cleanup_file at 1. rewrite Hgf.
    unfold bind at 1. unfold open_read. cbn [notes set_notes].
    rewrite (read_mid _ _ _ _ Hgd).
    destruct (readable fl); cbn [negb orb]; [|reflexivity].
    destruct (Py.contains (link_token i) (Py.universal_newlines (content fl))); cbn [andb].
    + unfold open_write. cbn [notes set_notes]. rewrite (write_mid _ _ _ _ _ Hnd).
      destruct (writable fl); cbn [negb]; [|reflexivity].
      specialize (IH (done ++ [(g, Fs.set_content
                                   (Py.replace (link_token i) (deleted_placeholder i)
                                               (Py.universal_newlines (content fl))) fl)])).
      rewrite <- !app_cons_assoc in IH.
      unfold set_notes in *. cbn [ui dialogs] in *.
      rewrite IH; auto.
      * destruct (cleanup_entries i r) as [r' o]. reflexivity.
      * now rewrite (listdir_mid_same _ _ _ fl).
    + cbn [ret]. specialize (IH (done ++ [(g, fl)])).
      rewrite <- !app_cons_assoc in IH. rewrite IH; auto.
      destruct (cleanup_entries i r) as [r' o]. reflexivity.
  - specialize (IH (done ++ [(g, fl)])).
    rewrite <- !app_cons_assoc in IH. rewrite IH; auto.
    destruct (cleanup_entries i r) as [r' o]. reflexivity.
Qed.

Lemma cleanup_entries_all (i : string) (s : store) :
  (forall e, In e s -> blocks_cleanup i e = false) ->
  cleanup_entries i s = (map (cleaned i) s, None).
Proof.
  induction s as [|e r IH]; intros H; simpl; [reflexivity|].
  rewrite (H e) by (simpl; auto). rewrite IH; [reflexivity|].
  intros x Hx. apply H. simpl. auto.
Qed.

Lemma cleanup_entries_stop (i : string) (pre : store) (e : string * file) (post : store) :
  (forall x, In x pre -> blocks_cleanup i x = false) ->
  blocks_cleanup i e = true ->
  cleanup_entries i (pre ++ e :: post) = (map (cleaned i) pre ++ e :: post, Some (fst e)).
Proof.
  induction pre as [|x pre IH]; intros H He; simpl.
  - now rewrite He.
  - rewrite (H x) by (simpl; auto). rewrite IH; auto.
    intros y Hy. apply H. simpl. auto.
Qed.

Lemma remove_present (f : string) (s : store) :
  In f (listdir s) ->
  Fs.remove f s = Some (filter (fun e => negb (String.eqb (fst e) f)) s).
Proof.
  intros H. unfold Fs.remove.
  destruct (Fs.lookup f s) eqn:E; [reflexivity|].
  apply lookup_None in E. contradiction.
Qed.

Lemma listdir_without (f : string) (s : store) :
  listdir (filter (fun e => negb (String.eqb (fst e) f)) s)
  = filter (fun x => negb (String.eqb x f)) (listdir s).
Proof.
  unfold listdir. induction s as [|[x fl] s IH]; simpl; auto.
  destruct (String.eqb x f); simpl; now rewrite IH.
Qed.

Lemma without_absent (f : string) (s : store) :
  ~ In f (listdir (filter (fun e => negb (String.eqb (fst e) f)) s)).
Proof.
  rewrite listdir_without, filter_In. intros [_ H].
  now rewrite String.eqb_refl in H.
Qed.

Lemma without_NoDup (f : string) (s : store) :
  NoDup (listdir s) -> NoDup (listdir (filter (fun e => negb (String.eqb (fst e) f)) s)).
Proof. intros H. rewrite listdir_without. now apply NoDup_filter. Qed.

Lemma for_each_backlinks (l : list string) (w : world) :
  for_each l (fun f => modify_ui (fun a => set_backlinks_box (backlinks_box a ++ [f]) a)) w
  = (Ok tt, set_ui (set_backlinks_box (backlinks_box (ui w) ++ l) (ui w)) w).
Proof.
  revert w; induction l as [|x l IH]; intros w; simpl.
  - rewrite app_nil_r. destruct w as [s [] d]. reflexivity.
  - unfold bind. simpl. rewrite IH. simpl. now rewrite <- app_assoc.
Qed.

Lemma update_backlinks_run (w : world) :
  exists bl, update_backlinks w = (Ok tt, set_ui (set_backlinks_box bl (ui w)) w).
Proof.
  unfold update_backlinks, bind at 1, get_ui.
  destruct (current_id (ui w)) as [[|a r]|].
  - exists (backlinks_box (ui w)). destruct w as [s [] d]. reflexivity.
  - unfold bind at 1, modify_ui. unfold bind at 1, get_notes.
    rewrite for_each_backlinks. eexists. reflexivity.
  - exists (backlinks_box (ui w)). destruct w as [s [] d]. reflexivity.
Qed.

(** Opening a note that can be read makes it the open note, with the
    prefix of its name as ID, and changes no file. *)
Lemma load_note_opens (f c : string) (w : world) :
  Fs.read f (notes w) = Some c ->
  current_file (ui (snd (load_note_by_name f w))) = Some f
  /\ current_id (ui (snd (load_note_by_name f w))) = Some (extract_id_from_filename f)
  /\ notes (snd (load_note_by_name f w)) = notes w.
Proof.
  intros Hr.
  assert (H : exists bl,
             load_note_by_name f w
             = (Ok tt,
                set_ui (set_backlinks_box bl
                          (set_current (Some f) (Some (extract_id_from_filename f))
                                       (set_text c (ui w)))) w)).
  { unfold load_note_by_name, bind, open_read, modify_ui. rewrite Hr.
    match goal with
    | |- context [update_backlinks ?w1] =>
        destruct (update_backlinks_run w1) as [bl E]; rewrite E
    end.
    exists bl. reflexivity. }
  destruct H as [bl ->]. repeat split.
Qed.

Lemma delete_note_unfold (w : world) (f i : string) :
  current_file (ui w) = Some f -> current_id (ui w) = Some i ->
  delete_note true w
  = try_except
      (os_remove f ;;
       s <- get_notes ;;
       for_each (list_note_files s) (cleanup_file f i) ;;
       after_cleanup f)
      delete_failed w.
Proof.
  intros Hf Hi. unfold delete_note. unfold bind at 1. unfold get_ui.
  rewrite Hf, Hi. reflexivity.
Qed.

Lemma delete_note_loop (w : world) (f i : string) :
  NoDup (listdir (notes w)) ->
  current_file (ui w) = Some f -> current_id (ui w) = Some i ->
  In f (listdir (notes w)) ->
  delete_note true w
  = let todo := filter (fun e => negb (String.eqb (fst e) f)) (notes w) in
    match snd (cleanup_entries i todo) with
    | None =>
        try_except (after_cleanup f) delete_failed
                   (set_notes (fst (cleanup_entries i todo)) w)
    | Some g =>
        delete_failed (OSError g) (set_notes (fst (cleanup_entries i todo)) w)
    end.
Proof.
  intros Hnd Hf Hi Hin. rewrite (delete_note_unfold _ _ _ Hf Hi).
  unfold try_except, bind at 1, os_remove. rewrite (remove_present _ _ Hin).
  unfold bind at 1, get_notes. cbn [notes set_notes].
  unfold bind at 1.
  pose proof (cleanup_loop f i w (filter (fun e => negb (String.eqb (fst e) f)) (notes w)) []
                (without_NoDup _ _ Hnd) (without_absent _ _)) as L.
  cbn [Datatypes.app] in L. rewrite L. cbv zeta.
  destruct (snd (cleanup_entries i _)); reflexivity.
Qed.

Lemma quiet_bind {A B : Type} (m : M A) (k : A -> M B) :
  quiet m -> (forall a, quiet (k a)) -> quiet (bind m k).
Proof.
  intros Hm Hk w. unfold bind. specialize (Hm w).
  destruct (m w) as [[a|e] w1]; cbn [snd] in *; [|exact Hm].
  destruct Hm as [Hn [d Hd]]. destruct (Hk a w1) as [Hn' [d' Hd']].
  split; [congruence|]. exists (d ++ d'). now rewrite Hd', Hd, app_assoc.
Qed.

Lemma quiet_try {A : Type} (m : M A) (h : exn -> M A) :
  quiet m -> (forall e, quiet (h e)) -> quiet (try_except m h).
Proof.
  intros Hm Hh w. unfold try_except. specialize (Hm w).
  destruct (m w) as [[a|e] w1]; cbn [snd] in *; [exact Hm|].
  destruct Hm as [Hn [d Hd]]. destruct (Hh e w1) as [Hn' [d' Hd']].
  split; [congruence|]. exists (d ++ d'). now rewrite Hd', Hd, app_assoc.
Qed.

Lemma quiet_show (d : dialog) : quiet (show d).
Proof. intros w. split; [reflexivity | exists [d]; reflexivity]. Qed.

Lemma quiet_modify_ui (f : ZettelkastenApp -> ZettelkastenApp) : quiet (modify_ui f).
Proof. intros w. split; [reflexivity | exists []; simpl; now rewrite app_nil_r]. Qed.

Lemma quiet_refresh_list (filter_func : option filter_fn) : quiet (refresh_list filter_func).
Proof.
  intros w. rewrite refresh_list_run.
  destruct (sorted_by_id _); (split; [reflexivity | exists []; simpl; now rewrite app_nil_r]).
Qed.

Lemma quiet_refresh_tags : quiet refresh_tags.
Proof.
  intros w. rewrite refresh_tags_run.
  split; [reflexivity | exists []; simpl; now rewrite app_nil_r].
Qed.

Lemma after_cleanup_notes (f : string) (w : world) :
  notes (snd (try_except (after_cleanup f) delete_failed w)) = notes w
  /\ In (showinfo "Deleted" ("Deleted " ++ f ++ " and updated backlinks"))
        (dialogs (snd (try_except (after_cleanup f) delete_failed w))).
Proof.
  set (info := showinfo "Deleted" ("Deleted " ++ f ++ " and updated backlinks")).
  set (rest := (modify_ui (set_current None None) ;; modify_ui (set_text "") ;;
                modify_ui (set_backlinks_box []) ;; refresh_list None ;; refresh_tags)).
  assert (Hrest : quiet (try_except rest delete_failed)).
  { apply quiet_try; [|intros e; apply quiet_show].
    unfold rest.
    do 3 (apply quiet_bind; [apply quiet_modify_ui | intros _]).
    apply quiet_bind; [apply quiet_refresh_list | intros _; apply quiet_refresh_tags]. }
  specialize (Hrest (mkWorld (notes w) (ui w) (dialogs w ++ [info]))).
  change (try_except (after_cleanup f) delete_failed w)
    with (try_except rest delete_failed (mkWorld (notes w) (ui w) (dialogs w ++ [info]))).
  destruct Hrest as [Hn [d Hd]]. split; [exact Hn|].
  rewrite Hd. cbn [dialogs]. rewrite !in_app_iff. left. right. left. reflexivity.
Qed.

Lemma lookup_without (f g : string) (s : store) :
  g <> f ->
  Fs.lookup g (filter (fun e => negb (String.eqb (fst e) f)) s) = Fs.lookup g s.
Proof.
  intros Hne. unfold Fs.lookup. induction s as [|[x fl] s IH]; simpl; auto.
  destruct (String.eqb_spec x f) as [->|Hxf]; simpl.
  - destruct (String.eqb_spec f g); [congruence | exact IH].
  - destruct (String.eqb x g); [reflexivity | exact IH].
Qed.

Lemma cleaned_name (i : string) (e : string * file) : fst (cleaned i e) = fst e.
Proof. unfold cleaned. now destruct (_ && _). Qed.

Lemma listdir_cleaned (i : string) (s : store) : listdir (map (cleaned i) s) = listdir s.
Proof.
  unfold listdir. rewrite map_map. apply map_ext. intros e. apply cleaned_name.
Qed.

Lemma lookup_cleaned (i g : string) (s : store) :
  Fs.lookup g (map (cleaned i) s)
  = option_map (fun fl => snd (cleaned i (g, fl))) (Fs.lookup g s).
Proof.
  unfold Fs.lookup. induction s as [|[x fl] s IH]; simpl; auto.
  rewrite cleaned_name. cbn [fst].
  destruct (String.eqb_spec x g) as [->|Hne]; [reflexivity | exact IH].
Qed.

Lemma lookup_In (g : string) (fl : file) (s : store) :
  Fs.lookup g s = Some fl -> In (g, fl) s.
Proof.
  unfold Fs.lookup. induction s as [|[x fx] s IH]; simpl; [discriminate|].
  destruct (String.eqb_spec x g) as [->|Hne]; simpl.
  - intros [= ->]. auto.
  - auto.
Qed.

(** [str.replace] scans from the left: a match is replaced and the scan
    goes on behind it; a character that starts no match is kept. *)
Lemma replace_from_skip (old new a rest : string) :
  Py.replace_from old new (String.length a) (a ++ rest)
  = Py.replace_from old new 0 rest.
Proof. induction a as [|c a IH]; simpl; auto. Qed.

Lemma replace_match (old new rest : string) :
  old <> "" ->
  Py.replace old new (old ++ rest) = (new ++ Py.replace old new rest)%string.
Proof.
  destruct old as [|a o]; [congruence|]. intros _. unfold Py.replace.
  change (String a o ++ rest)%string with (String a (o ++ rest)).
  cbn [Py.replace_from].
  change (String a (o ++ rest)) with (String a o ++ rest)%string.
  rewrite (proj2 (prefix_occurs _ _)) by eauto.
  cbn [String.length]. rewrite Nat.sub_succ, Nat.sub_0_r.
  now rewrite replace_from_skip.
Qed.

Lemma replace_keep (old new : string) (c : ascii) (r : string) :
  old <> "" -> String.prefix old (String c r) = false ->
  Py.replace old new (String c r) = String c (Py.replace old new r).
Proof.
  destruct old as [|a o]; [congruence|]. intros _ H. unfold Py.replace.
  cbn [Py.replace_from]. now rewrite H.
Qed.

Lemma link_token_nonempty (i : string) : link_token i <> "".
Proof. discriminate. Qed.

Lemma length_append (a b : string) :
  String.length (a ++ b) = String.length a + String.length b.
Proof. induction a; simpl; auto. Qed.

(** Induction along the scan of [str.replace]. *)
Lemma replace_ind (old : string) (P : string -> Prop) :
  old <> "" ->
  P "" ->
  (forall rest, P rest -> P (old ++ rest)%string) ->
  (forall c r, String.prefix old (String c r) = false -> P r -> P (String c r)) ->
  forall s, P s.
Proof.
  intros Hne H0 Hm Hk s.
  assert (H : forall n s, String.length s <= n -> P s); [|now apply (H (String.length s))].
  clear s. induction n as [|n IH]; intros s Hl.
  - destruct s; [exact H0 | simpl in Hl; lia].
  - destruct s as [|c r]; [exact H0|].
    destruct (String.prefix old (String c r)) eqn:E.
    + apply prefix_occurs in E as [rest E]. rewrite E. apply Hm, IH.
      apply (f_equal String.length) in E. rewrite length_append in E.
      destruct old; [congruence|]. simpl in *. lia.
    + apply Hk; auto. apply IH. simpl in Hl. lia.
Qed.

(** The text in front of the first replacement is text of the source. *)
Lemma replace_clean_prefix (old new' : string) (x : ascii) :
  old <> "" ->
  forall s u v,
    Py.replace old (String x new') s = (u ++ v)%string ->
    Py.all_chars (fun c => negb (Ascii.eqb c x)) u = true ->
    exists v', s = (u ++ v')%string.
Proof.
  intros Hne. apply (replace_ind old (fun s => forall u v,
    Py.replace old (String x new') s = (u ++ v)%string ->
    Py.all_chars (fun c => negb (Ascii.eqb c x)) u = true ->
    exists v', s = (u ++ v')%string)); auto.
  - intros u v H _. destruct old; [congruence|]. simpl in H.
    destruct u; [exists ""; reflexivity | discriminate].
  - intros rest IH u v H Hu. rewrite replace_match in H by assumption.
    destruct u as [|c u]; [eexists; reflexivity|].
    simpl in H, Hu. injection H as <- _. now rewrite Ascii.eqb_refl in Hu.
  - intros c r E IH u v H Hu. rewrite replace_keep in H by assumption.
    destruct u as [|d u]; [eexists; reflexivity|].
    simpl in H, Hu. injection H as <- H. apply andb_true_iff in Hu as [_ Hu].
    destruct (IH _ _ H Hu) as [v' ->]. exists v'. reflexivity.
Qed.

Lemma contains_skip_clean (tok' a b : string) (y : ascii) :
  Py.all_chars (fun c => negb (Ascii.eqb c y)) a = true ->
  Py.contains (String y tok') (a ++ b) = Py.contains (String y tok') b.
Proof.
  induction a as [|c a IH]; [reflexivity|]. simpl append. intros H.
  cbn [Py.all_chars] in H. apply andb_true_iff in H as [Hc Ha].
  cbn [Py.contains String.prefix].
  destruct (ascii_dec y c) as [->|_]; [now rewrite Ascii.eqb_refl in Hc|].
  cbn [orb]. now apply IH.
Qed.

(** When the old text lacks the first character of the new one, and the
    new text the first character of the old one, nothing of the old text
    is left behind a replacement. *)
Lemma replace_leaves_none (old' new' : string) (x y : ascii) :
  Py.all_chars (fun c => negb (Ascii.eqb c x)) (String y old') = true ->
  Py.all_chars (fun c => negb (Ascii.eqb c y)) (String x new') = true ->
  forall s, Py.contains (String y old') (Py.replace (String y old') (String x new') s) = false.
Proof.
  intros Hold Hnew.
  assert (Hne : String y old' <> "") by discriminate.
  apply (replace_ind (String y old')); auto.
  - intros rest IH. rewrite replace_match by assumption.
    now rewrite contains_skip_clean.
  - intros c r E IH. rewrite replace_keep by assumption.
    cbn [Py.contains]. rewrite IH, orb_false_r.
    destruct (String.prefix (String y old') (String c (Py.replace (String y old') (String x new') r)))
      eqn:P; [|reflexivity].
    apply prefix_occurs in P as [v P]. rewrite <- replace_keep in P by assumption.
    destruct (replace_clean_prefix _ _ _ Hne _ _ _ P Hold) as [v' Hs].
    rewrite (proj2 (prefix_occurs _ _)) in E by eauto. discriminate.
Qed.

(** An ID without ["["] and ["("], as every ID made of digits is: no token
    is left in a cleaned content. *)
Lemma cleaned_content_has_no_token (i s : string) :
  Py.all_chars (fun c => negb (Ascii.eqb c "[") && negb (Ascii.eqb c "(")) i = true ->
  ~ occurs_in (link_token i) (Py.replace (link_token i) (deleted_placeholder i) s).
Proof.
  intros Hi. apply contains_false_not_occurs.
  apply (replace_leaves_none ("[" ++ i ++ "]]") ("deleted note " ++ i ++ ")") "(" "[").
  - change (Py.all_chars (fun c => negb (Ascii.eqb c "(")) ("[[" ++ i ++ "]]") = true).
    rewrite !all_chars_append. simpl. rewrite andb_true_r.
    eapply all_chars_impl; [|exact Hi]. intros c Hc.
    now apply andb_true_iff in Hc as [_ Hc].
  - change (Py.all_chars (fun c => negb (Ascii.eqb c "[")) ("(deleted note " ++ i ++ ")") = true).
    rewrite !all_chars_append. simpl. rewrite andb_true_r.
    eapply all_chars_impl; [|exact Hi]. intros c Hc.
    now apply andb_true_iff in Hc as [Hc _].
Qed.

(** Replacing in a text keeps out every character that neither the text
    nor the new piece has. *)
Lemma replace_all_chars (p : ascii -> bool) (old new s : string) :
  old <> "" ->
  Py.all_chars p new = true -> Py.all_chars p s = true ->
  Py.all_chars p (Py.replace old new s) = true.
Proof.
  intros Hne Hnew. revert s.
  apply (replace_ind old (fun s => Py.all_chars p s = true ->
                                   Py.all_chars p (Py.replace old new s) = true)); auto.
  - intros _. destruct old; [congruence | reflexivity].
  - intros rest IH H. rewrite all_chars_append in H. apply andb_true_iff in H as [_ H].
    rewrite replace_match, all_chars_append, Hnew by assumption. now apply IH.
  - intros c r E IH H. cbn [Py.all_chars] in H. apply andb_true_iff in H as [Hc H].
    rewrite replace_keep by assumption. cbn [Py.all_chars]. now rewrite Hc, IH.
Qed.

Lemma occurs_all_chars (p : ascii -> bool) (tok s : string) :
  occurs_in tok s -> Py.all_chars p s = true -> Py.all_chars p tok = true.
Proof.
  intros (pre & post & ->) H. rewrite !all_chars_append in H.
  apply andb_true_iff in H as [_ H]. now apply andb_true_iff in H as [H _].
Qed.

Lemma not_blocking (i : string) (g : string) (fl : file) :
  (is_note_file g = true ->
   readable fl = true
   /\ (occurs_in (link_token i) (Py.universal_newlines (content fl)) -> writable fl = true)) ->
  blocks_cleanup i (g, fl) = false.
Proof.
  unfold blocks_cleanup. cbn [fst snd]. intros H.
  destruct (is_note_file g); [|reflexivity].
  destruct H as [Hr Hw]; [reflexivity|]. rewrite Hr. cbn [negb orb andb].
  destruct (Py.contains (link_token i) (Py.universal_newlines (content fl))) eqn:E;
    [|reflexivity].
  apply contains_occurs in E. now rewrite (Hw E).
Qed.

End Deleting.

(** C4. The open note is the file [f] with ID [i]; every other note file
    can be read, and can be written if the text read from it holds the
    token.  Then the delete succeeds: the dialog "Deleted" is shown; [f] is
    no entry of the directory and no line of the listing; the other entries
    are all there; every other note file whose text held the token now
    holds the text read from it (its line ends translated) with the token
    replaced by the placeholder, and every other file is as it was.  A
    token without line end that is in the stored text is in the text read.
    The replacement is Python's: from the left, each match is replaced and
    the scan goes on behind it; when the ID has no ["["] and no ["("], as an
    ID of digits, no token is left in the result. *)
Theorem C4_delete_rewrites_backlinks (w : world) (f i : string) :
  NoDup (listdir (notes w)) ->
  current_file (ui w) = Some f ->
  current_id (ui w) = Some i ->
  In f (listdir (notes w)) ->
  (forall g fl, In (g, fl) (notes w) -> g <> f -> is_note_file g = true ->
                readable fl = true
                /\ (occurs_in ("[[" ++ i ++ "]]")%string (Py.universal_newlines (content fl)) ->
                    writable fl = true)) ->
  In (showinfo "Deleted" ("Deleted " ++ f ++ " and updated backlinks"))
     (dialogs (snd (delete_note true w)))
  /\ ~ In f (listdir (notes (snd (delete_note true w))))
  /\ ~ In f (list_note_files (notes (snd (delete_note true w))))
  /\ listdir (notes (snd (delete_note true w)))
     = filter (fun x => negb (String.eqb x f)) (listdir (notes w))
  /\ (forall g fl,
         g <> f -> Fs.lookup g (notes w) = Some fl -> is_note_file g = true ->
         occurs_in ("[[" ++ i ++ "]]")%string (Py.universal_newlines (content fl)) ->
         Fs.read g (notes w) = Some (Py.universal_newlines (content fl))
         /\ Fs.lookup g (notes (snd (delete_note true w)))
            = Some (Fs.set_content
                      (Py.replace ("[[" ++ i ++ "]]") ("(deleted note " ++ i ++ ")")
                                  (Py.universal_newlines (content fl)))
                      fl))
  /\ (forall g fl,
         g <> f -> Fs.lookup g (notes w) = Some fl ->
         is_note_file g = false
         \/ ~ occurs_in ("[[" ++ i ++ "]]")%string (Py.universal_newlines (content fl)) ->
         Fs.lookup g (notes (snd (delete_note true w))) = Some fl)
  /\ (Py.all_chars (fun c => negb (Ascii.eqb c "013") && negb (Ascii.eqb c "010")) i = true ->
      forall c, occurs_in ("[[" ++ i ++ "]]")%string c ->
                occurs_in ("[[" ++ i ++ "]]")%string (Py.universal_newlines c))
  /\ (forall new rest,
         Py.replace ("[[" ++ i ++ "]]") new (("[[" ++ i ++ "]]") ++ rest)
         = (new ++ Py.replace ("[[" ++ i ++ "]]") new rest)%string)
  /\ (forall new c r,
         String.prefix ("[[" ++ i ++ "]]") (String c r) = false ->
         Py.replace ("[[" ++ i ++ "]]") new (String c r)
         = String c (Py.replace ("[[" ++ i ++ "]]") new r))
  /\ (forall new, Py.replace ("[[" ++ i ++ "]]") new "" = "")
  /\ (Py.all_chars (fun c => negb (Ascii.eqb c "[") && negb (Ascii.eqb c "(")) i = true ->
      forall s, ~ occurs_in ("[[" ++ i ++ "]]")%string
                  (Py.replace ("[[" ++ i ++ "]]") ("(deleted note " ++ i ++ ")") s)).
Proof.
  intros Hnd Hf Hi Hin Hok.
  change ("[[" ++ i ++ "]]")%string with (link_token i) in *.
  change ("(deleted note " ++ i ++ ")")%string with (deleted_placeholder i).
  set (todo := filter (fun e => negb (String.eqb (fst e) f)) (notes w)).
  assert (Hall : cleanup_entries i todo = (map (cleaned i) todo, None)).
  { apply cleanup_entries_all. intros [g fl] He.
    apply filter_In in He as [He Hg]. cbn [fst] in Hg.
    apply negb_true_iff, String.eqb_neq in Hg.
    apply not_blocking. intros Hn. now apply (Hok g fl). }
  pose proof (delete_note_loop w f i Hnd Hf Hi Hin) as Hrun.
  cbv zeta in Hrun. fold todo in Hrun. rewrite Hall in Hrun. cbn [fst snd] in Hrun.
  destruct (after_cleanup_notes f (set_notes (map (cleaned i) todo) w)) as [Hn Hd].
  rewrite <- Hrun in Hn, Hd. cbn [notes set_notes] in Hn.
  rewrite Hn.
  assert (Hdir : listdir (map (cleaned i) todo)
                 = filter (fun x => negb (String.eqb x f)) (listdir (notes w))).
  { rewrite listdir_cleaned. apply listdir_without. }
  assert (Habs : ~ In f (listdir (map (cleaned i) todo))).
  { rewrite listdir_cleaned. apply without_absent. }
  split; [exact Hd|]. split; [exact Habs|].
  split; [intros H; apply Habs; unfold list_note_files in H; now apply filter_In in H|].
  split; [exact Hdir|].
  split; [|split; [|split; [|split; [|split; [|split]]]]].
  - intros g fl Hg Hl Hnote Hocc. split.
    + destruct (Hok g fl (lookup_In _ _ _ Hl) Hg Hnote) as [Hr _].
      unfold Fs.read. now rewrite Hl, Hr.
    + rewrite lookup_cleaned. unfold todo. rewrite (lookup_without _ _ _ Hg), Hl.
      cbn [option_map]. unfold cleaned. cbn [fst snd]. rewrite Hnote.
      now rewrite (proj2 (contains_occurs _ _) Hocc).
  - intros g fl Hg Hl Hcase.
    rewrite lookup_cleaned. unfold todo. rewrite (lookup_without _ _ _ Hg), Hl.
    cbn [option_map]. unfold cleaned. cbn [fst snd].
    destruct Hcase as [-> | Hno]; [reflexivity|].
    apply contains_false_not_occurs in Hno. rewrite Hno.
    now rewrite andb_false_r.
  - intros Hi' c Hc. apply occurs_after_newlines; [|exact Hc].
    unfold link_token. rewrite !all_chars_append, Hi'. reflexivity.
  - intros new rest. apply replace_match, link_token_nonempty.
  - intros new c r H. apply replace_keep; [apply link_token_nonempty | exact H].
  - reflexivity.
  - intros Hclean s. now apply cleaned_content_has_no_token.
Qed.

(** C5 (as stated, at a cleanup that fails on its first file). The open
    note ["1_a.md"] is deleted; ["2_b.md"] holds the token and cannot be
    written, ["3_c.md"] holds it and can.  The loop ends at ["2_b.md"]:
    ["3_c.md"] still holds the token, and the only thing reported is the
    dialog "Could not delete note". *)
Lemma C5_counterexample_cleanup_aborts :
  Fs.lookup "3_c.md"
    (notes (snd (delete_note true
       (mkWorld [("1_a.md", plain "A"); ("2_b.md", mkFile "see [[1]]" true false);
                 ("3_c.md", plain "also [[1]]")]
                (mkApp (Some "1_a.md") (Some "1") [] [] [] "A") []))))
  = Some (plain "also [[1]]")
  /\ dialogs (snd (delete_note true
       (mkWorld [("1_a.md", plain "A"); ("2_b.md", mkFile "see [[1]]" true false);
                 ("3_c.md", plain "also [[1]]")]
                (mkApp (Some "1_a.md") (Some "1") [] [] [] "A") [])))
     = [showerror "Error" "Could not delete note:" (OSError "2_b.md")]
  /\ blocks_cleanup "1" ("3_c.md", plain "also [[1]]") = false.
Proof. repeat split; vm_compute; reflexivity. Qed.

(** C5 (amended). The open note is the file [f] with ID [i]; among the
    other entries, in the order of the directory listing, [e] is the first
    note file that cannot be read, or holds the token and cannot be
    written.  Then the delete removes [f], cleans the entries in front of
    [e], which stay rewritten, and stops: [e] and every entry behind it are
    as they were.  The method returns after one error dialog that names the
    failing file; the note stays the open one in the application. *)
Theorem C5_cleanup_stops_at_first_failure
        (w : world) (f i : string) (pre : store) (e : string * file) (post : store) :
  NoDup (listdir (notes w)) ->
  current_file (ui w) = Some f ->
  current_id (ui w) = Some i ->
  In f (listdir (notes w)) ->
  filter (fun x => negb (String.eqb (fst x) f)) (notes w) = pre ++ e :: post ->
  (forall x, In x pre -> blocks_cleanup i x = false) ->
  blocks_cleanup i e = true ->
  delete_note true w
  = (Ok tt,
     mkWorld (map (cleaned i) pre ++ e :: post) (ui w)
             (dialogs w ++ [showerror "Error" "Could not delete note:" (OSError (fst e))])).
Proof.
  intros Hnd Hf Hi Hin Hsplit Hpre He.
  rewrite (delete_note_loop w f i Hnd Hf Hi Hin). cbv zeta.
  rewrite Hsplit, (cleanup_entries_stop i pre e post Hpre He). reflexivity.
Qed.

(* ------------------------------------------------------------------ *)
(** *** Tags *)

Section Tags.

Lemma findall_from_skip (a rest : string) :
  Py.findall_tags_from (String.length a) (a ++ rest) = Py.findall_tags_from 0 rest.
Proof. induction a as [|c a IH]; simpl; auto. Qed.

Lemma word_run_words (r : string) : Py.all_chars Py.is_word (Py.word_run r) = true.
Proof.
  induction r as [|c r IH]; simpl; auto.
  destruct (Py.is_word c) eqn:E; simpl; [now rewrite E|reflexivity].
Qed.

Lemma word_run_split (r : string) :
  exists post, r = (Py.word_run r ++ post)%string /\ word_boundary post.
Proof.
  induction r as [|c r [post [IH Hb]]]; simpl.
  - exists "". simpl. auto.
  - destruct (Py.is_word c) eqn:E.
    + exists post. simpl. split; [congruence | assumption].
    + exists (String c r). simpl. auto.
Qed.

Lemma word_run_unique (w post : string) :
  Py.all_chars Py.is_word w = true -> word_boundary post ->
  Py.word_run (w ++ post) = w.
Proof.
  induction w as [|c w IH]; simpl; intros Hw Hb.
  - destruct post as [|d post]; simpl in *; [reflexivity | now rewrite Hb].
  - apply andb_true_iff in Hw as [Hc Hw]. rewrite Hc, IH; auto.
Qed.

Lemma hash_is_no_word (c : ascii) : Py.is_word c = true -> Ascii.eqb c "#" = false.
Proof.
  destruct (Ascii.eqb_spec c "#") as [->|]; [vm_compute; discriminate | reflexivity].
Qed.

Lemma findall_words (a rest : string) :
  Py.all_chars Py.is_word a = true ->
  Py.findall_tags_from 0 (a ++ rest) = Py.findall_tags_from 0 rest.
Proof.
  induction a as [|c a IH]; simpl; auto.
  intros H. apply andb_true_iff in H as [Hc Ha].
  now rewrite (hash_is_no_word _ Hc), IH.
Qed.

(** The scan, one character at a time: a ["#"] with word characters behind
    it gives a tag; everything else gives none. *)
Lemma findall_tags_step (c : ascii) (r : string) :
  Py.findall_tags (String c r) =
  if Ascii.eqb c "#" then
    match Py.word_run r with
    | EmptyString => Py.findall_tags r
    | w => String "#" w :: Py.findall_tags r
    end
  else Py.findall_tags r.
Proof.
  unfold Py.findall_tags. cbn [Py.findall_tags_from].
  destruct (Ascii.eqb_spec c "#") as [->|]; [|reflexivity].
  destruct (word_run_split r) as [post [Hr _]].
  pose proof (word_run_words r) as Hw.
  destruct (Py.word_run r) as [|d w] eqn:E; [reflexivity|].
  f_equal. rewrite Hr.
  now rewrite findall_from_skip, findall_words.
Qed.

Lemma tag_at_step (t : string) (c : ascii) (r : string) :
  tag_at t (String c r) <->
  (c = "#"%char /\ Py.word_run r <> "" /\ t = String "#" (Py.word_run r))
  \/ tag_at t r.
Proof.
  split.
  - intros (pre & w & post & Hs & Hne & Hw & Hb & Ht).
    destruct pre as [|p pre]; simpl in Hs; injection Hs as Hc Hr.
    + left. subst. now rewrite word_run_unique.
    + right. exists pre, w, post. auto.
  - intros [(-> & Hne & ->) | (pre & w & post & -> & H)].
    + destruct (word_run_split r) as [post [Hr Hb]].
      exists "", (Py.word_run r), post. simpl.
      split; [now rewrite <- Hr|]. auto using word_run_words.
    + exists (String c pre), w, post. auto.
Qed.

Lemma findall_tags_spec (t s : string) : In t (Py.findall_tags s) <-> tag_at t s.
Proof.
  induction s as [|c r IH].
  - split; [intros [] | intros (pre & w & post & Hs & _)].
    destruct pre; discriminate.
  - rewrite findall_tags_step, tag_at_step, <- IH.
    destruct (Ascii.eqb_spec c "#") as [->|Hne].
    + destruct (Py.word_run r) as [|d w] eqn:E; simpl.
      * split; [auto | intros [(_ & H & _) | H]; [congruence | exact H]].
      * split.
        -- intros [<- | H]; [left; repeat split; congruence | auto].
        -- intros [(_ & _ & ->) | H]; auto.
    + split; [auto | intros [(H & _) | H]; [contradiction | exact H]].
Qed.

Lemma existsb_eqb_In (x : string) (l : list string) :
  existsb (String.eqb x) l = true <-> In x l.
Proof.
  rewrite existsb_exists. split.
  - intros [y [Hy E]]. apply String.eqb_eq in E. now subst.
  - intros H. exists x. split; [exact H | apply String.eqb_refl].
Qed.

Lemma set_add_In (x t : string) (tags : list string) :
  In t (Py.set_add x tags) <-> In t tags \/ t = x.
Proof.
  unfold Py.set_add. destruct (existsb (String.eqb x) tags) eqn:E.
  - apply existsb_eqb_In in E. split; [auto | intros [H | ->]; auto].
  - rewrite in_app_iff. simpl. intuition.
Qed.

Lemma set_add_NoDup (x : string) (tags : list string) :
  NoDup tags -> NoDup (Py.set_add x tags).
Proof.
  intros H. unfold Py.set_add. destruct (existsb (String.eqb x) tags) eqn:E; [exact H|].
  apply NoDup_app; [exact H | repeat constructor; simpl; tauto |].
  intros y Hy [<- | []]. apply existsb_eqb_In in Hy. congruence.
Qed.

Lemma set_update_In (t : string) (found tags : list string) :
  In t (Py.set_update tags found) <-> In t tags \/ In t found.
Proof.
  unfold Py.set_update. revert tags; induction found as [|x found IH]; intros tags; simpl.
  - tauto.
  - rewrite IH, set_add_In. intuition.
Qed.

Lemma set_update_NoDup (found tags : list string) :
  NoDup tags -> NoDup (Py.set_update tags found).
Proof.
  unfold Py.set_update. revert tags; induction found as [|x found IH]; intros tags H; simpl.
  - exact H.
  - apply IH, set_add_NoDup, H.
Qed.

Lemma collect_tags_In (s : store) (t : string) (files tags : list string) :
  In t (collect_tags s tags files) <->
  In t tags \/ exists f c, In f files /\ Fs.read f s = Some c /\ In t (Py.findall_tags c).
Proof.
  revert tags; induction files as [|x files IH]; intros tags; simpl.
  - split; [auto | intros [H | (f & c & [] & _)]; exact H].
  - destruct (Fs.read x s) as [cx|] eqn:E; rewrite IH; [rewrite set_update_In|]; split.
    + intros [[H | H] | (f & c & Hf & Hr & Ht)]; [auto | right | right].
      * exists x, cx. auto.
      * exists f, c. auto.
    + intros [H | (f & c & [<- | Hf] & Hr & Ht)]; [auto | | right; eauto].
      left. right. congruence.
    + intros [H | (f & c & Hf & Hr & Ht)]; [auto | right; exists f, c; auto].
    + intros [H | (f & c & [<- | Hf] & Hr & Ht)]; [auto | congruence | right; eauto].
Qed.

Lemma collect_tags_NoDup (s : store) (files tags : list string) :
  NoDup tags -> NoDup (collect_tags s tags files).
Proof.
  revert tags; induction files as [|x files IH]; intros tags H; simpl; [exact H|].
  destruct (Fs.read x s); auto using set_update_NoDup.
Qed.

Lemma leb_lt_or_eq (a b : string) :
  String.leb a b = true <-> a = b \/ String_as_OT.lt a b.
Proof.
  unfold String.leb. pose proof (String_as_OT.cmp_eq a b) as He.
  pose proof (String_as_OT.cmp_lt a b) as Hl. unfold String_as_OT.cmp in *.
  destruct (String.compare a b) eqn:E; split; intros H; try reflexivity; try discriminate.
  - left. now apply He.
  - right. now apply Hl.
  - destruct H as [H | H]; [apply He in H | apply Hl in H]; discriminate.
Qed.

Lemma leb_trans (a b c : string) :
  String.leb a b = true -> String.leb b c = true -> String.leb a c = true.
Proof.
  rewrite !leb_lt_or_eq. intros [-> | H1] [-> | H2]; auto.
  right. eapply String_as_OT.lt_trans; eauto.
Qed.

Lemma strongly_sorted_strict (l : list string) :
  NoDup l -> StronglySorted (fun a b => String.leb a b = true) l ->
  StronglySorted String_as_OT.lt l.
Proof.
  intros Hnd Hs. induction Hs as [|a l Hs IH Ha]; constructor.
  - apply IH. now inversion Hnd.
  - inversion Hnd as [|? ? Hnot _]; subst.
    rewrite Forall_forall in *. intros x Hx.
    destruct (proj1 (leb_lt_or_eq a x) (Ha x Hx)) as [-> | H]; [contradiction | exact H].
Qed.

End Tags.

(** C8. [extract_tags] returns exactly the tags of the note files that can
    be read, a tag being ["#"] with a maximal non-empty run of word
    characters behind it, wherever the ["#"] stands; the result has no
    repetition and ascends strictly in the lexicographic order of the
    character codes, so tags that differ in case are distinct entries. *)
Theorem C8_extract_tags_sorted_set :
  (forall (s : store) (t : string),
      In t (extract_tags s) <->
      exists f c, In f (list_note_files s) /\ Fs.read f s = Some c /\ tag_at t c)
  /\ (forall s : store, NoDup (extract_tags s))
  /\ (forall s : store, StronglySorted String_as_OT.lt (extract_tags s))
  /\ extract_tags [("1_a.md", plain "#project and #Project");
                   ("2_b.md", plain "#project, foo#bar ## #");
                   ("3_c.md", mkFile "#hidden" false true);
                   ("notes.txt", plain "#other")]
     = ["#Project"; "#bar"; "#project"].
Proof.
  assert (Hnd : forall s, NoDup (extract_tags s)).
  { intros s. unfold extract_tags.
    eapply Permutation_NoDup; [symmetry; apply sorted_perm|].
    apply collect_tags_NoDup. constructor. }
  split; [|split; [exact Hnd | split; [|reflexivity]]].
  - intros s t. unfold extract_tags.
    assert (Hp : In t (Py.sorted String.leb (collect_tags s [] (list_note_files s)))
                 <-> In t (collect_tags s [] (list_note_files s))).
    { split; apply Permutation_in; [|symmetry]; apply sorted_perm. }
    rewrite Hp, collect_tags_In. split.
    + intros [[] | (f & c & Hf & Hr & Ht)]. exists f, c. now rewrite <- findall_tags_spec.
    + intros (f & c & Hf & Hr & Ht). right. exists f, c. now rewrite findall_tags_spec.
  - intros s. apply strongly_sorted_strict; [apply Hnd|].
    unfold extract_tags. apply sorted_strongly; [apply String.leb_total | apply leb_trans].
Qed.

(* ------------------------------------------------------------------ *)
(** *** The theorems at concrete stores *)

(** Notes 2, 10 and 1 are listed as 1, 2, 10. *)
Lemma C3_witness :
  sidebar (ui (snd (refresh_list None
             (idle [("2_b.md", plain ""); ("10_c.md", plain ""); ("1_a.md", plain "")]))))
  = ["1_a.md"; "2_b.md"; "10_c.md"]
  /\ exists l,
      refresh_list None (idle [("2_b.md", plain ""); ("10_c.md", plain ""); ("1_a.md", plain "")])
      = (Ok tt, set_ui (set_sidebar l (ui (idle [("2_b.md", plain ""); ("10_c.md", plain "");
                                                 ("1_a.md", plain "")])))
                       (idle [("2_b.md", plain ""); ("10_c.md", plain ""); ("1_a.md", plain "")]))
      /\ Permutation l (list_note_files [("2_b.md", plain ""); ("10_c.md", plain "");
                                         ("1_a.md", plain "")])
      /\ StronglySorted id_le l.
Proof.
  split; [reflexivity|].
  apply (C3_listing_sorted_by_integer_id
           (idle [("2_b.md", plain ""); ("10_c.md", plain ""); ("1_a.md", plain "")])).
  intros f Hf. cbv [idle notes list_note_files listdir map fst] in Hf.
  simpl in Hf. each_entry Hf; discriminate.
Defined.

(** A note file ["draft.md"] makes the listing raise; the allocator still
    answers 2. *)
Lemma C10_witness :
  get_next_id [("1_a.md", plain ""); ("draft.md", plain "")] = "2"
  /\ (exists lit,
         refresh_list None (idle [("1_a.md", plain ""); ("draft.md", plain "")])
         = (Raised (ValueError lit),
            set_ui (set_sidebar [] (ui (idle [("1_a.md", plain ""); ("draft.md", plain "")])))
                   (idle [("1_a.md", plain ""); ("draft.md", plain "")])))
  /\ get_next_id (notes (idle [("1_a.md", plain ""); ("draft.md", plain "")]))
     = get_next_id (filter (fun e => negb (String.eqb (fst e) "draft.md"))
                           (notes (idle [("1_a.md", plain ""); ("draft.md", plain "")]))).
Proof.
  split; [reflexivity|].
  apply (C10_listing_raises_on_bad_prefix
           (idle [("1_a.md", plain ""); ("draft.md", plain "")]) None "draft.md").
  - simpl. auto.
  - reflexivity.
Defined.

(** The keyword ["ZETTEL"] finds the note whose content has
    ["zettelkasten"]. *)
Lemma C9_witness :
  sidebar (ui (snd (search_notes "ZETTEL"
             (idle [("2_b.md", plain "other"); ("1_a.md", plain "my zettelkasten")]))))
  = ["1_a.md"]
  /\ exists l,
      search_notes "ZETTEL" (idle [("2_b.md", plain "other"); ("1_a.md", plain "my zettelkasten")])
      = (Ok tt, set_ui (set_sidebar l (ui (idle [("2_b.md", plain "other");
                                                 ("1_a.md", plain "my zettelkasten")])))
                       (idle [("2_b.md", plain "other"); ("1_a.md", plain "my zettelkasten")]))
      /\ StronglySorted id_le l.
Proof.
  split; [reflexivity|].
  destruct (C9_search_stripped_keyword_ignoring_case
              (idle [("2_b.md", plain "other"); ("1_a.md", plain "my zettelkasten")])
              "ZETTEL") as (l & Hrun & Hs & _).
  - intros f Hf. simpl in Hf. each_entry Hf; discriminate.
  - exists l. split; assumption.
Defined.

(** Note A (ID 1) is open and note B holds the token twice: after the
    delete B holds the placeholder twice and A is not listed. *)
Lemma C4_witness :
  Fs.lookup "2_b.md"
    (notes (snd (delete_note true
       (mkWorld [("1_a.md", plain "A"); ("2_b.md", plain "see [[1]] and [[1]]")]
                (mkApp (Some "1_a.md") (Some "1") [] [] [] "A") []))))
  = Some (plain "see (deleted note 1) and (deleted note 1)")
  /\ ~ In "1_a.md"
       (list_note_files (notes (snd (delete_note true
          (mkWorld [("1_a.md", plain "A"); ("2_b.md", plain "see [[1]] and [[1]]")]
                   (mkApp (Some "1_a.md") (Some "1") [] [] [] "A") []))))).
Proof.
  destruct (C4_delete_rewrites_backlinks
              (mkWorld [("1_a.md", plain "A"); ("2_b.md", plain "see [[1]] and [[1]]")]
                       (mkApp (Some "1_a.md") (Some "1") [] [] [] "A") [])
              "1_a.md" "1") as (_ & _ & Habsent & _ & Hrewritten & _).
  - repeat constructor; simpl; intuition discriminate.
  - reflexivity.
  - reflexivity.
  - simpl. auto.
  - intros g fl Hin Hg Hn. simpl in Hin. each_entry Hin.
    split; reflexivity.
  - split; [|exact Habsent].
    apply (Hrewritten "2_b.md" (plain "see [[1]] and [[1]]"));
      [discriminate | reflexivity | reflexivity |].
    apply contains_occurs. reflexivity.
Defined.

(** A note stored with CRLF line ends that holds the token is written back
    with LF line ends; one that does not hold it keeps its CRLF. *)
Example delete_note_rewrites_text_read :
  notes (snd (delete_note true
     (mkWorld [("1_a.md", plain "A");
               ("2_b.md", plain (String "x" (String "013" (String "010" "[[1]]"))));
               ("3_c.md", plain (String "y" (String "013" (String "010" "z"))))]
              (mkApp (Some "1_a.md") (Some "1") [] [] [] "A") [])))
  = [("2_b.md", plain (String "x" (String "010" "(deleted note 1)")));
     ("3_c.md", plain (String "y" (String "013" (String "010" "z"))))].
Proof. reflexivity. Qed.

(** Note 1 is open; note 2 is cleaned, note 3 cannot be read, note 4 is
    left with its token. *)
Lemma C5_witness :
  delete_note true
    (mkWorld [("2_b.md", plain "[[1]]"); ("1_a.md", plain "A");
              ("3_c.md", mkFile "[[1]]" false true); ("4_d.md", plain "[[1]]")]
             (mkApp (Some "1_a.md") (Some "1") [] [] [] "A") [])
  = (Ok tt,
     mkWorld [("2_b.md", plain "(deleted note 1)");
              ("3_c.md", mkFile "[[1]]" false true); ("4_d.md", plain "[[1]]")]
             (mkApp (Some "1_a.md") (Some "1") [] [] [] "A")
             [showerror "Error" "Could not delete note:" (OSError "3_c.md")]).
Proof.
  apply (C5_cleanup_stops_at_first_failure
           (mkWorld [("2_b.md", plain "[[1]]"); ("1_a.md", plain "A");
                     ("3_c.md", mkFile "[[1]]" false true); ("4_d.md", plain "[[1]]")]
                    (mkApp (Some "1_a.md") (Some "1") [] [] [] "A") [])
           "1_a.md" "1"
           [("2_b.md", plain "[[1]]")]
           ("3_c.md", mkFile "[[1]]" false true)
           [("4_d.md", plain "[[1]]")]).
  - repeat constructor; simpl; intuition discriminate.
  - reflexivity.
  - reflexivity.
  - simpl. auto.
  - reflexivity.
  - intros x Hx. simpl in Hx. each_entry Hx. reflexivity.
  - reflexivity.
Defined.

(* ================================================================== *)
(** ** Further properties of the code *)
(* ================================================================== *)

(* ------------------------------------------------------------------ *)
(** *** File names *)

Section FileNames.

Lemma all_chars_true (p : ascii -> bool) (s : string) :
  (forall c, p c = true) -> Py.all_chars p s = true.
Proof. intros H. induction s; simpl; auto. now rewrite H. Qed.

Lemma all_chars_lstrip (p sp : ascii -> bool) (s : string) :
  Py.all_chars p s = true -> Py.all_chars p (Py.lstrip_by sp s) = true.
Proof.
  induction s as [|c s IH]; simpl; auto.
  intros H. destruct (sp c); [|exact H].
  apply andb_true_iff in H as [_ H]. auto.
Qed.

Lemma all_chars_rstrip (p sp : ascii -> bool) (s : string) :
  Py.all_chars p s = true -> Py.all_chars p (Py.rstrip_by sp s) = true.
Proof.
  induction s as [|c s IH]; simpl; auto.
  intros H. apply andb_true_iff in H as [Hc Hs]. specialize (IH Hs).
  destruct (Py.rstrip_by sp s).
  - destruct (sp c); simpl; auto. now rewrite Hc.
  - cbn [Py.all_chars]. now rewrite Hc.
Qed.

Lemma all_chars_strip (p : ascii -> bool) (s : string) :
  Py.all_chars p s = true -> Py.all_chars p (Py.strip s) = true.
Proof. intros H. apply all_chars_rstrip, all_chars_lstrip, H. Qed.

(** The words of [split] are made of the characters of the text that are
    no blanks. *)
Lemma split_ws_all (q : ascii -> bool) (s : string) :
  Py.all_chars (fun c => Py.is_space c || q c) s = true ->
  Forall (fun w => Py.all_chars q w = true) (Py.split_ws s).
Proof.
  induction s as [|c r IH]; cbn [Py.split_ws Py.all_chars]; [constructor|].
  intros H. apply andb_true_iff in H as [Hc Hr]. specialize (IH Hr).
  destruct (Py.is_space c) eqn:Ec; [exact IH|]. simpl in Hc.
  destruct r as [|d r']; [repeat constructor; simpl; now rewrite Hc|].
  destruct (Py.is_space d) eqn:Ed.
  - constructor; [simpl; now rewrite Hc | exact IH].
  - destruct (Py.split_ws (String d r')) as [|w ws].
    + repeat constructor. simpl. now rewrite Hc.
    + inversion IH as [|? ? Hw Hws]; subst. constructor; [|exact Hws].
      cbn [Py.all_chars]. now rewrite Hc, Hw.
Qed.

Lemma join_all (q : ascii -> bool) (sep : string) (l : list string) :
  Py.all_chars q sep = true ->
  Forall (fun w => Py.all_chars q w = true) l ->
  Py.all_chars q (Py.join sep l) = true.
Proof.
  intros Hsep H. unfold Py.join. induction H as [|w l Hw Hl IH]; [reflexivity|].
  cbn [String.concat]. destruct l as [|w' l']; [exact Hw|].
  rewrite !all_chars_append, Hw, Hsep. exact IH.
Qed.

Lemma slice_to_all (q : ascii -> bool) (n : nat) (s : string) :
  Py.all_chars q s = true -> Py.all_chars q (Py.slice_to n s) = true.
Proof.
  revert s; induction n as [|n IH]; intros s H; [reflexivity|].
  destruct s as [|c s]; [reflexivity|]. simpl in *.
  apply andb_true_iff in H as [Hc Hs]. now rewrite Hc, IH.
Qed.

Lemma slice_to_length (n : nat) (s : string) : String.length (Py.slice_to n s) <= n.
Proof.
  revert s; induction n as [|n IH]; intros s; [simpl; lia|].
  destruct s as [|c s]; simpl; [lia|]. specialize (IH s). lia.
Qed.

(** Every character of a slug is ["_"] or a character of the title that is
    no blank. *)
Lemma slug_all (q : ascii -> bool) (title : string) :
  q "_"%char = true ->
  Py.all_chars (fun c => Py.is_space c || q c) title = true ->
  Py.all_chars q (slug_of title) = true.
Proof.
  intros Hu H. unfold slug_of. apply slice_to_all, join_all.
  - simpl. now rewrite Hu.
  - apply split_ws_all. now apply all_chars_strip.
Qed.

End FileNames.

(** X1. A slug has at most 30 characters and no blank among them, whatever
    the title. *)
Theorem slug_is_short_and_has_no_blank (title : string) :
  String.length (slug_of title) <= 30
  /\ Py.all_chars (fun c => negb (Py.is_space c)) (slug_of title) = true.
Proof.
  split; [apply slice_to_length|].
  apply slug_all; [reflexivity|].
  apply all_chars_true. intros c. now destruct (Py.is_space c).
Qed.

(** X2. A title that is not empty and has neither ["/"] nor NUL can
    always be turned into a note: [new_note] adds the file. *)
Theorem title_without_separator_is_created (title now : string) (w : world) :
  title <> "" ->
  Py.all_chars Fs.legal_char title = true ->
  creatable title
  /\ listdir (notes (snd (new_note (Some title) now w)))
     = listdir (notes w) ++ [generate_filename (get_next_id (notes w)) title].
Proof.
  intros Hne Hl.
  assert (Hc : creatable title).
  { split; [exact Hne|]. apply slug_all; [reflexivity|].
    eapply all_chars_impl; [|exact Hl]. intros c Hc. rewrite Hc. apply orb_true_r. }
  split; [exact Hc|].
  rewrite (new_note_creates _ _ _ Hc). unfold listdir. now rewrite map_app.
Qed.

Lemma title_without_separator_witness :
  listdir (notes (snd (new_note (Some "  My first   note ") "" (idle [("3_x.md", plain "")]))))
  = listdir (notes (idle [("3_x.md", plain "")]))
    ++ [generate_filename (get_next_id (notes (idle [("3_x.md", plain "")]))) "  My first   note "].
Proof.
  apply (title_without_separator_is_created "  My first   note " "" (idle [("3_x.md", plain "")]));
    [discriminate | reflexivity].
Defined.

(** X3. The ID is read back from a generated file name whenever it has no
    ["_"]; the name ends in [".md"]. *)
Theorem generated_name_keeps_id (note_id title : string) :
  Py.all_chars (fun c => negb (Ascii.eqb c "_")) note_id = true ->
  extract_id_from_filename (generate_filename note_id title) = note_id
  /\ Py.endswith ".md" (generate_filename note_id title) = true.
Proof.
  intros H. split.
  - unfold extract_id_from_filename, generate_filename.
    change ("_" ++ slug_of title ++ ".md")%string with (String "_" (slug_of title ++ ".md")).
    now apply split_head_append.
  - unfold generate_filename. apply endswith_suffix.
    exists (note_id ++ "_" ++ slug_of title)%string. now rewrite !append_assoc.
Qed.

Lemma generated_name_keeps_id_witness :
  extract_id_from_filename (generate_filename "12" "a_b c") = "12"
  /\ Py.endswith ".md" (generate_filename "12" "a_b c") = true.
Proof. apply (generated_name_keeps_id "12" "a_b c"). reflexivity. Defined.

(** X4. A title of blanks only has the empty slug: its file is named by
    the ID alone. *)
Theorem blank_title_has_empty_slug (note_id title : string) :
  Py.all_chars Py.is_space title = true ->
  generate_filename note_id title = (note_id ++ "_.md")%string.
Proof.
  intros H. unfold generate_filename, slug_of.
  assert (E : Py.lstrip_by Py.is_space title = "").
  { induction title as [|c r IH]; simpl in *; auto.
    apply andb_true_iff in H as [Hc Hr]. rewrite Hc. auto. }
  unfold Py.strip, Py.strip_by. rewrite E. reflexivity.
Qed.

Lemma blank_title_witness :
  generate_filename "7" "    " = ("7" ++ "_.md")%string.
Proof. apply (blank_title_has_empty_slug "7" "    "). reflexivity. Defined.

(* ------------------------------------------------------------------ *)
(** *** The allocator and deletions *)

Section AllocatorAfterRemove.

Lemma next_id_unique (s : store) (m : Z) :
  numeric_prefix s m -> (forall i, numeric_prefix s i -> (i <= m)%Z) ->
  next_id_value s = (m + 1)%Z.
Proof.
  intros Hm Hmax. destruct (next_id_cases s) as [[Hno _] | (m' & Hm' & Hmax' & ->)].
  - now apply Hno in Hm.
  - specialize (Hmax _ Hm'). specialize (Hmax' _ Hm). lia.
Qed.

Lemma remove_is_filter (f : string) (s s' : store) :
  Fs.remove f s = Some s' ->
  s' = filter (fun e => negb (String.eqb (fst e) f)) s.
Proof. unfold Fs.remove. destruct (Fs.lookup f s); congruence. Qed.

Lemma numeric_prefix_without (f : string) (s : store) (i : Z) :
  numeric_prefix (filter (fun e => negb (String.eqb (fst e) f)) s) i <->
  exists g, g <> f /\ In g (list_note_files s) /\ sort_key g = Some i.
Proof.
  unfold numeric_prefix. rewrite list_note_files_without. split.
  - intros (g & Hg & Hk). apply filter_In in Hg as [Hin Hne].
    apply negb_true_iff, String.eqb_neq in Hne. eauto.
  - intros (g & Hne & Hin & Hk). exists g. split; [|exact Hk].
    apply filter_In. split; [exact Hin|]. now apply negb_true_iff, String.eqb_neq.
Qed.

End AllocatorAfterRemove.

(** X5. Removing a note leaves the next ID as it was when another note
    file holds the greatest ID: the gap is not filled. *)
Theorem removing_older_note_keeps_next_id (s s' : store) (f g : string) (k : Z) :
  Fs.remove f s = Some s' ->
  g <> f -> In g (list_note_files s) -> sort_key g = Some k ->
  (forall i, numeric_prefix s i -> (i <= k)%Z) ->
  get_next_id s' = get_next_id s.
Proof.
  intros Hr Hne Hin Hk Hmax. apply remove_is_filter in Hr. subst s'.
  unfold get_next_id. f_equal.
  rewrite (next_id_unique s k); [| exists g; auto | exact Hmax].
  apply next_id_unique.
  - apply numeric_prefix_without. eauto.
  - intros i Hi. apply numeric_prefix_without in Hi as (h & _ & Hh & Hi).
    apply Hmax. exists h. auto.
Qed.

Lemma removing_older_note_witness :
  get_next_id [("1_a.md", plain ""); ("5_c.md", plain "")]
  = get_next_id [("1_a.md", plain ""); ("2_b.md", plain ""); ("5_c.md", plain "")].
Proof.
  apply (removing_older_note_keeps_next_id
           [("1_a.md", plain ""); ("2_b.md", plain ""); ("5_c.md", plain "")]
           [("1_a.md", plain ""); ("5_c.md", plain "")] "2_b.md" "5_c.md" 5).
  - reflexivity.
  - discriminate.
  - simpl. auto.
  - reflexivity.
  - intros i (h & Hh & Hi). simpl in Hh. each_entry Hh; vm_compute in Hi;
      injection Hi as <-; lia.
Defined.

(** X6. Removing the note file that alone holds the greatest ID, a
    positive one, frees that ID: the next ID is then at most the ID of the
    removed note, so an ID can be given twice. *)
Theorem removing_newest_note_frees_its_id (s s' : store) (f : string) (m : Z) :
  Fs.remove f s = Some s' ->
  In f (list_note_files s) -> sort_key f = Some m -> (1 <= m)%Z ->
  (forall g k, g <> f -> In g (list_note_files s) -> sort_key g = Some k -> (k < m)%Z) ->
  (next_id_value s' <= m)%Z /\ (m < next_id_value s)%Z.
Proof.
  intros Hr Hin Hk Hpos Hrest. apply remove_is_filter in Hr. subst s'. split.
  - destruct (next_id_cases (filter (fun e => negb (String.eqb (fst e) f)) s))
      as [[_ ->] | (m' & Hm' & _ & ->)]; [lia|].
    apply numeric_prefix_without in Hm' as (g & Hne & Hg & Hgk).
    specialize (Hrest g m' Hne Hg Hgk). lia.
  - apply next_id_above. exists f. auto.
Qed.

Lemma removing_newest_note_witness :
  (next_id_value [("1_a.md", plain "")] <= 2)%Z
  /\ (2 < next_id_value [("1_a.md", plain ""); ("2_b.md", plain "")])%Z.
Proof.
  apply (removing_newest_note_frees_its_id
           [("1_a.md", plain ""); ("2_b.md", plain "")] [("1_a.md", plain "")] "2_b.md" 2).
  - reflexivity.
  - simpl. auto.
  - reflexivity.
  - lia.
  - intros g k Hne Hg Hk. simpl in Hg. each_entry Hg.
    vm_compute in Hk. injection Hk as <-. lia.
Defined.

(* ------------------------------------------------------------------ *)
(** *** Entries that are no note files *)

Section StrayEntries.

Variables (s1 s2 : store) (g : string) (fl : file).
Hypothesis stray : is_note_file g = false.

Lemma stray_listing :
  list_note_files (s1 ++ (g, fl) :: s2) = list_note_files (s1 ++ s2).
Proof.
  rewrite !list_note_files_app. f_equal.
  unfold list_note_files, listdir. simpl. now rewrite stray.
Qed.

Lemma stray_lookup (f : string) :
  f <> g -> Fs.lookup f (s1 ++ (g, fl) :: s2) = Fs.lookup f (s1 ++ s2).
Proof.
  intros Hne. unfold Fs.lookup. induction s1 as [|[x fx] r IH]; simpl.
  - destruct (String.eqb_spec g f); [congruence | reflexivity].
  - destruct (String.eqb x f); [reflexivity | exact IH].
Qed.

Lemma stray_read (f : string) :
  is_note_file f = true -> Fs.read f (s1 ++ (g, fl) :: s2) = Fs.read f (s1 ++ s2).
Proof.
  intros Hf. unfold Fs.read. rewrite stray_lookup; [reflexivity|].
  intros ->. congruence.
Qed.

Lemma stray_backlinks (i : string) (files : list string) :
  Forall (fun f => is_note_file f = true) files ->
  find_backlinks_in (s1 ++ (g, fl) :: s2) i files = find_backlinks_in (s1 ++ s2) i files.
Proof.
  induction 1 as [|f files Hf _ IH]; simpl; [reflexivity|].
  now rewrite (stray_read f Hf), IH.
Qed.

Lemma stray_tags (files : list string) :
  Forall (fun f => is_note_file f = true) files ->
  forall tags,
    collect_tags (s1 ++ (g, fl) :: s2) tags files = collect_tags (s1 ++ s2) tags files.
Proof.
  induction 1 as [|f files Hf _ IH]; intros tags; simpl; [reflexivity|].
  rewrite (stray_read f Hf). destruct (Fs.read f (s1 ++ s2)); apply IH.
Qed.

Lemma note_files_are_note_files (s : store) :
  Forall (fun f => is_note_file f = true) (list_note_files s).
Proof. apply Forall_forall. intros f Hf. now apply filter_In in Hf. Qed.

End StrayEntries.

(** X7. An entry of the directory that is no note file (wrong extension,
    or hidden) changes nothing to the next ID, the backlinks of any ID,
    the tags and the sorted listing. *)
Theorem stray_entry_is_ignored (s1 s2 : store) (g : string) (fl : file) :
  is_note_file g = false ->
  get_next_id (s1 ++ (g, fl) :: s2) = get_next_id (s1 ++ s2)
  /\ (forall i, find_backlinks (s1 ++ (g, fl) :: s2) i = find_backlinks (s1 ++ s2) i)
  /\ extract_tags (s1 ++ (g, fl) :: s2) = extract_tags (s1 ++ s2)
  /\ sorted_by_id (list_note_files (s1 ++ (g, fl) :: s2))
     = sorted_by_id (list_note_files (s1 ++ s2)).
Proof.
  intros Hg. split; [|split; [|split]].
  - apply get_next_id_skips. auto.
  - intros i. unfold find_backlinks. rewrite (stray_listing _ _ _ _ Hg).
    apply stray_backlinks; [exact Hg | apply note_files_are_note_files].
  - unfold extract_tags. rewrite (stray_listing _ _ _ _ Hg). f_equal.
    apply stray_tags; [exact Hg | apply note_files_are_note_files].
  - now rewrite (stray_listing _ _ _ _ Hg).
Qed.

Lemma stray_entry_witness :
  extract_tags ([("1_a.md", plain "#x")] ++ (".hidden.md", plain "#secret [[1]]") :: [])
  = extract_tags ([("1_a.md", plain "#x")] ++ []).
Proof.
  apply (stray_entry_is_ignored [("1_a.md", plain "#x")] [] ".hidden.md"
           (plain "#secret [[1]]")).
  reflexivity.
Defined.

(* ------------------------------------------------------------------ *)
(** *** Tags and line ends *)

Section TagsAndLineEnds.

Lemma word_run_newlines (s : string) :
  Py.word_run (Py.universal_newlines s) = Py.word_run s.
Proof.
  induction s as [|c r IH]; [reflexivity|].
  destruct (Ascii.eqb c "013") eqn:Ec.
  - apply Ascii.eqb_eq in Ec. subst c.
    destruct r as [|d r']; [reflexivity|]. cbn [Py.universal_newlines].
    cbn [Ascii.eqb Bool.eqb]. destruct (Ascii.eqb d "010"); reflexivity.
  - rewrite (newlines_keep _ _ Ec). cbn [Py.word_run]. now rewrite IH.
Qed.

Lemma findall_line_end (c : ascii) (r : string) :
  Ascii.eqb c "#" = false -> Py.findall_tags (String c r) = Py.findall_tags r.
Proof. intros H. now rewrite findall_tags_step, H. Qed.

(** The translation of the line ends changes no tag. *)
Lemma findall_tags_newlines (s : string) :
  Py.findall_tags (Py.universal_newlines s) = Py.findall_tags s.
Proof.
  apply (newlines_ind (fun s => Py.findall_tags (Py.universal_newlines s)
                                = Py.findall_tags s)).
  - reflexivity.
  - intros r IH. rewrite newlines_crlf.
    rewrite !findall_line_end by reflexivity. exact IH.
  - intros r Hr IH. rewrite (newlines_cr _ Hr).
    rewrite !findall_line_end by reflexivity. exact IH.
  - intros c r Hc IH. rewrite (newlines_keep _ _ Hc).
    now rewrite !findall_tags_step, word_run_newlines, IH.
Qed.

End TagsAndLineEnds.

(* ------------------------------------------------------------------ *)
(** *** Opening and saving *)

Section OpenSave.

Lemma update_backlinks_exact (w : world) :
  update_backlinks w
  = (Ok tt,
     set_ui (set_backlinks_box
               (backlinks_shown (notes w) (current_id (ui w)) (backlinks_box (ui w)))
               (ui w)) w).
Proof.
  unfold update_backlinks, bind at 1, get_ui.
  destruct (current_id (ui w)) as [[|a r]|]; cbn [backlinks_shown].
  - destruct w as [s [] d]. reflexivity.
  - unfold bind at 1, modify_ui. unfold bind at 1, get_notes.
    rewrite for_each_backlinks. reflexivity.
  - destruct w as [s [] d]. reflexivity.
Qed.

Lemma load_note_by_name_run (f : string) (w : world) :
  load_note_by_name f w =
  match Fs.read f (notes w) with
  | Some c =>
      (Ok tt,
       set_ui (mkApp (Some f) (Some (extract_id_from_filename f))
                     (sidebar (ui w)) (tag_list (ui w))
                     (backlinks_shown (notes w) (Some (extract_id_from_filename f))
                                      (backlinks_box (ui w)))
                     c) w)
  | None => (Raised (OSError f), w)
  end.
Proof.
  unfold load_note_by_name, bind at 1, open_read.
  destruct (Fs.read f (notes w)) as [c|]; [|reflexivity].
  unfold bind at 1, modify_ui. unfold bind at 1.
  rewrite update_backlinks_exact. reflexivity.
Qed.

Lemma find_index_In (filename : string) (items : list string) (i : nat) :
  find_index filename items i = None <-> ~ In filename items.
Proof.
  revert i; induction items as [|x r IH]; intros i; simpl; [tauto|].
  destruct (String.eqb_spec x filename) as [->|Hne].
  - split; [discriminate | tauto].
  - rewrite IH. tauto.
Qed.

Lemma lookup_update_same (f data : string) (s : store) (fl : file) :
  Fs.lookup f s = Some fl ->
  Fs.lookup f (Fs.update_content f data s) = Some (Fs.set_content data fl).
Proof.
  unfold Fs.lookup, Fs.update_content.
  induction s as [|[x fx] s IH]; simpl; [discriminate|].
  destruct (String.eqb_spec x f) as [->|Hne]; simpl.
  - rewrite String.eqb_refl. simpl. now intros [= ->].
  - destruct (String.eqb_spec x f); [contradiction | exact IH].
Qed.

Lemma read_after_update (f data : string) (s : store) (fl : file) :
  Fs.lookup f s = Some fl ->
  Fs.read f (Fs.update_content f data s)
  = if readable fl then Some (Py.universal_newlines data) else None.
Proof.
  intros Hl. unfold Fs.read. now rewrite (lookup_update_same _ _ _ _ Hl).
Qed.

Lemma lookup_update_other (f g data : string) (s : store) :
  g <> f -> Fs.lookup g (Fs.update_content f data s) = Fs.lookup g s.
Proof.
  intros Hg. unfold Fs.lookup, Fs.update_content.
  induction s as [|[x fx] s IH]; simpl; [reflexivity|].
  destruct (String.eqb_spec x f) as [->|Hne]; simpl.
  - destruct (String.eqb_spec f g); [congruence | exact IH].
  - destruct (String.eqb x g); [reflexivity | exact IH].
Qed.

Lemma listdir_after_update (f data : string) (s : store) :
  listdir (Fs.update_content f data s) = listdir s.
Proof.
  unfold listdir, Fs.update_content. rewrite map_map. apply map_ext.
  intros [x fx]. simpl. now destruct (String.eqb x f).
Qed.

Lemma save_note_run (w : world) (f : string) (fl : file) :
  current_file (ui w) = Some f ->
  Fs.lookup f (notes w) = Some fl ->
  save_note w =
  if writable fl then
    (Ok tt,
     mkWorld (Fs.update_content f (text (ui w) ++ nl) (notes w))
             (set_tag_list
                (extract_tags (Fs.update_content f (text (ui w) ++ nl) (notes w)))
                (set_backlinks_box
                   (backlinks_shown (Fs.update_content f (text (ui w) ++ nl) (notes w))
                                    (current_id (ui w)) (backlinks_box (ui w)))
                   (ui w)))
             (dialogs w ++ [showinfo "Saved" ("Saved " ++ f)]))
  else (Raised (OSError f), w).
Proof.
  intros Hf Hl. unfold save_note, bind at 1, get_ui. rewrite Hf.
  unfold bind at 1, open_write, Fs.write. rewrite Hl.
  destruct (writable fl); [|reflexivity].
  unfold bind at 1, show. unfold bind at 1.
  rewrite update_backlinks_exact, refresh_tags_run. reflexivity.
Qed.

End OpenSave.

(** X8. Opening a note that can be read puts in the editor its content as
    [open(..., "r")] gives it, that is the stored text with every CRLF and
    every lone CR turned into LF, so that the editor holds no CR; it makes
    the note the open note with the prefix of its name as ID, fills the
    backlinks box with [find_backlinks] of that ID when the ID is not
    empty, and changes neither a file nor the sidebar; a note that cannot
    be read, or that is not there, raises and changes nothing. *)
Theorem load_note_by_name_opens_or_raises (f : string) (w : world) :
  (forall fl, Fs.lookup f (notes w) = Some fl -> readable fl = true ->
     exists w',
       load_note_by_name f w = (Ok tt, w')
       /\ notes w' = notes w /\ dialogs w' = dialogs w
       /\ text (ui w') = Py.universal_newlines (content fl)
       /\ Py.all_chars (fun c => negb (Ascii.eqb c "013")) (text (ui w')) = true
       /\ (Py.all_chars (fun c => negb (Ascii.eqb c "013")) (content fl) = true ->
           text (ui w') = content fl)
       /\ current_file (ui w') = Some f
       /\ current_id (ui w') = Some (extract_id_from_filename f)
       /\ sidebar (ui w') = sidebar (ui w)
       /\ (extract_id_from_filename f <> "" ->
           backlinks_box (ui w') = find_backlinks (notes w) (extract_id_from_filename f)))
  /\ (forall c, Fs.read f (notes w) = Some c ->
        exists fl, Fs.lookup f (notes w) = Some fl /\ readable fl = true
                   /\ c = Py.universal_newlines (content fl))
  /\ (Fs.read f (notes w) = None -> load_note_by_name f w = (Raised (OSError f), w))
  /\ (Fs.lookup f (notes w) = None -> load_note_by_name f w = (Raised (OSError f), w))
  /\ (forall fl, Fs.lookup f (notes w) = Some fl -> readable fl = false ->
        load_note_by_name f w = (Raised (OSError f), w)).
Proof.
  rewrite load_note_by_name_run. unfold Fs.read.
  split; [|split; [|split; [|split]]].
  - intros fl -> ->. eexists. split; [reflexivity|].
    cbn [notes dialogs ui set_ui text current_file current_id sidebar backlinks_box].
    split; [reflexivity|]. split; [reflexivity|]. split; [reflexivity|].
    split; [apply newlines_no_cr|]. split; [apply newlines_id|].
    split; [reflexivity|]. split; [reflexivity|]. split; [reflexivity|].
    intros Hne. destruct (extract_id_from_filename f); [congruence | reflexivity].
  - intros c. destruct (Fs.lookup f (notes w)) as [fl|]; [|discriminate].
    destruct (readable fl) eqn:Er; [|discriminate].
    intros [= <-]. exists fl. now repeat split.
  - intros ->. reflexivity.
  - intros ->. reflexivity.
  - intros fl -> ->. reflexivity.
Qed.

(** A note stored with the line ends of another system is shown with LF
    only. *)
Example load_note_by_name_translates :
  text (ui (snd (load_note_by_name "1_a.md"
     (idle [("1_a.md", plain (String "a" (String "013" (String "010"
                               (String "b" (String "013" "c"))))))]))))
  = String "a" (String "010" (String "b" (String "010" "c"))).
Proof. reflexivity. Qed.

(** X9. The handler of a double click on the sidebar never raises and
    never changes a file: a line whose note cannot be read gives an error
    dialog and leaves the editor and the open note as they were. *)
Theorem load_note_never_raises (selection : option nat) (w : world) :
  exists w',
    load_note selection w = (Ok tt, w')
    /\ notes w' = notes w
    /\ (forall i, selection = Some i ->
          Fs.read (listbox_get (sidebar (ui w)) i) (notes w) = None ->
          ui w' = ui w
          /\ dialogs w'
             = dialogs w ++ [showerror "Error" "" (OSError (listbox_get (sidebar (ui w)) i))]).
Proof.
  unfold load_note, try_except, bind, get_ui.
  destruct selection as [i|].
  - rewrite load_note_by_name_run.
    destruct (Fs.read (listbox_get (sidebar (ui w)) i) (notes w)) as [c|] eqn:E.
    + eexists. split; [reflexivity|]. split; [reflexivity|]. intros j [= <-] H. congruence.
    + eexists. split; [reflexivity|]. split; [reflexivity|]. intros j [= <-] _. split; reflexivity.
  - exists w. split; [reflexivity|]. split; [reflexivity|]. intros i H. discriminate.
Qed.

(** X10. A line of the backlinks box opens its note only when the note is
    a line of the sidebar; a backlink the sidebar does not show, as after a
    search, is not opened and nothing changes. *)
Theorem open_backlink_needs_sidebar_line (i : nat) (w : world) :
  (In (listbox_get (backlinks_box (ui w)) i) (sidebar (ui w)) ->
   open_backlink (Some i) w = load_note_by_name (listbox_get (backlinks_box (ui w)) i) w)
  /\ (~ In (listbox_get (backlinks_box (ui w)) i) (sidebar (ui w)) ->
      open_backlink (Some i) w = (Ok tt, w))
  /\ open_backlink None w = (Ok tt, w).
Proof.
  unfold open_backlink, bind, get_ui. cbv zeta. split; [|split; [|reflexivity]].
  - intros Hin.
    destruct (find_index (listbox_get (backlinks_box (ui w)) i) (sidebar (ui w)) 0) eqn:E;
      [reflexivity|].
    apply (proj1 (find_index_In _ _ _)) in E. contradiction.
  - intros Hnot. now rewrite (proj2 (find_index_In _ _ 0) Hnot).
Qed.

(** X11. Saving the open note, when its file can be written, overwrites
    that file with the text of the editor followed by a newline, keeps the
    names of the directory, shows "Saved" and refreshes the tag list from
    the files as they are then. *)
Theorem save_note_writes_editor_text (w : world) (f : string) (fl : file) :
  current_file (ui w) = Some f ->
  Fs.lookup f (notes w) = Some fl ->
  writable fl = true ->
  exists w',
    save_note w = (Ok tt, w')
    /\ notes w' = Fs.update_content f (text (ui w) ++ nl) (notes w)
    /\ Fs.lookup f (notes w') = Some (Fs.set_content (text (ui w) ++ nl) fl)
    /\ (forall g, g <> f -> Fs.lookup g (notes w') = Fs.lookup g (notes w))
    /\ listdir (notes w') = listdir (notes w)
    /\ dialogs w' = dialogs w ++ [showinfo "Saved" ("Saved " ++ f)]
    /\ tag_list (ui w') = extract_tags (notes w')
    /\ text (ui w') = text (ui w)
    /\ current_file (ui w') = Some f.
Proof.
  intros Hf Hl Hw. rewrite (save_note_run w f fl Hf Hl), Hw.
  eexists. split; [reflexivity|]. cbn [notes ui dialogs].
  split; [reflexivity|].
  split; [now apply lookup_update_same|].
  split; [intros g Hg; now apply lookup_update_other|].
  split; [apply listdir_after_update|].
  repeat split. exact Hf.
Qed.

Lemma save_note_witness :
  exists w',
    save_note (mkWorld [("1_a.md", plain "old")]
                       (mkApp (Some "1_a.md") (Some "1") [] [] [] "new #tag") [])
    = (Ok tt, w')
    /\ notes w' = [("1_a.md", plain ("new #tag" ++ nl))]
    /\ tag_list (ui w') = ["#tag"].
Proof.
  destruct (save_note_writes_editor_text
              (mkWorld [("1_a.md", plain "old")]
                       (mkApp (Some "1_a.md") (Some "1") [] [] [] "new #tag") [])
              "1_a.md" (plain "old") eq_refl eq_refl eq_refl)
    as (w' & Hrun & Hn & _ & _ & _ & _ & Ht & _).
  exists w'. split; [exact Hrun|]. split; [exact Hn|].
  rewrite Ht, Hn. reflexivity.
Defined.

(** X12. Opening a note and saving it at once does not give the file
    back: the file then holds the text that was read, that is its former
    content with every CRLF and every lone CR turned into LF, and one more
    newline; a former content without CR comes back with one more
    newline. *)
Theorem open_then_save_appends_newline (w : world) (f : string) (fl : file) :
  Fs.lookup f (notes w) = Some fl ->
  readable fl = true -> writable fl = true ->
  Fs.lookup f (notes (snd (save_note (snd (load_note_by_name f w)))))
  = Some (Fs.set_content (Py.universal_newlines (content fl) ++ nl) fl)
  /\ fst (save_note (snd (load_note_by_name f w))) = Ok tt
  /\ (Py.all_chars (fun c => negb (Ascii.eqb c "013")) (content fl) = true ->
      Fs.lookup f (notes (snd (save_note (snd (load_note_by_name f w)))))
      = Some (Fs.set_content (content fl ++ nl) fl)).
Proof.
  intros Hl Hr Hw.
  assert (Hread : Fs.read f (notes w) = Some (Py.universal_newlines (content fl))).
  { unfold Fs.read. now rewrite Hl, Hr. }
  rewrite load_note_by_name_run, Hread. cbn [snd].
  rewrite (save_note_run _ f fl); [| reflexivity | exact Hl].
  rewrite Hw. cbn [fst snd notes ui set_ui text].
  split; [now apply lookup_update_same|]. split; [reflexivity|].
  intros Hc. rewrite <- (newlines_id _ Hc) at 2. now apply lookup_update_same.
Qed.

Lemma open_then_save_witness :
  Fs.lookup "1_a.md"
    (notes (snd (save_note (snd (load_note_by_name "1_a.md"
       (idle [("1_a.md", plain (String "a" (String "013" (String "010" "b"))))]))))))
  = Some (plain (String "a" (String "010" "b") ++ nl))
  /\ fst (save_note (snd (load_note_by_name "1_a.md"
       (idle [("1_a.md", plain (String "a" (String "013" (String "010" "b"))))]))))
     = Ok tt.
Proof.
  destruct (open_then_save_appends_newline
              (idle [("1_a.md", plain (String "a" (String "013" (String "010" "b"))))])
              "1_a.md" (plain (String "a" (String "013" (String "010" "b"))))
              eq_refl eq_refl eq_refl) as (Hfile & Hrun & _).
  split; [exact Hfile | exact Hrun].
Defined.

(** X13. The edges of saving.  With no open note a warning is shown and
    nothing is written.  When the file of the open note cannot be written
    the exception leaves the method: no dialog is shown and nothing has
    changed.  When the file of the open note is no longer in the directory
    it is made again, with the text of the editor. *)
Theorem save_note_edge_cases (w : world) :
  (current_file (ui w) = None ->
   save_note w
   = (Ok tt, mkWorld (notes w) (ui w)
                     (dialogs w ++ [showwarning "No File" "No note is open."])))
  /\ (forall f fl,
        current_file (ui w) = Some f -> Fs.lookup f (notes w) = Some fl ->
        writable fl = false ->
        save_note w = (Raised (OSError f), w))
  /\ (forall f,
        current_file (ui w) = Some f -> Fs.lookup f (notes w) = None ->
        Fs.legal_name f = true ->
        exists w',
          save_note w = (Ok tt, w')
          /\ notes w' = notes w ++ [(f, mkFile (text (ui w) ++ nl) true true)]
          /\ dialogs w' = dialogs w ++ [showinfo "Saved" ("Saved " ++ f)]).
Proof.
  split; [|split].
  - intros H. unfold save_note, bind, get_ui. now rewrite H.
  - intros f fl Hf Hl Hw. now rewrite (save_note_run w f fl Hf Hl), Hw.
  - intros f Hf Hl Hlegal. unfold save_note, bind at 1, get_ui. rewrite Hf.
    unfold bind at 1, open_write, Fs.write. rewrite Hl, Hlegal.
    unfold bind at 1, show. unfold bind at 1.
    rewrite update_backlinks_exact, refresh_tags_run.
    eexists. split; [reflexivity|]. split; reflexivity.
Qed.

(** X14. After a save of an open note file that can be read and written,
    every tag of the saved text is a line of the tag list. *)
Theorem saved_tags_are_listed (w : world) (f : string) (fl : file) (t : string) :
  current_file (ui w) = Some f ->
  Fs.lookup f (notes w) = Some fl ->
  writable fl = true -> readable fl = true ->
  is_note_file f = true ->
  tag_at t (text (ui w) ++ nl) ->
  In t (tag_list (ui (snd (save_note w)))).
Proof.
  intros Hf Hl Hw Hr Hn Ht. rewrite (save_note_run w f fl Hf Hl), Hw.
  cbn [snd ui tag_list set_tag_list]. unfold extract_tags.
  eapply Permutation_in; [symmetry; apply sorted_perm|].
  apply collect_tags_In. right.
  exists f, (Py.universal_newlines (text (ui w) ++ nl)).
  split; [|split].
  - unfold list_note_files. apply filter_In. split; [|exact Hn].
    rewrite listdir_after_update. apply lookup_In in Hl.
    unfold listdir. now apply (in_map fst) in Hl.
  - now rewrite (read_after_update _ _ _ _ Hl), Hr.
  - rewrite findall_tags_newlines. now apply findall_tags_spec.
Qed.

Lemma saved_tags_witness :
  In "#idea"
     (tag_list (ui (snd (save_note
        (mkWorld [("1_a.md", plain "")]
                 (mkApp (Some "1_a.md") (Some "1") [] [] [] "an #idea") []))))).
Proof.
  apply (saved_tags_are_listed
           (mkWorld [("1_a.md", plain "")]
                    (mkApp (Some "1_a.md") (Some "1") [] [] [] "an #idea") [])
           "1_a.md" (plain "") "#idea"); try reflexivity.
  exists "an ", "idea", nl. repeat split. discriminate.
Defined.

(* ------------------------------------------------------------------ *)
(** *** Filtering by tag *)

Section TagFilter.

Lemma tag_filter_spec (tag : string) (s : store) (f : string) :
  tag_filter tag s f = true <-> exists c, Fs.read f s = Some c /\ occurs_in tag c.
Proof.
  unfold tag_filter. destruct (Fs.read f s) as [c|].
  - rewrite contains_occurs. split; [eauto | intros (c' & [= <-] & H); exact H].
  - split; [discriminate | intros (c & [=] & _)].
Qed.

Lemma tag_at_occurs (t c : string) : tag_at t c -> occurs_in t c.
Proof.
  intros (pre & w & post & -> & _ & _ & _ & ->).
  exists pre, post. reflexivity.
Qed.

Lemma filter_by_tag_run (i : nat) (w : world) (all : list string) :
  sorted_by_id (list_note_files (notes w)) = Ok all ->
  filter_by_tag (Some i) w
  = (Ok tt,
     set_ui (set_sidebar
               (filter (tag_filter (listbox_get (tag_list (ui w)) i) (notes w)) all)
               (ui w)) w).
Proof.
  intros H. unfold filter_by_tag, bind, get_ui. now rewrite refresh_list_run, H.
Qed.

End TagFilter.

(** X15. When every note file has an integer prefix, choosing a line of
    the tag list puts in the sidebar, by ascending ID, exactly the note
    files that can be read and whose content has the tag as a piece of
    text: a note with a longer tag that starts with the chosen one is
    listed too. *)
Theorem filter_by_tag_lists_notes_with_the_text (i : nat) (w : world) :
  (forall f, In f (list_note_files (notes w)) -> sort_key f <> None) ->
  exists l,
    filter_by_tag (Some i) w = (Ok tt, set_ui (set_sidebar l (ui w)) w)
    /\ StronglySorted id_le l
    /\ (forall f, In f l <->
                  In f (list_note_files (notes w)) /\
                  exists c, Fs.read f (notes w) = Some c /\
                            occurs_in (listbox_get (tag_list (ui w)) i) c)
    /\ (forall f c t' rest,
           In f (list_note_files (notes w)) -> Fs.read f (notes w) = Some c ->
           tag_at t' c -> t' = (listbox_get (tag_list (ui w)) i ++ rest)%string ->
           In f l).
Proof.
  intros H. destruct (sorted_by_id_ok _ H) as (all & Hall & Hp & Hs).
  exists (filter (tag_filter (listbox_get (tag_list (ui w)) i) (notes w)) all).
  split; [now apply filter_by_tag_run|].
  split; [now apply filter_strongly_sorted|].
  assert (Hin : forall f,
             In f (filter (tag_filter (listbox_get (tag_list (ui w)) i) (notes w)) all) <->
             In f (list_note_files (notes w)) /\
             exists c, Fs.read f (notes w) = Some c /\
                       occurs_in (listbox_get (tag_list (ui w)) i) c).
  { intros f. rewrite filter_In, tag_filter_spec.
    split; intros [Hf Hc]; split; auto.
    - eapply Permutation_in; eauto.
    - eapply Permutation_in; [symmetry|]; eauto. }
  split; [exact Hin|].
  intros f c t' rest Hf Hr Ht ->. apply Hin. split; [exact Hf|].
  exists c. split; [exact Hr|].
  apply tag_at_occurs in Ht. destruct Ht as (pre & post & ->).
  exists pre, (rest ++ post)%string. now rewrite !append_assoc.
Qed.

Lemma filter_by_tag_witness :
  exists l,
    filter_by_tag (Some 0)
      (mkWorld [("2_b.md", plain "#ab"); ("1_a.md", plain "#a"); ("3_c.md", plain "#b")]
               (mkApp None None [] ["#a"; "#ab"; "#b"] [] "") [])
    = (Ok tt,
       set_ui (set_sidebar l (mkApp None None [] ["#a"; "#ab"; "#b"] [] ""))
              (mkWorld [("2_b.md", plain "#ab"); ("1_a.md", plain "#a"); ("3_c.md", plain "#b")]
                       (mkApp None None [] ["#a"; "#ab"; "#b"] [] "") []))
    /\ l = ["1_a.md"; "2_b.md"].
Proof.
  destruct (filter_by_tag_lists_notes_with_the_text 0
              (mkWorld [("2_b.md", plain "#ab"); ("1_a.md", plain "#a"); ("3_c.md", plain "#b")]
                       (mkApp None None [] ["#a"; "#ab"; "#b"] [] "") []))
    as (l & Hrun & _).
  - intros f Hf. simpl in Hf. each_entry Hf; discriminate.
  - exists l. split; [exact Hrun|].
    vm_compute in Hrun. now injection Hrun as <-.
Defined.

(** X16. When the tag list shows the tags of the files and every note
    file has an integer prefix, every line of the tag list selects at least
    one note, and selects every note that can be read and carries the
    tag. *)
Theorem listed_tag_selects_its_notes (i : nat) (t : string) (w : world) :
  (forall f, In f (list_note_files (notes w)) -> sort_key f <> None) ->
  tag_list (ui w) = extract_tags (notes w) ->
  nth_error (tag_list (ui w)) i = Some t ->
  (exists f, In f (sidebar (ui (snd (filter_by_tag (Some i) w)))))
  /\ (forall f c,
         In f (list_note_files (notes w)) -> Fs.read f (notes w) = Some c ->
         tag_at t c -> In f (sidebar (ui (snd (filter_by_tag (Some i) w))))).
Proof.
  intros H Htags Hnth.
  destruct (sorted_by_id_ok _ H) as (all & Hall & Hp & _).
  rewrite (filter_by_tag_run i w all Hall). cbn [snd ui set_ui sidebar set_sidebar].
  assert (Hget : listbox_get (tag_list (ui w)) i = t).
  { unfold listbox_get. now apply nth_error_nth. }
  rewrite Hget.
  assert (Hsel : forall f c,
             In f (list_note_files (notes w)) -> Fs.read f (notes w) = Some c ->
             tag_at t c -> In f (filter (tag_filter t (notes w)) all)).
  { intros f c Hf Hr Ht. apply filter_In. split.
    - eapply Permutation_in; [symmetry|]; eauto.
    - apply tag_filter_spec. exists c. split; [exact Hr | now apply tag_at_occurs]. }
  split; [|exact Hsel].
  assert (Hin : In t (extract_tags (notes w))).
  { rewrite <- Htags. eapply nth_error_In; eauto. }
  unfold extract_tags in Hin.
  apply (Permutation_in _ (sorted_perm String.leb _)) in Hin.
  apply collect_tags_In in Hin as [[] | (f & c & Hf & Hr & Ht)].
  exists f. apply (Hsel f c Hf Hr). now apply findall_tags_spec.
Qed.

Lemma listed_tag_witness :
  (exists f, In f (sidebar (ui (snd (filter_by_tag (Some 0)
      (mkWorld [("1_a.md", plain "#a")] (mkApp None None [] ["#a"] [] "") []))))))
  /\ (forall f c,
         In f (list_note_files (notes
             (mkWorld [("1_a.md", plain "#a")] (mkApp None None [] ["#a"] [] "") []))) ->
         Fs.read f (notes
             (mkWorld [("1_a.md", plain "#a")] (mkApp None None [] ["#a"] [] "") [])) = Some c ->
         tag_at "#a" c ->
         In f (sidebar (ui (snd (filter_by_tag (Some 0)
             (mkWorld [("1_a.md", plain "#a")] (mkApp None None [] ["#a"] [] "") [])))))).
Proof.
  apply (listed_tag_selects_its_notes 0 "#a"
           (mkWorld [("1_a.md", plain "#a")] (mkApp None None [] ["#a"] [] "") [])).
  - intros f Hf. simpl in Hf. each_entry Hf; discriminate.
  - reflexivity.
  - reflexivity.
Defined.

(* ------------------------------------------------------------------ *)
(** *** More on deleting *)

Section DeleteMore.

Lemma after_cleanup_run (f : string) (w : world) :
  try_except (after_cleanup f) delete_failed w =
  match sorted_by_id (list_note_files (notes w)) with
  | Ok l =>
      (Ok tt,
       mkWorld (notes w)
               (mkApp None None l (extract_tags (notes w)) [] "")
               (dialogs w ++ [showinfo "Deleted" ("Deleted " ++ f ++ " and updated backlinks")]))
  | Raised e =>
      (Ok tt,
       mkWorld (notes w)
               (mkApp None None [] (tag_list (ui w)) [] "")
               ((dialogs w ++ [showinfo "Deleted" ("Deleted " ++ f ++ " and updated backlinks")])
                ++ [showerror "Error" "Could not delete note:" e]))
  end.
Proof.
  unfold try_except, after_cleanup.
  unfold bind at 1, show. unfold bind at 1, modify_ui.
  unfold bind at 1. unfold bind at 1. unfold bind at 1.
  rewrite refresh_list_run. cbn [notes ui set_ui dialogs].
  destruct (sorted_by_id (list_note_files (notes w))) as [l|e].
  - rewrite refresh_tags_run. cbn [keep_of]. rewrite filter_true. reflexivity.
  - reflexivity.
Qed.

Lemma delete_note_steps (w : world) (f : string) :
  current_file (ui w) = Some f ->
  delete_note true w =
  match Fs.lookup f (notes w) with
  | None => delete_failed (OSError f) w
  | Some _ =>
      let todo := filter (fun e => negb (String.eqb (fst e) f)) (notes w) in
      let i := format_id (current_id (ui w)) in
      match for_each (list_note_files todo) (cleanup_file f i) (set_notes todo w) with
      | (Ok _, w') => try_except (after_cleanup f) delete_failed w'
      | (Raised e, w') => delete_failed e w'
      end
  end.
Proof.
  intros Hf. unfold delete_note. unfold bind at 1. unfold get_ui. rewrite Hf.
  cbn [negb]. unfold try_except at 1. unfold bind at 1, os_remove, Fs.remove.
  destruct (Fs.lookup f (notes w)); [|reflexivity].
  unfold bind at 1, get_notes. cbn [notes set_notes]. unfold bind at 1. cbv zeta.
  destruct (for_each _ _ _) as [[[]|e] w']; reflexivity.
Qed.

Lemma cleanup_entries_names (i : string) (s : store) :
  listdir (fst (cleanup_entries i s)) = listdir s.
Proof.
  induction s as [|e r IH]; [reflexivity|]. cbn [cleanup_entries].
  destruct (blocks_cleanup i e); [reflexivity|].
  destruct (cleanup_entries i r) as [r' o]. cbn [fst] in *.
  unfold listdir in *. simpl. now rewrite cleaned_name, IH.
Qed.

Lemma cleanup_entries_stray (i g : string) (s : store) :
  is_note_file g = false ->
  Fs.lookup g (fst (cleanup_entries i s)) = Fs.lookup g s.
Proof.
  intros Hg. induction s as [|[x fx] r IH]; [reflexivity|]. cbn [cleanup_entries].
  destruct (blocks_cleanup i (x, fx)); [reflexivity|].
  destruct (cleanup_entries i r) as [r' o]. cbn [fst] in *.
  unfold Fs.lookup in *. simpl. rewrite cleaned_name. cbn [fst].
  destruct (String.eqb_spec x g) as [->|Hne]; [|exact IH].
  unfold cleaned. cbn [fst]. now rewrite Hg.
Qed.

Lemma filter_none {A : Type} (p : A -> bool) (l : list A) :
  (forall x, In x l -> p x = false) -> filter p l = [].
Proof.
  induction l as [|x l IH]; intros H; simpl; [reflexivity|].
  rewrite (H x) by (simpl; auto). apply IH. intros y Hy. apply H. simpl. auto.
Qed.

(** The files after a delete whose cleanup met no obstacle. *)
Lemma delete_note_cleaned (w : world) (f i : string) :
  NoDup (listdir (notes w)) ->
  current_file (ui w) = Some f -> current_id (ui w) = Some i ->
  In f (listdir (notes w)) ->
  (forall e, In e (notes w) -> fst e <> f -> blocks_cleanup i e = false) ->
  delete_note true w
  = try_except (after_cleanup f) delete_failed
      (set_notes (map (cleaned i) (filter (fun e => negb (String.eqb (fst e) f)) (notes w))) w).
Proof.
  intros Hnd Hf Hi Hin Hok.
  rewrite (delete_note_loop w f i Hnd Hf Hi Hin). cbv zeta.
  rewrite cleanup_entries_all; [reflexivity|].
  intros [g fl] He. apply filter_In in He as [He Hg]. cbn [fst] in Hg.
  apply negb_true_iff, String.eqb_neq in Hg. now apply (Hok (g, fl)).
Qed.

End DeleteMore.

(** X17. Whatever the answer to the confirmation and whatever the state
    of the files, [delete_note] returns without raising; the names of the
    directory are afterwards the same, or the same without the open note;
    and an entry that is no note file keeps its content. *)
Theorem delete_note_touches_only_notes (confirm : bool) (w : world) :
  NoDup (listdir (notes w)) ->
  exists w',
    delete_note confirm w = (Ok tt, w')
    /\ (listdir (notes w') = listdir (notes w)
        \/ exists f, current_file (ui w) = Some f
                     /\ listdir (notes w')
                        = filter (fun x => negb (String.eqb x f)) (listdir (notes w)))
    /\ (forall g, is_note_file g = false -> current_file (ui w) <> Some g ->
                  Fs.lookup g (notes w') = Fs.lookup g (notes w)).
Proof.
  intros Hnd. destruct (current_file (ui w)) as [f|] eqn:Hf.
  - destruct confirm.
    + rewrite (delete_note_steps w f Hf).
      destruct (Fs.lookup f (notes w)) eqn:Hl.
      * cbv zeta.
        pose proof (cleanup_loop f (format_id (current_id (ui w))) w
                      (filter (fun e => negb (String.eqb (fst e) f)) (notes w)) []
                      (without_NoDup _ _ Hnd) (without_absent _ _)) as L.
        cbn [Datatypes.app] in L. rewrite L. clear L.
        set (todo := filter (fun e => negb (String.eqb (fst e) f)) (notes w)).
        set (i := format_id (current_id (ui w))).
        assert (Hnames : listdir (fst (cleanup_entries i todo))
                         = filter (fun x => negb (String.eqb x f)) (listdir (notes w))).
        { rewrite cleanup_entries_names. apply listdir_without. }
        assert (Hstray : forall g, is_note_file g = false -> Some f <> Some g ->
                  Fs.lookup g (fst (cleanup_entries i todo)) = Fs.lookup g (notes w)).
        { intros g Hg Hne. rewrite (cleanup_entries_stray _ _ _ Hg).
          apply lookup_without. congruence. }
        destruct (snd (cleanup_entries i todo)) as [stop|].
        -- eexists. split; [reflexivity|]. cbn [notes set_notes]. split; [|exact Hstray].
           right. exists f. auto.
        -- rewrite after_cleanup_run. cbn [notes set_notes].
           destruct (sorted_by_id _); (eexists; split; [reflexivity|]; cbn [notes];
             split; [right; exists f; auto | exact Hstray]).
      * eexists. split; [reflexivity|]. cbn [notes]. auto.
    + exists w. unfold delete_note, bind, get_ui. rewrite Hf. auto.
  - eexists. unfold delete_note, bind, get_ui. rewrite Hf.
    split; [reflexivity|]. cbn [notes]. auto.
Qed.

Lemma delete_note_touches_only_notes_witness :
  exists w',
    delete_note true
      (mkWorld [("1_a.md", plain "A"); ("todo.txt", plain "[[1]]"); ("2_b.md", plain "[[1]]")]
               (mkApp (Some "1_a.md") (Some "1") [] [] [] "A") [])
    = (Ok tt, w')
    /\ Fs.lookup "todo.txt" (notes w') = Some (plain "[[1]]")
    /\ Fs.lookup "2_b.md" (notes w') = Some (plain "(deleted note 1)").
Proof.
  destruct (delete_note_touches_only_notes true
              (mkWorld [("1_a.md", plain "A"); ("todo.txt", plain "[[1]]");
                        ("2_b.md", plain "[[1]]")]
                       (mkApp (Some "1_a.md") (Some "1") [] [] [] "A") []))
    as (w' & Hrun & _ & Hstray).
  - repeat constructor; simpl; intuition discriminate.
  - exists w'. split; [exact Hrun|]. split.
    + rewrite (Hstray "todo.txt"); [reflexivity | reflexivity | discriminate].
    + vm_compute in Hrun. injection Hrun as <-. reflexivity.
Defined.

(** X18. After a delete whose cleanup met no obstacle, no note file of the
    directory is a backlink of the deleted ID any more, when the ID has no
    ["["] and no ["("]; the deleted file is a backlink of no ID. *)
Theorem deleted_id_has_no_backlinks (w : world) (f i : string) :
  NoDup (listdir (notes w)) ->
  current_file (ui w) = Some f -> current_id (ui w) = Some i ->
  In f (listdir (notes w)) ->
  (forall e, In e (notes w) -> fst e <> f -> blocks_cleanup i e = false) ->
  Py.all_chars (fun c => negb (Ascii.eqb c "[") && negb (Ascii.eqb c "(")) i = true ->
  find_backlinks (notes (snd (delete_note true w))) i = []
  /\ (forall j, ~ In f (find_backlinks (notes (snd (delete_note true w))) j)).
Proof.
  intros Hnd Hf Hi Hin Hok Hclean.
  rewrite (delete_note_cleaned w f i Hnd Hf Hi Hin Hok).
  rewrite (proj1 (after_cleanup_notes f _)). cbn [notes set_notes].
  set (todo := filter (fun e => negb (String.eqb (fst e) f)) (notes w)).
  split.
  - unfold find_backlinks. rewrite find_backlinks_in_filter. apply filter_none.
    intros g Hg. unfold list_note_files in Hg. apply filter_In in Hg as [_ Hn].
    unfold links_to, Fs.read. rewrite lookup_cleaned.
    destruct (Fs.lookup g todo) as [fl|]; [|reflexivity]. cbn [option_map].
    unfold cleaned. cbn [fst snd]. rewrite Hn. cbn [andb].
    destruct (Py.contains (link_token i) (Py.universal_newlines (content fl))) eqn:E;
      cbn [snd readable content Fs.set_content].
    + destruct (readable fl); [|reflexivity].
      rewrite newlines_id.
      * apply contains_false_not_occurs. now apply cleaned_content_has_no_token.
      * apply contains_occurs in E.
        pose proof (occurs_all_chars _ _ _ E (newlines_no_cr (content fl))) as Htok.
        unfold link_token in Htok. rewrite !all_chars_append in Htok.
        apply andb_true_iff in Htok as [_ Htok].
        apply andb_true_iff in Htok as [Hid _].
        apply replace_all_chars; [discriminate | | apply newlines_no_cr].
        unfold deleted_placeholder. rewrite !all_chars_append, Hid. reflexivity.
    + destruct (readable fl); [exact E | reflexivity].
  - intros j Hj. unfold find_backlinks in Hj. rewrite find_backlinks_in_filter in Hj.
    apply filter_In in Hj as [Hj _]. unfold list_note_files in Hj.
    apply filter_In in Hj as [Hj _]. rewrite listdir_cleaned in Hj.
    now apply without_absent in Hj.
Qed.

Lemma deleted_id_witness :
  find_backlinks (notes (snd (delete_note true
     (mkWorld [("1_a.md", plain "me [[1]]"); ("2_b.md", plain "see [[1]][[1]]")]
              (mkApp (Some "1_a.md") (Some "1") [] [] [] "") [])))) "1" = []
  /\ (forall j, ~ In "1_a.md" (find_backlinks (notes (snd (delete_note true
     (mkWorld [("1_a.md", plain "me [[1]]"); ("2_b.md", plain "see [[1]][[1]]")]
              (mkApp (Some "1_a.md") (Some "1") [] [] [] "") [])))) j)).
Proof.
  apply (deleted_id_has_no_backlinks
           (mkWorld [("1_a.md", plain "me [[1]]"); ("2_b.md", plain "see [[1]][[1]]")]
                    (mkApp (Some "1_a.md") (Some "1") [] [] [] "") [])
           "1_a.md" "1").
  - repeat constructor; simpl; intuition discriminate.
  - reflexivity.
  - reflexivity.
  - simpl. auto.
  - intros e He Hne. simpl in He. each_entry He; try (now elim Hne); reflexivity.
  - reflexivity.
Defined.

(** X19. After a delete whose cleanup met no obstacle, when every note
    file left has an integer prefix: no note is open, the editor and the
    backlinks box are empty, the sidebar lists the notes left by ascending
    ID, the tag list shows their tags, and the one dialog is "Deleted". *)
Theorem delete_note_resets_the_window (w : world) (f i : string) :
  NoDup (listdir (notes w)) ->
  current_file (ui w) = Some f -> current_id (ui w) = Some i ->
  In f (listdir (notes w)) ->
  (forall e, In e (notes w) -> fst e <> f -> blocks_cleanup i e = false) ->
  (forall g, In g (list_note_files (notes w)) -> g <> f -> sort_key g <> None) ->
  exists l,
    ui (snd (delete_note true w))
    = mkApp None None l (extract_tags (notes (snd (delete_note true w)))) [] ""
    /\ Permutation l (list_note_files (notes (snd (delete_note true w))))
    /\ StronglySorted id_le l
    /\ dialogs (snd (delete_note true w))
       = dialogs w ++ [showinfo "Deleted" ("Deleted " ++ f ++ " and updated backlinks")].
Proof.
  intros Hnd Hf Hi Hin Hok Hint.
  rewrite (delete_note_cleaned w f i Hnd Hf Hi Hin Hok), after_cleanup_run.
  cbn [notes set_notes ui dialogs].
  set (rest := map (cleaned i) (filter (fun e => negb (String.eqb (fst e) f)) (notes w))).
  destruct (sorted_by_id_ok (list_note_files rest)) as (l & Hl & Hp & Hs).
  { intros g Hg. unfold rest, list_note_files in Hg. rewrite listdir_cleaned in Hg.
    fold (list_note_files (filter (fun e => negb (String.eqb (fst e) f)) (notes w))) in Hg.
    rewrite list_note_files_without in Hg. apply filter_In in Hg as [Hg Hne].
    apply negb_true_iff, String.eqb_neq in Hne. now apply Hint. }
  rewrite Hl. exists l. cbn [snd ui notes dialogs]. auto.
Qed.

Lemma delete_note_resets_witness :
  exists l,
    ui (snd (delete_note true
      (mkWorld [("1_a.md", plain "A"); ("3_c.md", plain "#t"); ("2_b.md", plain "[[1]]")]
               (mkApp (Some "1_a.md") (Some "1") [] [] ["2_b.md"] "A") [])))
    = mkApp None None l ["#t"] [] ""
    /\ l = ["2_b.md"; "3_c.md"].
Proof.
  destruct (delete_note_resets_the_window
              (mkWorld [("1_a.md", plain "A"); ("3_c.md", plain "#t"); ("2_b.md", plain "[[1]]")]
                       (mkApp (Some "1_a.md") (Some "1") [] [] ["2_b.md"] "A") [])
              "1_a.md" "1") as (l & Hui & _).
  - repeat constructor; simpl; intuition discriminate.
  - reflexivity.
  - reflexivity.
  - simpl. auto.
  - intros e He Hne. simpl in He. each_entry He; try (now elim Hne); reflexivity.
  - intros g Hg Hne. simpl in Hg. each_entry Hg; discriminate.
  - exists l. vm_compute in Hui. injection Hui as <-. split; reflexivity.
Defined.

(** X20. After a delete whose cleanup met no obstacle, when a note file
    that is left has no integer prefix: the note is deleted and the
    backlinks are cleaned all the same, yet the dialog "Deleted" is followed
    by the dialog "Could not delete note", and the sidebar is left empty. *)
Theorem delete_note_reports_failure_after_success (w : world) (f i g : string) :
  NoDup (listdir (notes w)) ->
  current_file (ui w) = Some f -> current_id (ui w) = Some i ->
  In f (listdir (notes w)) ->
  (forall e, In e (notes w) -> fst e <> f -> blocks_cleanup i e = false) ->
  In g (list_note_files (notes w)) -> g <> f -> sort_key g = None ->
  exists lit,
    delete_note true w
    = (Ok tt,
       mkWorld (map (cleaned i) (filter (fun e => negb (String.eqb (fst e) f)) (notes w)))
               (mkApp None None [] (tag_list (ui w)) [] "")
               ((dialogs w ++ [showinfo "Deleted" ("Deleted " ++ f ++ " and updated backlinks")])
                ++ [showerror "Error" "Could not delete note:" (ValueError lit)])).
Proof.
  intros Hnd Hf Hi Hin Hok Hg Hne Hk.
  rewrite (delete_note_cleaned w f i Hnd Hf Hi Hin Hok), after_cleanup_run.
  cbn [notes set_notes ui dialogs]. unfold sorted_by_id.
  destruct (with_keys_raise
              (list_note_files
                 (map (cleaned i) (filter (fun e => negb (String.eqb (fst e) f)) (notes w))))
              g) as [lit ->]; [| exact Hk | eauto].
  unfold list_note_files. rewrite listdir_cleaned.
  fold (list_note_files (filter (fun e => negb (String.eqb (fst e) f)) (notes w))).
  rewrite list_note_files_without. apply filter_In. split; [exact Hg|].
  now apply negb_true_iff, String.eqb_neq.
Qed.

Lemma delete_note_reports_failure_witness :
  exists lit,
    delete_note true
      (mkWorld [("1_a.md", plain "A"); ("draft.md", plain "[[1]]")]
               (mkApp (Some "1_a.md") (Some "1") ["1_a.md"] [] [] "A") [])
    = (Ok tt,
       mkWorld [("draft.md", plain "(deleted note 1)")]
               (mkApp None None [] [] [] "")
               [showinfo "Deleted" "Deleted 1_a.md and updated backlinks";
                showerror "Error" "Could not delete note:" (ValueError lit)]).
Proof.
  destruct (delete_note_reports_failure_after_success
              (mkWorld [("1_a.md", plain "A"); ("draft.md", plain "[[1]]")]
                       (mkApp (Some "1_a.md") (Some "1") ["1_a.md"] [] [] "A") [])
              "1_a.md" "1" "draft.md") as [lit Hrun].
  - repeat constructor; simpl; intuition discriminate.
  - reflexivity.
  - reflexivity.
  - simpl. auto.
  - intros e He Hne. simpl in He. each_entry He; try (now elim Hne); reflexivity.
  - simpl. auto.
  - discriminate.
  - reflexivity.
  - exists lit. exact Hrun.
Defined.

(* ------------------------------------------------------------------ *)
(** *** More on creating and listing *)

Section CreateMore.

Lemma new_note_run (title now : string) (w : world) :
  creatable title ->
  new_note (Some title) now w =
  let fn := generate_filename (get_next_id (notes w)) title in
  let s' := notes w ++ [(fn, mkFile (note_template title (get_next_id (notes w)) now) true true)] in
  match sorted_by_id (list_note_files s') with
  | Ok l =>
      (Ok tt,
       mkWorld s' (set_tag_list (extract_tags s') (set_sidebar l (ui w)))
               (dialogs w ++ [showinfo "Note Created" ("Created note: " ++ fn)]))
  | Raised e => (Raised e, mkWorld s' (set_sidebar [] (ui w)) (dialogs w))
  end.
Proof.
  intros [Hne Hlegal]. destruct title as [|c r]; [congruence|].
  rewrite new_note_unfold. unfold bind at 1. unfold open_write, Fs.write.
  rewrite (proj2 (lookup_None _ _) (generated_fresh (notes w) (String c r))).
  unfold get_next_id at 1. rewrite generated_legal, Hlegal.
  fold (get_next_id (notes w)). cbv zeta.
  unfold bind at 1. rewrite refresh_list_run. cbn [notes set_notes ui].
  destruct (sorted_by_id _) as [l|e]; [|reflexivity].
  unfold bind at 1. rewrite refresh_tags_run. cbn [keep_of]. rewrite filter_true.
  reflexivity.
Qed.

Lemma read_created (s : store) (title data : string) :
  Fs.read (generate_filename (get_next_id s) title)
          (s ++ [(generate_filename (get_next_id s) title, mkFile data true true)])
  = Some (Py.universal_newlines data).
Proof.
  unfold Fs.read. rewrite lookup_app_skip by apply generated_fresh.
  now rewrite lookup_head.
Qed.

Lemma created_is_listed (s : store) (title : string) (fl : file) :
  In (generate_filename (get_next_id s) title)
     (list_note_files (s ++ [(generate_filename (get_next_id s) title, fl)])).
Proof.
  rewrite list_note_files_app. apply in_or_app. right.
  unfold list_note_files, listdir. simpl. unfold get_next_id.
  rewrite generated_is_note_file. simpl. auto.
Qed.

Lemma in_extract_tags (s : store) (t f c : string) :
  In f (list_note_files s) -> Fs.read f s = Some (Py.universal_newlines c) ->
  tag_at t c ->
  In t (extract_tags s).
Proof.
  intros Hf Hr Ht. unfold extract_tags.
  eapply Permutation_in; [symmetry; apply sorted_perm|].
  apply collect_tags_In. right. exists f, (Py.universal_newlines c).
  split; [exact Hf|]. split; [exact Hr|].
  rewrite findall_tags_newlines. now apply findall_tags_spec.
Qed.

Lemma with_keys_snoc (files : list string) (kl : list (Z * string)) (x : string) (k : Z) :
  with_keys files = Ok kl -> sort_key x = Some k ->
  with_keys (files ++ [x]) = Ok (kl ++ [(k, x)]).
Proof.
  revert kl; induction files as [|y r IH]; intros kl H Hk; simpl in *.
  - injection H as <-. now rewrite Hk.
  - destruct (sort_key y); [|discriminate].
    destruct (with_keys r) as [l|]; [|discriminate].
    injection H as <-. now rewrite (IH l eq_refl Hk).
Qed.

Lemma insert_sorted_snoc {A : Type} (le : A -> A -> bool) (y x : A) (l : list A) :
  le y x = true ->
  Py.insert_sorted le y (l ++ [x]) = Py.insert_sorted le y l ++ [x].
Proof.
  intros H. induction l as [|z l IH]; simpl.
  - now rewrite H.
  - destruct (le y z); [reflexivity | now rewrite IH].
Qed.

Lemma sorted_snoc {A : Type} (le : A -> A -> bool) (x : A) (l : list A) :
  (forall y, In y l -> le y x = true) ->
  Py.sorted le (l ++ [x]) = Py.sorted le l ++ [x].
Proof.
  intros H. unfold Py.sorted. induction l as [|y l IH]; [reflexivity|].
  simpl. rewrite IH by (intros z Hz; apply H; simpl; auto).
  apply insert_sorted_snoc. apply H. simpl. auto.
Qed.

Lemma with_keys_keys (files : list string) (kl : list (Z * string)) :
  with_keys files = Ok kl ->
  map snd kl = files /\ Forall (fun e => sort_key (snd e) = Some (fst e)) kl.
Proof.
  revert kl; induction files as [|y r IH]; intros kl H; simpl in *.
  - injection H as <-. auto.
  - destruct (sort_key y) as [k|] eqn:Hk; [|discriminate].
    destruct (with_keys r) as [l|]; [|discriminate].
    injection H as <-. destruct (IH l eq_refl) as [Hm Hf].
    simpl. rewrite Hm. auto.
Qed.

(** The new note file goes behind every note file there was. *)
Lemma sorted_by_id_created (s : store) (title : string) (fl : file) (l : list string) :
  sorted_by_id (list_note_files s) = Ok l ->
  sorted_by_id (list_note_files (s ++ [(generate_filename (get_next_id s) title, fl)]))
  = Ok (l ++ [generate_filename (get_next_id s) title]).
Proof.
  unfold sorted_by_id. intros H.
  destruct (with_keys (list_note_files s)) as [kl|] eqn:Hk; [|discriminate].
  injection H as <-.
  rewrite list_note_files_app. unfold list_note_files at 2, listdir. simpl.
  unfold get_next_id at 1. rewrite generated_is_note_file. fold (get_next_id s).
  rewrite (with_keys_snoc _ kl _ (next_id_value s) Hk)
    by (unfold get_next_id; apply generated_sort_key).
  rewrite sorted_snoc; [now rewrite map_app|].
  intros [k y] Hy. unfold key_le. cbn [fst].
  destruct (with_keys_keys _ _ Hk) as [Hm Hf].
  rewrite Forall_forall in Hf. specialize (Hf _ Hy). cbn [fst snd] in Hf.
  assert (Hn : numeric_prefix s k).
  { exists y. split; [|exact Hf]. rewrite <- Hm. now apply (in_map snd) in Hy. }
  apply next_id_above in Hn. lia.
Qed.

Lemma template_has_example (title note_id now : string) :
  tag_at "#example" (note_template title note_id now).
Proof.
  exists ("# " ++ title ++ nl ++ nl ++ "ID: " ++ note_id ++ nl ++ "Created: " ++ now ++ nl ++ nl
          ++ "Links: Use [[note_id]] to reference another note." ++ nl ++ "Tags: Add with ")%string,
         "example", nl.
  split; [|repeat split; discriminate].
  unfold note_template.
  change "Tags: Add with #example" with ("Tags: Add with " ++ "#example")%string.
  rewrite !append_assoc. reflexivity.
Qed.

Lemma template_has_link_text (title note_id now : string) :
  occurs_in (link_token "note_id") (note_template title note_id now).
Proof.
  exists ("# " ++ title ++ nl ++ nl ++ "ID: " ++ note_id ++ nl ++ "Created: " ++ now ++ nl ++ nl
          ++ "Links: Use ")%string,
         (" to reference another note." ++ nl ++ "Tags: Add with #example" ++ nl)%string.
  unfold note_template.
  change "Links: Use [[note_id]] to reference another note."
    with ("Links: Use " ++ link_token "note_id" ++ " to reference another note.")%string.
  rewrite !append_assoc. reflexivity.
Qed.

Lemma word_boundary_append (post rest : string) :
  word_boundary post -> word_boundary rest -> word_boundary (post ++ rest).
Proof. destruct post; simpl; auto. Qed.

Lemma template_has_title_tags (t title note_id now : string) :
  tag_at t title -> tag_at t (note_template title note_id now).
Proof.
  intros (pre & w & post & -> & Hne & Hw & Hb & ->).
  exists ("# " ++ pre)%string, w,
         (post ++ nl ++ nl ++ "ID: " ++ note_id ++ nl ++ "Created: " ++ now ++ nl ++ nl
          ++ "Links: Use [[note_id]] to reference another note." ++ nl
          ++ "Tags: Add with #example" ++ nl)%string.
  split; [|split; [exact Hne | split; [exact Hw | split; [|reflexivity]]]].
  - unfold note_template.
    change (String "#" (w ++ post)) with ("#" ++ w ++ post)%string.
    change (String "#" (w ++ post ++ nl ++ nl ++ "ID: " ++ note_id ++ nl ++ "Created: " ++ now
                          ++ nl ++ nl ++ "Links: Use [[note_id]] to reference another note."
                          ++ nl ++ "Tags: Add with #example" ++ nl))
      with ("#" ++ w ++ post ++ nl ++ nl ++ "ID: " ++ note_id ++ nl ++ "Created: " ++ now
                          ++ nl ++ nl ++ "Links: Use [[note_id]] to reference another note."
                          ++ nl ++ "Tags: Add with #example" ++ nl)%string.
    rewrite !append_assoc. reflexivity.
  - apply word_boundary_append; [exact Hb | reflexivity].
Qed.

End CreateMore.

(** X21. When every note file has an integer prefix, creating a note for
    a title that can be turned into a file returns after the dialog "Note
    Created", puts the new file on the last line of the sidebar, behind the
    listing there was, and refreshes the tag list. *)
Theorem new_note_lists_the_note_last (title now : string) (w : world) :
  creatable title ->
  (forall f, In f (list_note_files (notes w)) -> sort_key f <> None) ->
  exists l w',
    new_note (Some title) now w = (Ok tt, w')
    /\ refresh_list None w = (Ok tt, set_ui (set_sidebar l (ui w)) w)
    /\ sidebar (ui w') = l ++ [generate_filename (get_next_id (notes w)) title]
    /\ tag_list (ui w') = extract_tags (notes w')
    /\ dialogs w'
       = dialogs w ++ [showinfo "Note Created"
                         ("Created note: " ++ generate_filename (get_next_id (notes w)) title)].
Proof.
  intros Hc Hint. destruct (sorted_by_id_ok _ Hint) as (l & Hl & _ & _).
  rewrite (new_note_run _ _ _ Hc). cbv zeta.
  rewrite (sorted_by_id_created _ _ _ _ Hl).
  exists l. eexists. split; [reflexivity|].
  split; [rewrite refresh_list_run, Hl; cbn [keep_of]; now rewrite filter_true|].
  repeat split.
Qed.

Lemma new_note_lists_witness :
  exists l w',
    new_note (Some "ten") "" (idle [("10_x.md", plain ""); ("9_y.md", plain "")]) = (Ok tt, w')
    /\ sidebar (ui w') = l ++ ["11_ten.md"]
    /\ l = ["9_y.md"; "10_x.md"].
Proof.
  destruct (new_note_lists_the_note_last "ten" ""
              (idle [("10_x.md", plain ""); ("9_y.md", plain "")]))
    as (l & w' & Hrun & Hlist & Hside & _).
  - split; [discriminate | reflexivity].
  - intros f Hf. simpl in Hf. each_entry Hf; discriminate.
  - exists l, w'. split; [exact Hrun|]. split; [exact Hside|].
    vm_compute in Hlist. now injection Hlist as <-.
Defined.

(** X22. When some note file has no integer prefix, creating a note for a
    title that can be turned into a file still writes the file, but the
    method then raises [ValueError]: no dialog is shown, the sidebar is
    left empty and the tag list is not refreshed. *)
Theorem new_note_raises_after_writing (title now : string) (w : world) (g : string) :
  creatable title ->
  In g (list_note_files (notes w)) -> sort_key g = None ->
  exists lit,
    new_note (Some title) now w
    = (Raised (ValueError lit),
       mkWorld (notes w ++ [(generate_filename (get_next_id (notes w)) title,
                             mkFile (note_template title (get_next_id (notes w)) now) true true)])
               (set_sidebar [] (ui w)) (dialogs w)).
Proof.
  intros Hc Hg Hk. rewrite (new_note_run _ _ _ Hc). cbv zeta. unfold sorted_by_id.
  destruct (with_keys_raise
              (list_note_files
                 (notes w ++ [(generate_filename (get_next_id (notes w)) title,
                               mkFile (note_template title (get_next_id (notes w)) now) true true)]))
              g) as [lit ->]; [| exact Hk | eauto].
  rewrite list_note_files_app. apply in_or_app. now left.
Qed.

Lemma new_note_raises_witness :
  exists lit,
    new_note (Some "t") "" (idle [("draft.md", plain "")])
    = (Raised (ValueError lit),
       mkWorld (notes (idle [("draft.md", plain "")])
                  ++ [(generate_filename (get_next_id (notes (idle [("draft.md", plain "")]))) "t",
                       mkFile (note_template "t"
                                 (get_next_id (notes (idle [("draft.md", plain "")]))) "") true true)])
               (set_sidebar [] (ui (idle [("draft.md", plain "")])))
               (dialogs (idle [("draft.md", plain "")]))).
Proof.
  apply (new_note_raises_after_writing "t" "" (idle [("draft.md", plain "")]) "draft.md").
  - split; [discriminate | reflexivity].
  - simpl. auto.
  - reflexivity.
Defined.

(** X23. Every note [new_note] creates carries the tag ["#example"] and
    the tags written in its title, and is a backlink of the ID
    ["note_id"]: the hint lines of the template are read like any text. *)
Theorem created_note_carries_template_tokens (title now : string) (w : world) :
  creatable title ->
  In "#example" (extract_tags (notes (snd (new_note (Some title) now w))))
  /\ (forall t, tag_at t title ->
                In t (extract_tags (notes (snd (new_note (Some title) now w)))))
  /\ In (generate_filename (get_next_id (notes w)) title)
        (find_backlinks (notes (snd (new_note (Some title) now w))) "note_id").
Proof.
  intros Hc. rewrite (new_note_creates _ _ _ Hc).
  pose proof (created_is_listed (notes w) title
                (mkFile (note_template title (get_next_id (notes w)) now) true true)) as Hin.
  pose proof (read_created (notes w) title
                (note_template title (get_next_id (notes w)) now)) as Hr.
  split; [|split].
  - eapply in_extract_tags; eauto using template_has_example.
  - intros t Ht. eapply in_extract_tags; eauto using template_has_title_tags.
  - unfold find_backlinks. rewrite find_backlinks_in_filter. apply filter_In.
    split; [exact Hin|]. unfold links_to. rewrite Hr.
    apply contains_occurs, occurs_after_newlines; [reflexivity|].
    apply template_has_link_text.
Qed.

Lemma created_note_witness :
  In "#example" (extract_tags (notes (snd (new_note (Some "plan #work") "" (idle [])))))
  /\ (forall t, tag_at t "plan #work" ->
                In t (extract_tags (notes (snd (new_note (Some "plan #work") "" (idle []))))))
  /\ In (generate_filename (get_next_id (notes (idle []))) "plan #work")
        (find_backlinks (notes (snd (new_note (Some "plan #work") "" (idle [])))) "note_id").
Proof.
  apply (created_note_carries_template_tokens "plan #work" "" (idle [])).
  split; [discriminate | reflexivity].
Defined.

(* ------------------------------------------------------------------ *)
(** *** Stability of the listing *)

Section Stability.

Lemma insert_sorted_filter (k : Z) (x : Z * string) (l : list (Z * string)) :
  filter (fun e => (fst e =? k)%Z) (Py.insert_sorted key_le x l)
  = filter (fun e => (fst e =? k)%Z) (x :: l).
Proof.
  induction l as [|y l IH]; [reflexivity|]. cbn [Py.insert_sorted].
  unfold key_le at 1. destruct (fst x <=? fst y)%Z eqn:E; [reflexivity|].
  cbn [filter] in *. rewrite IH.
  destruct (fst x =? k)%Z eqn:Ex; destruct (fst y =? k)%Z eqn:Ey; try reflexivity.
  lia.
Qed.

Lemma sorted_filter (k : Z) (l : list (Z * string)) :
  filter (fun e => (fst e =? k)%Z) (Py.sorted key_le l)
  = filter (fun e => (fst e =? k)%Z) l.
Proof.
  induction l as [|x l IH]; [reflexivity|].
  cbn [Py.sorted fold_right]. fold (Py.sorted key_le l).
  rewrite insert_sorted_filter. cbn [filter]. now rewrite IH.
Qed.

Lemma filter_keyed (k : Z) (kl : list (Z * string)) :
  Forall (fun e => sort_key (snd e) = Some (fst e)) kl ->
  filter (fun x => match sort_key x with Some k' => (k' =? k)%Z | None => false end)
         (map snd kl)
  = map snd (filter (fun e => (fst e =? k)%Z) kl).
Proof.
  induction 1 as [|e kl He _ IH]; [reflexivity|].
  cbn [map filter]. rewrite He, IH. now destruct (fst e =? k)%Z.
Qed.

End Stability.

(** X24. The sort of the listing is stable: the note files whose prefix
    is a given integer, such as ["1_a.md"] and ["01_b.md"], come in the
    listing in the order the directory gave them. *)
Theorem listing_keeps_order_of_equal_ids (files l : list string) (k : Z) :
  sorted_by_id files = Ok l ->
  filter (fun x => match sort_key x with Some k' => (k' =? k)%Z | None => false end) l
  = filter (fun x => match sort_key x with Some k' => (k' =? k)%Z | None => false end) files.
Proof.
  unfold sorted_by_id. intros H.
  destruct (with_keys files) as [kl|] eqn:Hk; [|discriminate]. injection H as <-.
  destruct (with_keys_keys _ _ Hk) as [Hm Hf].
  rewrite <- Hm, !filter_keyed; [now rewrite sorted_filter | exact Hf |].
  eapply Permutation_Forall; [symmetry; apply sorted_perm | exact Hf].
Qed.

Lemma listing_keeps_order_witness :
  filter (fun x => match sort_key x with Some k' => (k' =? 1)%Z | None => false end)
         ["01_b.md"; "1_a.md"; "+1_c.md"; "2_z.md"]
  = filter (fun x => match sort_key x with Some k' => (k' =? 1)%Z | None => false end)
           ["2_z.md"; "01_b.md"; "1_a.md"; "+1_c.md"].
Proof.
  apply (listing_keeps_order_of_equal_ids
           ["2_z.md"; "01_b.md"; "1_a.md"; "+1_c.md"]
           ["01_b.md"; "1_a.md"; "+1_c.md"; "2_z.md"] 1).
  reflexivity.
Defined.
